(** * The session gateway of [server.ts]: registry, lifecycle controller,
      webhook dispatcher

    A shallow embedding of the multi-session Express server (the TypeScript
    program that follows the container recipe in [src/Dockerfile]) and the
    properties of it that the specification states.

    Conventions.
    - JavaScript values that cross the program as [any] are [JSValue] trees.
    - A JavaScript string is a Rocq [string] read as its UTF-8 bytes.
    - [Map<string, Session>] is a [gmap string loc]: the map holds
      references, the records live in [heap], so that the [session] object
      captured by a socket's handlers can outlive its registry entry.
    - Every handler (route, transport event, timer callback) runs to
      completion as one step; the interleavings considered are those of
      whole handlers.
    - The transport ([makeWASocket]), the credential store
      ([useMultiFileAuthState]) and [fetchLatestBaileysVersion] are external:
      creating a socket and loading credentials always return, the events a
      socket emits (also those that follow a logout request) and the result
      of [logout] are chosen by the environment.
    - Integers stand for JavaScript numbers; no payload with a fractional
      number is considered.
    - The routes that send messages, upload media or ask for a pairing
      code, and the SIGTERM handler, read the registry and the globals but
      change neither; they are left out. *)

From Stdlib Require Import ZArith String Ascii List Lia.
From stdpp Require Import gmap strings list fin_maps pretty.

Open Scope Z_scope.

Set Warnings "-register-all".

(** ** JavaScript values *)

Inductive JSValue : Type :=
| JUndefined
| JNull
| JBool (b : bool)
| JNum (n : Z)
| JStr (s : string)
| JArr (items : list JSValue)
| JObj (props : list (string * JSValue)).

(** [if (v)], [!v], [a && b]: JavaScript truthiness. *)
Definition truthy (v : JSValue) : bool :=
  match v with
  | JUndefined | JNull => false
  | JBool b => b
  | JNum n => negb (n =? 0)
  | JStr s => negb (String.eqb s "")
  | JArr _ | JObj _ => true
  end.

Fixpoint assoc (k : string) (props : list (string * JSValue)) : JSValue :=
  match props with
  | [] => JUndefined
  | (k', v) :: rest => if String.eqb k k' then v else assoc k rest
  end.

(** [v?.k] for a data property [k]: [undefined] when [v] is nullish, when
    [v] is a primitive or an array, and when the object has no such key. *)
Definition opt_chain (v : JSValue) (k : string) : JSValue :=
  match v with
  | JObj props => assoc k props
  | _ => JUndefined
  end.

(** [v !== n] for a number [n]. *)
Definition strict_neq_num (v : JSValue) (n : Z) : bool :=
  match v with
  | JNum m => negb (m =? n)
  | _ => true
  end.

(** ** [JSON.stringify] *)

Module JSON.

Definition dquote : ascii := ascii_of_nat 34.
Definition backslash : ascii := ascii_of_nat 92.

Definition hex_digit (n : Z) : ascii :=
  ascii_of_nat (Z.to_nat (if n <? 10 then 48 + n else 87 + n)).

(** One character of a quoted JSON string. *)
Definition escape_char (c : ascii) : string :=
  let n := Z.of_nat (nat_of_ascii c) in
  if n =? 34 then String backslash (String dquote "")
  else if n =? 92 then String backslash (String backslash "")
  else if n =? 8 then String backslash "b"
  else if n =? 12 then String backslash "f"
  else if n =? 10 then String backslash "n"
  else if n =? 13 then String backslash "r"
  else if n =? 9 then String backslash "t"
  else if n <? 32 then
    String backslash ("u00" +:+ String (hex_digit (n / 16)) (String (hex_digit (n mod 16)) ""))
  else String c "".

Fixpoint escape (s : string) : string :=
  match s with
  | EmptyString => ""
  | String c rest => escape_char c +:+ escape rest
  end.

Definition quote (s : string) : string :=
  String dquote (escape s) +:+ String dquote "".

Definition join (sep : string) (parts : list string) : string :=
  String.concat sep parts.

(** [JSON.stringify v]: [None] is the JavaScript result [undefined].
    Inside an array [undefined] prints as [null]; inside an object a
    property whose value is [undefined] is left out. *)
Fixpoint stringify (v : JSValue) : option string :=
  match v with
  | JUndefined => None
  | JNull => Some "null"
  | JBool true => Some "true"
  | JBool false => Some "false"
  | JNum n => Some (pretty n)
  | JStr s => Some (quote s)
  | JArr items =>
      let parts :=
        (fix go (l : list JSValue) : list string :=
           match l with
           | [] => []
           | x :: r => default "null" (stringify x) :: go r
           end) items in
      Some ("[" +:+ join "," parts +:+ "]")
  | JObj props =>
      let parts :=
        (fix go (l : list (string * JSValue)) : list string :=
           match l with
           | [] => []
           | (k, x) :: r =>
               match stringify x with
               | Some t => (quote k +:+ ":" +:+ t) :: go r
               | None => go r
               end
           end) props in
      Some ("{" +:+ join "," parts +:+ "}")
  end.

End JSON.

(** ** [crypto.createHmac('sha256', key).update(text).digest('hex')] *)

Module Crypto.

Definition bytes_of_string (s : string) : list Z :=
  map (fun c => Z.of_nat (nat_of_ascii c)) (list_ascii_of_string s).

Definition wrap (x : Z) : Z := x mod 4294967296.
Definition plus32 (x y : Z) : Z := wrap (x + y).
Definition rotr (n x : Z) : Z :=
  Z.lor (Z.shiftr x n) (wrap (Z.shiftl x (32 - n))).
Definition not32 (x : Z) : Z := Z.lxor x 4294967295.

Definition choose (x y z : Z) : Z := Z.lxor (Z.land x y) (Z.land (not32 x) z).
Definition majority (x y z : Z) : Z :=
  Z.lxor (Z.lxor (Z.land x y) (Z.land x z)) (Z.land y z).
Definition big_sigma0 (x : Z) : Z := Z.lxor (Z.lxor (rotr 2 x) (rotr 13 x)) (rotr 22 x).
Definition big_sigma1 (x : Z) : Z := Z.lxor (Z.lxor (rotr 6 x) (rotr 11 x)) (rotr 25 x).
Definition small_sigma0 (x : Z) : Z := Z.lxor (Z.lxor (rotr 7 x) (rotr 18 x)) (Z.shiftr x 3).
Definition small_sigma1 (x : Z) : Z := Z.lxor (Z.lxor (rotr 17 x) (rotr 19 x)) (Z.shiftr x 10).

(** The sixty-four round constants and the initial hash value of
    FIPS 180-4, in decimal. *)
Definition round_constants : list Z :=
  [1116352408; 1899447441; 3049323471; 3921009573; 961987163; 1508970993;
   2453635748; 2870763221; 3624381080; 310598401; 607225278; 1426881987;
   1925078388; 2162078206; 2614888103; 3248222580; 3835390401; 4022224774;
   264347078; 604807628; 770255983; 1249150122; 1555081692; 1996064986;
   2554220882; 2821834349; 2952996808; 3210313671; 3336571891; 3584528711;
   113926993; 338241895; 666307205; 773529912; 1294757372; 1396182291;
   1695183700; 1986661051; 2177026350; 2456956037; 2730485921; 2820302411;
   3259730800; 3345764771; 3516065817; 3600352804; 4094571909; 275423344;
   430227734; 506948616; 659060556; 883997877; 958139571; 1322822218;
   1537002063; 1747873779; 1955562222; 2024104815; 2227730452; 2361852424;
   2428436474; 2756734187; 3204031479; 3329325298].

Definition initial_hash : list Z :=
  [1779033703; 3144134277; 1013904242; 2773480762;
   1359893119; 2600822924; 528734635; 1541459225].

Fixpoint be_bytes (count : nat) (x : Z) : list Z :=
  match count with
  | O => []
  | S k => be_bytes k (x / 256) ++ [x mod 256]
  end.

Definition be_word (bs : list Z) : Z :=
  fold_left (fun acc b => acc * 256 + b) bs 0.

(** Message padding: a one bit, zeros, the bit length on eight bytes. *)
Definition pad (msg : list Z) : list Z :=
  let len := Z.of_nat (length msg) in
  let zeros := Z.to_nat ((55 - len) mod 64) in
  msg ++ [128] ++ repeat 0 zeros ++ be_bytes 8 (8 * len).

Fixpoint chunks (fuel size : nat) (l : list Z) : list (list Z) :=
  match fuel with
  | O => []
  | S k =>
      match l with
      | [] => []
      | _ => firstn size l :: chunks k size (skipn size l)
      end
  end.

Definition words_of_block (block : list Z) : list Z :=
  map be_word (chunks 16 4 block).

(** The message schedule, newest word first while it is being extended. *)
Fixpoint extend (count : nat) (newest_first : list Z) : list Z :=
  match count with
  | O => newest_first
  | S k =>
      let at_ i := nth i newest_first 0 in
      let next :=
        plus32 (plus32 (small_sigma1 (at_ 1%nat)) (at_ 6%nat))
               (plus32 (small_sigma0 (at_ 14%nat)) (at_ 15%nat)) in
      extend k (next :: newest_first)
  end.

Definition schedule (block : list Z) : list Z :=
  rev (extend 48 (rev (words_of_block block))).

Definition round (regs : list Z) (kw : Z * Z) : list Z :=
  match regs with
  | [a; b; c; d; e; f; g; h] =>
      let t1 :=
        plus32 (plus32 (plus32 h (big_sigma1 e)) (choose e f g))
               (plus32 (fst kw) (snd kw)) in
      let t2 := plus32 (big_sigma0 a) (majority a b c) in
      [plus32 t1 t2; a; b; c; plus32 d t1; e; f; g]
  | _ => regs
  end.

Definition compress (hash block : list Z) : list Z :=
  let regs := fold_left round (combine round_constants (schedule block)) hash in
  map (fun p => plus32 (fst p) (snd p)) (combine hash regs).

Definition sha256 (msg : list Z) : list Z :=
  let padded := pad msg in
  let blocks := chunks (length padded) 64 padded in
  flat_map (be_bytes 4) (fold_left compress blocks initial_hash).

Definition block_key (key : list Z) : list Z :=
  let k := if (64 <? Z.of_nat (length key)) then sha256 key else key in
  k ++ repeat 0 (64 - length k)%nat.

Definition hmac_sha256 (key msg : list Z) : list Z :=
  let k := block_key key in
  let inner := map (Z.lxor 54) k in
  let outer := map (Z.lxor 92) k in
  sha256 (outer ++ sha256 (inner ++ msg)).

Definition hex_of_bytes (bs : list Z) : string :=
  string_of_list_ascii
    (flat_map (fun b => [JSON.hex_digit (b / 16); JSON.hex_digit (b mod 16)]) bs).

(** [createHmac('sha256', key).update(text).digest('hex')]. *)
Definition createHmac_sha256_hex (key text : string) : string :=
  hex_of_bytes (hmac_sha256 (bytes_of_string key) (bytes_of_string text)).

End Crypto.

(** ** [Date]: milliseconds since the epoch, [toISOString] *)

Module JSDate.

Definition ms_per_day : Z := 86400000.

(** Year, month and day of a day count since 1970-01-01 (proleptic
    Gregorian calendar, March-based years inside 400-year eras). *)
Definition civil (days : Z) : Z * Z * Z :=
  let z := days + 719468 in
  let era := z / 146097 in
  let doe := z - era * 146097 in
  let yoe := (doe - doe / 1460 + doe / 36524 - doe / 146096) / 365 in
  let doy := doe - (365 * yoe + yoe / 4 - yoe / 100) in
  let mp := (5 * doy + 2) / 153 in
  let d := doy - (153 * mp + 2) / 5 + 1 in
  let m := if mp <? 10 then mp + 3 else mp - 9 in
  let y := yoe + era * 400 + (if m <=? 2 then 1 else 0) in
  (y, m, d).

Definition digits (width : nat) (n : Z) : string :=
  let s := pretty n in
  string_of_list_ascii (repeat "0"%char (width - String.length s)) +:+ s.

Definition year_text (y : Z) : string :=
  if (0 <=? y) && (y <=? 9999) then digits 4 y
  else if y <? 0 then "-" +:+ digits 6 (- y)
  else "+" +:+ digits 6 y.

(** [new Date(ms).toISOString()]. *)
Definition toISOString (ms : Z) : string :=
  let '(y, m, d) := civil (ms / ms_per_day) in
  let t := ms mod ms_per_day in
  year_text y +:+ "-" +:+ digits 2 m +:+ "-" +:+ digits 2 d +:+ "T"
  +:+ digits 2 (t / 3600000) +:+ ":" +:+ digits 2 (t / 60000 mod 60) +:+ ":"
  +:+ digits 2 (t / 1000 mod 60) +:+ "." +:+ digits 3 (t mod 1000) +:+ "Z".

End JSDate.

(** ** The program state *)

(** A reference to a [Session] object, and a socket made by [makeWASocket]. *)
Abbreviation loc := nat (only parsing).
Abbreviation sockid := nat (only parsing).

(** [interface Session]; the fields carry the prefix [s_] because [id],
    [sock] and [qrCode] are also names of globals. *)
Record Session := mkSession {
  s_id : string;
  s_sock : option sockid;
  s_qrCode : option string;
  s_status : string;
  s_createdAt : Z
}.

Definition with_qrCode (q : option string) (s : Session) : Session :=
  mkSession (s_id s) (s_sock s) q (s_status s) (s_createdAt s).
Definition with_status (t : string) (s : Session) : Session :=
  mkSession (s_id s) (s_sock s) (s_qrCode s) t (s_createdAt s).

(** [WEBHOOK_CONFIG]. *)
Record WebhookConfig := mkConfig {
  url : string;
  secret : string;
  events : list string
}.

(** What the handlers registered on one socket captured: [sessionId],
    the [session] object and the folder behind [saveCreds]. *)
Record Closure := mkClosure {
  c_sessionId : string;
  c_session : loc;
  c_authFolder : string
}.

Arguments mkClosure c_sessionId c_session%_nat c_authFolder.

(** A pending [setTimeout(() => initializeWhatsApp(sessionId), ms)]. *)
Record Timer := mkTimer {
  t_due : Z;
  t_sessionId : string
}.

Record HttpRequest := mkRequest {
  rq_url : string;
  rq_data : JSValue;
  rq_headers : list (string * string);
  rq_timeout : Z
}.

(** [res.status(code).json(body)]. *)
Record Response := mkResponse {
  code : Z;
  body : JSValue
}.

(** What the remote endpoint does with a POST. *)
Inductive HttpReply :=
| Replied (status : Z)
| NoReplyInTime
| ConnectionRefused.

Inductive LogoutOutcome :=
| LogoutResolves
| LogoutRejects (error : JSValue).

(** Everything the program does to the outside, in program order. *)
Inductive Effect :=
| ConsoleLog (args : list JSValue)
| ConsoleError (args : list JSValue)
| LoggerInfo (obj : JSValue) (msg : string)
| LoggerError (obj : JSValue) (msg : string)
| AxiosPost (req : HttpRequest)
| SetTimeout (sessionId : string) (ms : Z)
| LoadAuthState (authFolder : string)
| MakeSocket (s : sockid) (authFolder : string)
| SockLogout (s : sockid)
| SaveCreds (authFolder : string)
| Respond (r : Response)
| UnhandledRejection (error : JSValue).

Record State := mkState {
  sessions : gmap string loc;
  heap : list Session;
  sockets : list Closure;
  g_sock : option sockid;
  g_qrCode : option string;
  g_connectionStatus : string;
  WEBHOOK_CONFIG : WebhookConfig;
  timers : list Timer;
  clock : Z;
  effects : list Effect;
  (** the environment: the reply to the POST logged at a given position,
      and the answer of [fetchLatestBaileysVersion] *)
  net : nat -> HttpReply;
  latest : list Z * bool
}.

Definition set_sessions (f : gmap string loc -> gmap string loc) (st : State) : State :=
  mkState (f (sessions st)) (heap st) (sockets st) (g_sock st) (g_qrCode st)
          (g_connectionStatus st) (WEBHOOK_CONFIG st) (timers st) (clock st)
          (effects st) (net st) (latest st).
Definition set_heap (f : list Session -> list Session) (st : State) : State :=
  mkState (sessions st) (f (heap st)) (sockets st) (g_sock st) (g_qrCode st)
          (g_connectionStatus st) (WEBHOOK_CONFIG st) (timers st) (clock st)
          (effects st) (net st) (latest st).
Definition set_sockets (f : list Closure -> list Closure) (st : State) : State :=
  mkState (sessions st) (heap st) (f (sockets st)) (g_sock st) (g_qrCode st)
          (g_connectionStatus st) (WEBHOOK_CONFIG st) (timers st) (clock st)
          (effects st) (net st) (latest st).
Definition set_g_sock (v : option sockid) (st : State) : State :=
  mkState (sessions st) (heap st) (sockets st) v (g_qrCode st)
          (g_connectionStatus st) (WEBHOOK_CONFIG st) (timers st) (clock st)
          (effects st) (net st) (latest st).
Definition set_g_qrCode (v : option string) (st : State) : State :=
  mkState (sessions st) (heap st) (sockets st) (g_sock st) v
          (g_connectionStatus st) (WEBHOOK_CONFIG st) (timers st) (clock st)
          (effects st) (net st) (latest st).
Definition set_g_connectionStatus (v : string) (st : State) : State :=
  mkState (sessions st) (heap st) (sockets st) (g_sock st) (g_qrCode st)
          v (WEBHOOK_CONFIG st) (timers st) (clock st)
          (effects st) (net st) (latest st).
Definition set_config (v : WebhookConfig) (st : State) : State :=
  mkState (sessions st) (heap st) (sockets st) (g_sock st) (g_qrCode st)
          (g_connectionStatus st) v (timers st) (clock st)
          (effects st) (net st) (latest st).
Definition set_timers (f : list Timer -> list Timer) (st : State) : State :=
  mkState (sessions st) (heap st) (sockets st) (g_sock st) (g_qrCode st)
          (g_connectionStatus st) (WEBHOOK_CONFIG st) (f (timers st)) (clock st)
          (effects st) (net st) (latest st).
Definition set_clock (v : Z) (st : State) : State :=
  mkState (sessions st) (heap st) (sockets st) (g_sock st) (g_qrCode st)
          (g_connectionStatus st) (WEBHOOK_CONFIG st) (timers st) v
          (effects st) (net st) (latest st).
Definition emit (e : Effect) (st : State) : State :=
  mkState (sessions st) (heap st) (sockets st) (g_sock st) (g_qrCode st)
          (g_connectionStatus st) (WEBHOOK_CONFIG st) (timers st) (clock st)
          (effects st ++ [e]) (net st) (latest st).

(** ** Computations: state threading with [throw] and [try]/[catch] *)

Inductive Completion (A : Type) : Type :=
| Normal (a : A)
| Thrown (error : JSValue).
Arguments Normal {A} a.
Arguments Thrown {A} error.

Definition M (A : Type) : Type := State -> Completion A * State.

Definition ret {A} (a : A) : M A := fun st => (Normal a, st).
Definition throw {A} (e : JSValue) : M A := fun st => (Thrown e, st).
Definition bind {A B} (m : M A) (k : A -> M B) : M B :=
  fun st =>
    match m st with
    | (Normal a, st') => k a st'
    | (Thrown e, st') => (Thrown e, st')
    end.
Definition try_catch {A} (m : M A) (handler : JSValue -> M A) : M A :=
  fun st =>
    match m st with
    | (Normal a, st') => (Normal a, st')
    | (Thrown e, st') => handler e st'
    end.
Definition gets {A} (f : State -> A) : M A := fun st => (Normal (f st), st).
Definition modify (f : State -> State) : M unit := fun st => (Normal tt, f st).
Definition when (b : bool) (m : M unit) : M unit := if b then m else ret tt.

Notation "'let*' x ':=' c 'in' k" := (bind c (fun x => k))
  (at level 10, x name, c at level 100, k at level 200).
Notation "c ;;; k" := (bind c (fun _ => k))
  (at level 100, k at level 200, right associativity).

(** [for (const x of xs) { await body(x) }]. *)
Fixpoint for_of {A} (xs : list A) (body : A -> M unit) : M unit :=
  match xs with
  | [] => ret tt
  | x :: rest => body x ;;; for_of rest body
  end.

Definition console_log (args : list JSValue) : M unit := modify (emit (ConsoleLog args)).
Definition console_error (args : list JSValue) : M unit := modify (emit (ConsoleError args)).
Definition logger_info (obj : JSValue) (msg : string) : M unit := modify (emit (LoggerInfo obj msg)).
Definition logger_error (obj : JSValue) (msg : string) : M unit := modify (emit (LoggerError obj msg)).

(** The state a handler leaves behind; a rejection nobody catches is
    recorded. *)
Definition finish (m : M unit) (st : State) : State :=
  match m st with
  | (Normal _, st') => st'
  | (Thrown e, st') => emit (UnhandledRejection e) st'
  end.

(** ** Webhook dispatcher *)

Definition js_bool (b : bool) : string := if b then "true" else "false".

(** The rejection of [axios.post]: no reply within the timeout, no
    connection, or a status outside 2xx. *)
Definition axios_error (reply : HttpReply) : JSValue :=
  match reply with
  | Replied status =>
      JObj [("name", JStr "AxiosError");
            ("message", JStr ("Request failed with status code " +:+ pretty status));
            ("status", JNum status)]
  | NoReplyInTime =>
      JObj [("name", JStr "AxiosError"); ("code", JStr "ECONNABORTED")]
  | ConnectionRefused =>
      JObj [("name", JStr "AxiosError"); ("code", JStr "ECONNREFUSED")]
  end.

Definition accepted (reply : HttpReply) : bool :=
  match reply with
  | Replied status => (200 <=? status) && (status <? 300)
  | _ => false
  end.

(** [await axios.post(url, data, { headers, timeout })]: one request, its
    fate decided by the environment. *)
Definition axios_post (u : string) (data : JSValue)
    (headers : list (string * string)) (timeout : Z) : M unit :=
  fun st =>
    let reply := net st (length (effects st)) in
    let st' := emit (AxiosPost (mkRequest u data headers timeout)) st in
    if accepted reply then (Normal tt, st') else (Thrown (axios_error reply), st').

Definition envelope (sessionId event : string) (data : JSValue) (now : Z) : JSValue :=
  JObj [("sessionId", JStr sessionId); ("event", JStr event); ("data", data);
        ("timestamp", JStr (JSDate.toISOString now))].

(** [hmac.update(JSON.stringify(payload))]: [update] throws on [undefined]. *)
Definition serialized (payload : JSValue) : M string :=
  match JSON.stringify payload with
  | Some text => ret text
  | None => throw (JObj [("name", JStr "TypeError")])
  end.

Definition sendWebhook (event : string) (data : JSValue) (sessionId : string) : M unit :=
  try_catch
    (let* now := gets clock in
     let payload := envelope sessionId event data now in
     let* cfg := gets WEBHOOK_CONFIG in
     let* text := serialized payload in
     let signature := Crypto.createHmac_sha256_hex (secret cfg) text in
     axios_post (url cfg) payload
       [("Content-Type", "application/json"); ("x-webhook-signature", signature)]
       5000 ;;;
     logger_info (JObj [("event", JStr event); ("sessionId", JStr sessionId)])
       "Webhook sent successfully")
    (fun error =>
       logger_error
         (JObj [("error", error); ("event", JStr event); ("sessionId", JStr sessionId)])
         "Failed to send webhook").

(** ** Connection lifecycle controller *)

Definition authFolderOf (sessionId : string) : string :=
  if String.eqb sessionId "default" then "baileys_auth_info"
  else "baileys_auth_" +:+ sessionId.

(** [await useMultiFileAuthState(authFolder)]: the credentials persisted
    in the folder are read. *)
Definition useMultiFileAuthState (authFolder : string) : M unit :=
  modify (emit (LoadAuthState authFolder)).

(** [makeWASocket({...})]: a fresh socket on the state of that folder. *)
Definition makeWASocket (authFolder : string) : M sockid :=
  fun st =>
    let s := length (sockets st) in
    (Normal s, emit (MakeSocket s authFolder) st).

(** The object literal [{ id, sock, qrCode, status, createdAt }]. *)
Definition new_object (s : Session) : M loc :=
  fun st => (Normal (length (heap st)), set_heap (fun h => h ++ [s]) st).

(** [session.field = ...] on the object behind a reference. *)
Definition update_object (l : loc) (f : Session -> Session) : M unit :=
  modify (set_heap (alter f l)).

(** [socket.ev.on(...)], four times, with what the callbacks capture. *)
Definition register_handlers (c : Closure) : M unit :=
  modify (set_sockets (fun l => l ++ [c])).

Definition setTimeout_initializeWhatsApp (sessionId : string) (ms : Z) : M unit :=
  fun st =>
    (Normal tt,
     emit (SetTimeout sessionId ms)
       (set_timers (fun l => l ++ [mkTimer (clock st + ms) sessionId]) st)).

(** [update] of the [connection.update] event. *)
Record ConnectionUpdate := mkUpdate {
  connection : option string;
  lastDisconnect : JSValue;
  qr : option string
}.

(** One element of [event.messages]; [key_props] are the properties of
    the object [m.key]. *)
Record WAMessage := mkMessage {
  key_props : list (string * JSValue);
  message : JSValue;
  messageTimestamp : JSValue;
  pushName : JSValue
}.

Definition is_default (sessionId : string) : bool := String.eqb sessionId "default".

(** [initializeWhatsApp(sessionId)] up to [return socket]; the callbacks it
    registers are [onConnectionUpdate], [onCredsUpdate], [onMessagesUpsert]
    and [onMessagesUpdate] below, run with the [Closure] stored here. *)
Definition initializeWhatsApp (sessionId : string) : M sockid :=
  let authFolder := authFolderOf sessionId in
  useMultiFileAuthState authFolder ;;;
  let* v := gets latest in
  console_log [JStr ("using WA v" +:+ JSON.join "." (map pretty (fst v))
                     +:+ ", isLatest: " +:+ js_bool (snd v))] ;;;
  let* socket := makeWASocket authFolder in
  let* now := gets clock in
  let* session := new_object (mkSession sessionId (Some socket) None "connecting" now) in
  modify (set_sessions (insert sessionId session)) ;;;
  when (is_default sessionId) (modify (set_g_sock (Some socket))) ;;;
  register_handlers (mkClosure sessionId session authFolder) ;;;
  ret socket.

Section Gateway.

(** [DisconnectReason.loggedOut], a constant of the library the server
    imports. *)
Variable DisconnectReason_loggedOut : Z.

Definition on_qr (c : Closure) (q : string) : M unit :=
  update_object (c_session c) (with_qrCode (Some q)) ;;;
  when (is_default (c_sessionId c)) (modify (set_g_qrCode (Some q))) ;;;
  console_log [JStr "QR Code updated for session:"; JStr (c_sessionId c)] ;;;
  sendWebhook "qr" (JObj [("qr", JStr q)]) (c_sessionId c).

Definition shouldReconnect (lastDisconnect : JSValue) : bool :=
  strict_neq_num
    (opt_chain (opt_chain (opt_chain lastDisconnect "error") "output") "statusCode")
    DisconnectReason_loggedOut.

Definition on_close (c : Closure) (lastDisconnect : JSValue) : M unit :=
  update_object (c_session c) (with_status "disconnected") ;;;
  when (is_default (c_sessionId c)) (modify (set_g_connectionStatus "disconnected")) ;;;
  let error := opt_chain lastDisconnect "error" in
  let reconnect := shouldReconnect lastDisconnect in
  console_log [JStr "connection closed due to "; error; JStr ", reconnecting ";
               JBool reconnect] ;;;
  sendWebhook "disconnected" (JObj [("reason", error)]) (c_sessionId c) ;;;
  if reconnect then setTimeout_initializeWhatsApp (c_sessionId c) 3000
  else modify (set_sessions (delete (c_sessionId c))).

Definition on_open (c : Closure) : M unit :=
  update_object (c_session c) (with_status "connected") ;;;
  update_object (c_session c) (with_qrCode None) ;;;
  when (is_default (c_sessionId c))
    (modify (set_g_connectionStatus "connected") ;;; modify (set_g_qrCode None)) ;;;
  console_log [JStr "WhatsApp connection opened for session:"; JStr (c_sessionId c)] ;;;
  sendWebhook "connected" (JObj [("sessionId", JStr (c_sessionId c))]) (c_sessionId c).

Definition on_connecting (c : Closure) : M unit :=
  update_object (c_session c) (with_status "connecting") ;;;
  when (is_default (c_sessionId c)) (modify (set_g_connectionStatus "connecting")).

(** [if (qr)] on a [string | undefined]. *)
Definition qr_given (u : ConnectionUpdate) : option string :=
  match qr u with
  | Some q => if String.eqb q "" then None else Some q
  | None => None
  end.

(** The callback of [socket.ev.on('connection.update', ...)]. *)
Definition onConnectionUpdate (c : Closure) (u : ConnectionUpdate) : M unit :=
  match qr_given u with
  | Some q => on_qr c q
  | None => ret tt
  end ;;;
  match connection u with
  | Some state =>
      if String.eqb state "close" then on_close c (lastDisconnect u)
      else if String.eqb state "open" then on_open c
      else if String.eqb state "connecting" then on_connecting c
      else ret tt
  | None => ret tt
  end.

(** [socket.ev.on('creds.update', saveCreds)]. *)
Definition onCredsUpdate (c : Closure) : M unit :=
  modify (emit (SaveCreds (c_authFolder c))).

Definition message_data (m : WAMessage) : JSValue :=
  JObj [("key", JObj (key_props m)); ("message", message m);
        ("messageTimestamp", messageTimestamp m); ("pushName", pushName m)].

(** [!m.key.fromMe && m.message]. *)
Definition republished (m : WAMessage) : bool :=
  negb (truthy (assoc "fromMe" (key_props m))) && truthy (message m).

(** The callback of [socket.ev.on('messages.upsert', ...)];
    [JSON.stringify(m.message, null, 2)] in the console line is kept as the
    value it prints. *)
Definition onMessagesUpsert (c : Closure) (messages : list WAMessage) : M unit :=
  for_of messages (fun m =>
    when (republished m)
      (console_log [JStr "Received message:"; message m] ;;;
       sendWebhook "message" (message_data m) (c_sessionId c))).

(** The callback of [socket.ev.on('messages.update', ...)]. *)
Definition onMessagesUpdate (c : Closure) (updates : list JSValue) : M unit :=
  for_of updates (fun update => sendWebhook "status" update (c_sessionId c)).

(** ** Routes *)

Definition json (status : Z) (props : list (string * JSValue)) : M Response :=
  ret (mkResponse status (JObj props)).

Definition has (sessionId : string) (st : State) : bool :=
  bool_decide (is_Some (sessions st !! sessionId)).

(** [sessions.get(sessionId)], dereferenced. *)
Definition get (sessionId : string) (st : State) : option Session :=
  match sessions st !! sessionId with
  | Some l => heap st !! l
  | None => None
  end.

(** [POST /api/sessions/create]; the argument is [req.body.sessionId]. *)
Definition post_api_sessions_create (requested : option string) : M Response :=
  try_catch
    (let* now := gets clock in
     let sessionId := default ("session_" +:+ pretty now) requested in
     let* present := gets (has sessionId) in
     if present then json 409 [("error", JStr "Session already exists")]
     else
       initializeWhatsApp sessionId ;;;
       let* later := gets clock in
       json 200 [("sessionId", JStr sessionId); ("status", JStr "initializing");
                 ("createdAt", JStr (JSDate.toISOString later))])
    (fun error =>
       console_error [JStr "Error creating session:"; error] ;;;
       json 500 [("error", JStr "Failed to create session")]).

Definition qr_json (q : option string) : JSValue :=
  match q with
  | Some s => JStr s
  | None => JNull
  end.

Definition no_qr (q : option string) : bool :=
  match q with
  | Some s => String.eqb s ""
  | None => true
  end.

(** [GET /api/sessions/:sessionId/qr]. *)
Definition get_api_sessions_qr (sessionId : string) : M Response :=
  let* session := gets (get sessionId) in
  match session with
  | None => json 404 [("error", JStr "Session not found")]
  | Some s =>
      if no_qr (s_qrCode s) then json 404 [("error", JStr "No QR code available")]
      else json 200 [("qr", qr_json (s_qrCode s))]
  end.

(** [GET /api/sessions/:sessionId/status]. *)
Definition get_api_sessions_status (sessionId : string) : M Response :=
  let* session := gets (get sessionId) in
  match session with
  | None => json 404 [("error", JStr "Session not found")]
  | Some s =>
      json 200 [("sessionId", JStr sessionId);
                ("connected", JBool (String.eqb (s_status s) "connected"));
                ("status", JStr (s_status s));
                ("hasQR", JBool (bool_decide (is_Some (s_qrCode s))));
                ("createdAt", JStr (JSDate.toISOString (s_createdAt s)))]
  end.

(** [await session.sock.logout()]. *)
Definition logout (s : sockid) (outcome : LogoutOutcome) : M unit :=
  modify (emit (SockLogout s)) ;;;
  match outcome with
  | LogoutResolves => ret tt
  | LogoutRejects error => throw error
  end.

(** [DELETE /api/sessions/:sessionId]; [outcome] is what the transport
    does with the logout request. *)
Definition delete_api_sessions (sessionId : string) (outcome : LogoutOutcome) : M Response :=
  try_catch
    (let* session := gets (get sessionId) in
     match session with
     | None => json 404 [("error", JStr "Session not found")]
     | Some s =>
         match s_sock s with
         | Some socket => logout socket outcome
         | None => ret tt
         end ;;;
         modify (set_sessions (delete sessionId)) ;;;
         json 200 [("success", JBool true)]
     end)
    (fun error =>
       console_error [JStr "Error deleting session:"; error] ;;;
       json 500 [("error", JStr "Failed to delete session")]).

Definition given (v : option string) : bool := negb (no_qr v).

(** [POST /api/webhook/register]. *)
Definition post_api_webhook_register (new_url new_secret : option string) : M Response :=
  try_catch
    (if given new_url then
       let* cfg := gets WEBHOOK_CONFIG in
       let cfg1 := mkConfig (default "" new_url) (secret cfg) (events cfg) in
       let cfg2 :=
         if given new_secret
         then mkConfig (url cfg1) (default "" new_secret) (events cfg1)
         else cfg1 in
       modify (set_config cfg2) ;;;
       json 200 [("success", JBool true);
                 ("webhook", JObj [("url", JStr (url cfg2));
                                   ("events", JArr (map JStr (events cfg2)))])]
     else json 400 [("error", JStr "Webhook URL required")])
    (fun error =>
       console_error [JStr "Error registering webhook:"; error] ;;;
       json 500 [("error", JStr "Failed to register webhook")]).

(** [GET /health], [GET /status], [GET /qr]: the legacy endpoints. *)
Definition get_health : M Response :=
  let* st := gets (fun st => st) in
  json 200 [("status", JStr "ok"); ("whatsapp", JStr (g_connectionStatus st));
            ("timestamp", JStr (JSDate.toISOString (clock st)))].

Definition get_status : M Response :=
  let* st := gets (fun st => st) in
  json 200 [("connected", JBool (String.eqb (g_connectionStatus st) "connected"));
            ("status", JStr (g_connectionStatus st));
            ("hasQR", JBool (bool_decide (is_Some (g_qrCode st))))].

Definition get_qr : M Response :=
  let* q := gets g_qrCode in
  if no_qr q then json 404 [("error", JStr "No QR code available")]
  else json 200 [("qr", qr_json q)].

(** ** The event loop *)

(** What can happen next: the server starts listening, time passes, a
    pending timer fires, a socket emits an event, a request arrives. *)
Inductive Label :=
| Listen (port : string)
| Tick (ms : Z)
| TimerFires (i : nat)
| ConnectionUpdateEv (s : sockid) (u : ConnectionUpdate)
| CredsUpdateEv (s : sockid)
| MessagesUpsertEv (s : sockid) (messages : list WAMessage)
| MessagesUpdateEv (s : sockid) (updates : list JSValue)
| Create (requested : option string)
| SessionQr (sessionId : string)
| SessionStatus (sessionId : string)
| Delete (sessionId : string) (outcome : LogoutOutcome)
| RegisterWebhook (new_url new_secret : option string)
| Health
| Status
| Qr.

Definition respond (m : M Response) (st : State) : State :=
  match m st with
  | (Normal r, st') => emit (Respond r) st'
  | (Thrown e, st') => emit (UnhandledRejection e) st'
  end.

Definition on_socket (s : sockid) (handler : Closure -> M unit) (st : State) : option State :=
  match sockets st !! s with
  | Some c => Some (finish (handler c) st)
  | None => None
  end.

(** The callback of a timer, [() => initializeWhatsApp(sessionId)]. *)
Definition reconnect (sessionId : string) : M unit :=
  initializeWhatsApp sessionId ;;; ret tt.

(** The callback of [app.listen(PORT, ...)]: the line that reports the
    port, then [initializeWhatsApp().catch(console.error)]. *)
Definition listen (port : string) : M unit :=
  console_log [JStr ("Server running on port " +:+ port)] ;;;
  try_catch (reconnect "default") (fun error => console_error [error]).

Definition step (l : Label) (st : State) : option State :=
  match l with
  | Listen port => Some (finish (listen port) st)
  | Tick ms => if 0 <=? ms then Some (set_clock (clock st + ms) st) else None
  | TimerFires i =>
      match timers st !! i with
      | Some t =>
          if t_due t <=? clock st
          then Some (finish (reconnect (t_sessionId t)) (set_timers (delete i) st))
          else None
      | None => None
      end
  | ConnectionUpdateEv s u => on_socket s (fun c => onConnectionUpdate c u) st
  | CredsUpdateEv s => on_socket s onCredsUpdate st
  | MessagesUpsertEv s messages => on_socket s (fun c => onMessagesUpsert c messages) st
  | MessagesUpdateEv s updates => on_socket s (fun c => onMessagesUpdate c updates) st
  | Create requested => Some (respond (post_api_sessions_create requested) st)
  | SessionQr sessionId => Some (respond (get_api_sessions_qr sessionId) st)
  | SessionStatus sessionId => Some (respond (get_api_sessions_status sessionId) st)
  | Delete sessionId outcome => Some (respond (delete_api_sessions sessionId outcome) st)
  | RegisterWebhook new_url new_secret =>
      Some (respond (post_api_webhook_register new_url new_secret) st)
  | Health => Some (respond get_health st)
  | Status => Some (respond get_status st)
  | Qr => Some (respond get_qr st)
  end.

Fixpoint run (ls : list Label) (st : State) : option State :=
  match ls with
  | [] => Some st
  | l :: rest =>
      match step l st with
      | Some st' => run rest st'
      | None => None
      end
  end.

End Gateway.

Arguments TimerFires i%_nat.
Arguments ConnectionUpdateEv s%_nat u.
Arguments CredsUpdateEv s%_nat.
Arguments MessagesUpsertEv s%_nat messages.
Arguments MessagesUpdateEv s%_nat updates.

(** The module-level initial values; [env_url] and [env_secret] are
    [process.env.WEBHOOK_URL] and [process.env.WEBHOOK_SECRET]. *)
Definition or_else (v : option string) (fallback : string) : string :=
  if given v then default "" v else fallback.

Definition boot (env_url env_secret : option string) (now : Z)
    (replies : nat -> HttpReply) (version : list Z * bool) : State :=
  mkState ∅ [] [] None None "disconnected"
    (mkConfig
       (or_else env_url "https://a21e23209781.ngrok-free.app/api/whatsapp/webhook")
       (or_else env_secret "e6cff8cd6752c81bb58718052175c4bfda4a3f7ea5ed13bd208d7473bc6157ab")
       ["message"; "status"; "qr"; "connected"; "disconnected"])
    [] now [] replies version.

(** ** Observations on runs *)

(** The requests among a list of effects, in order. *)
Definition posts (es : list Effect) : list HttpRequest :=
  flat_map (fun e => match e with AxiosPost r => [r] | _ => [] end) es.

(** The reconnects armed among a list of effects. *)
Definition armed (es : list Effect) : list (string * Z) :=
  flat_map (fun e => match e with SetTimeout s ms => [(s, ms)] | _ => [] end) es.

(** The serialized envelope: [JSON.stringify] of an object is a string. *)
Definition envelope_text (sessionId event : string) (data : JSValue) (now : Z) : string :=
  default "" (JSON.stringify (envelope sessionId event data now)).

(** The request [sendWebhook] hands to [axios.post]. *)
Definition webhook_request (cfg : WebhookConfig) (now : Z)
    (event : string) (data : JSValue) (sessionId : string) : HttpRequest :=
  mkRequest (url cfg) (envelope sessionId event data now)
    [("Content-Type", "application/json");
     ("x-webhook-signature",
      Crypto.createHmac_sha256_hex (secret cfg) (envelope_text sessionId event data now))]
    5000.

(** The line [sendWebhook] logs once the request has settled. *)
Definition webhook_log (reply : HttpReply) (event sessionId : string) : Effect :=
  if accepted reply
  then LoggerInfo (JObj [("event", JStr event); ("sessionId", JStr sessionId)])
         "Webhook sent successfully"
  else LoggerError (JObj [("error", axios_error reply); ("event", JStr event);
                          ("sessionId", JStr sessionId)])
         "Failed to send webhook".

(** The state after one dispatch. *)
Definition dispatched (event : string) (data : JSValue) (sessionId : string)
    (st : State) : State :=
  emit (webhook_log (net st (length (effects st))) event sessionId)
    (emit (AxiosPost (webhook_request (WEBHOOK_CONFIG st) (clock st) event data sessionId)) st).

(** A record satisfies the pairing invariant when it holds no QR code
    while connected. *)
Definition qr_only_unconnected (s : Session) : Prop :=
  s_status s = "connected" -> s_qrCode s = None.

(** The legacy globals mirror a record. *)
Definition mirrors (st : State) (s : Session) : Prop :=
  g_connectionStatus st = s_status s /\ g_qrCode st = s_qrCode s.

(** ** Closed forms and predicates used in the statements *)

(** The state that each branch of the [connection.update] handler, and
    [initializeWhatsApp], leaves behind, written with the setters; the
    lemmas named [*_run] below prove that the code computes them. *)

Definition if_default (sessionId : string) (f : State -> State) (st : State) : State :=
  if is_default sessionId then f st else st.

Definition after_qr (c : Closure) (q : string) (st : State) : State :=
  dispatched "qr" (JObj [("qr", JStr q)]) (c_sessionId c)
    (emit (ConsoleLog [JStr "QR Code updated for session:"; JStr (c_sessionId c)])
       (if_default (c_sessionId c) (set_g_qrCode (Some q))
          (set_heap (alter (with_qrCode (Some q)) (c_session c)) st))).

Definition closing (loggedOut : Z) (c : Closure) (lastDisconnect : JSValue) (st : State) : State :=
  dispatched "disconnected" (JObj [("reason", opt_chain lastDisconnect "error")]) (c_sessionId c)
    (emit (ConsoleLog [JStr "connection closed due to "; opt_chain lastDisconnect "error";
                       JStr ", reconnecting ";
                       JBool (shouldReconnect loggedOut lastDisconnect)])
       (if_default (c_sessionId c) (set_g_connectionStatus "disconnected")
          (set_heap (alter (with_status "disconnected") (c_session c)) st))).

Definition after_close (loggedOut : Z) (c : Closure) (lastDisconnect : JSValue) (st : State) : State :=
  let st1 := closing loggedOut c lastDisconnect st in
  if shouldReconnect loggedOut lastDisconnect
  then emit (SetTimeout (c_sessionId c) 3000)
         (set_timers (fun l => l ++ [mkTimer (clock st1 + 3000) (c_sessionId c)]) st1)
  else set_sessions (delete (c_sessionId c)) st1.

Definition after_open (c : Closure) (st : State) : State :=
  dispatched "connected" (JObj [("sessionId", JStr (c_sessionId c))]) (c_sessionId c)
    (emit (ConsoleLog [JStr "WhatsApp connection opened for session:"; JStr (c_sessionId c)])
       (if_default (c_sessionId c)
          (fun s => set_g_qrCode None (set_g_connectionStatus "connected" s))
          (set_heap (alter (with_qrCode None) (c_session c))
             (set_heap (alter (with_status "connected") (c_session c)) st)))).

Definition after_connecting (c : Closure) (st : State) : State :=
  if_default (c_sessionId c) (set_g_connectionStatus "connecting")
    (set_heap (alter (with_status "connecting") (c_session c)) st).

Definition qr_part (c : Closure) (u : ConnectionUpdate) (st : State) : State :=
  match qr_given u with
  | Some q => after_qr c q st
  | None => st
  end.

Definition state_part (loggedOut : Z) (c : Closure) (u : ConnectionUpdate) (st : State) : State :=
  match connection u with
  | Some state =>
      if String.eqb state "close" then after_close loggedOut c (lastDisconnect u) st
      else if String.eqb state "open" then after_open c st
      else if String.eqb state "connecting" then after_connecting c st
      else st
  | None => st
  end.

Definition initialized (sessionId : string) (st : State) : State :=
  set_sockets
    (fun l => l ++ [mkClosure sessionId (length (heap st)) (authFolderOf sessionId)])
    (if_default sessionId (set_g_sock (Some (length (sockets st))))
       (set_sessions (insert sessionId (length (heap st)))
          (set_heap
             (fun h => h ++ [mkSession sessionId (Some (length (sockets st))) None
                               "connecting" (clock st)])
             (emit (MakeSocket (length (sockets st)) (authFolderOf sessionId))
                (emit (ConsoleLog
                         [JStr ("using WA v" +:+ JSON.join "." (map pretty (fst (latest st)))
                                +:+ ", isLatest: " +:+ js_bool (snd (latest st)))])
                   (emit (LoadAuthState (authFolderOf sessionId)) st)))))).

Fixpoint after_upsert (c : Closure) (messages : list WAMessage) (st : State) : State :=
  match messages with
  | [] => st
  | m :: rest =>
      after_upsert c rest
        (if republished m
         then dispatched "message" (message_data m) (c_sessionId c)
                (emit (ConsoleLog [JStr "Received message:"; message m]) st)
         else st)
  end.

(** [m.key.fromMe] is truthy. *)
Definition authored_by_self (m : WAMessage) : bool :=
  truthy (assoc "fromMe" (key_props m)).

(** The states used in the concrete runs below: the server as it boots
    without environment variables, every webhook answered with 200, and
    401 for [DisconnectReason.loggedOut]. *)
Definition booted : State :=
  boot None None 1730000000000 (fun _ => Replied 200) ([2; 3000; 1], true).

Definition close_with (status : Z) : ConnectionUpdate :=
  mkUpdate (Some "close")
    (JObj [("error", JObj [("output", JObj [("statusCode", JNum status)])])]) None.

(** [const { sessionId = `session_${Date.now()}` } = req.body]. *)
Definition requested_id (requested : option string) (st : State) : string :=
  default ("session_" +:+ pretty (clock st)) requested.

(** A state with more effects logged and nothing else changed. *)
Definition logged (es : list Effect) (st : State) : State :=
  mkState (sessions st) (heap st) (sockets st) (g_sock st) (g_qrCode st)
          (g_connectionStatus st) (WEBHOOK_CONFIG st) (timers st) (clock st)
          (effects st ++ es) (net st) (latest st).

(** A computation that completes normally and only logs effects. *)
Definition silent {A} (m : M A) : Prop :=
  forall st, exists a es, m st = (Normal a, logged es st).

(** The labels that call [initializeWhatsApp] for a given id: the start of
    the server for the default session, a reconnect timer of that id, a
    create request that resolves to that id. *)
Definition inserts (sessionId : string) (l : Label) (st : State) : bool :=
  match l with
  | Listen _ => is_default sessionId
  | TimerFires i =>
      match timers st !! i with
      | Some t => String.eqb (t_sessionId t) sessionId
      | None => false
      end
  | Create requested => String.eqb (requested_id requested st) sessionId
  | _ => false
  end.

(** Along a run, no step calls [initializeWhatsApp] for the id. *)
Fixpoint untouched (loggedOut : Z) (sessionId : string) (ls : list Label) (st : State) : Prop :=
  match ls with
  | [] => True
  | l :: rest =>
      inserts sessionId l st = false
      /\ match step loggedOut l st with
         | Some st' => untouched loggedOut sessionId rest st'
         | None => True
         end
  end.

Definition close_request (c : Closure) (lastDisconnect : JSValue) (st : State) : HttpRequest :=
  webhook_request (WEBHOOK_CONFIG st) (clock st) "disconnected"
    (JObj [("reason", opt_chain lastDisconnect "error")]) (c_sessionId c).

(** What one execution of the [connection.update] handler does to its
    [session] object: the QR branch, then the branch of the state. *)
Definition record_after (q : option string) (state : option string) (r : Session) : Session :=
  let r1 := match q with
            | Some code => with_qrCode (Some code) r
            | None => r
            end in
  match state with
  | Some s =>
      if String.eqb s "close" then with_status "disconnected" r1
      else if String.eqb s "open" then with_qrCode None (with_status "connected" r1)
      else if String.eqb s "connecting" then with_status "connecting" r1
      else r1
  | None => r1
  end.

(** The update names one of the three states the handler acts on. *)
Definition acts_on (state : option string) : bool :=
  match state with
  | Some s => String.eqb s "close" || String.eqb s "open" || String.eqb s "connecting"
  | None => false
  end.

Definition sets_state (u : ConnectionUpdate) : bool := acts_on (connection u).

Definition connected_record (st : State) (c : Closure) : bool :=
  match heap st !! c_session c with
  | Some r => String.eqb (s_status r) "connected"
  | None => false
  end.

(** A QR code that reaches a record which is already connected, in an
    update that changes no state. *)
Definition late_qr (l : Label) (st : State) : bool :=
  match l with
  | ConnectionUpdateEv s u =>
      match sockets st !! s with
      | Some c =>
          bool_decide (is_Some (qr_given u)) && negb (sets_state u) && connected_record st c
      | None => false
      end
  | _ => false
  end.

(** Along a run, no step delivers a late QR code. *)
Fixpoint timely (loggedOut : Z) (ls : list Label) (st : State) : Prop :=
  match ls with
  | [] => True
  | l :: rest =>
      late_qr l st = false
      /\ match step loggedOut l st with
         | Some st' => timely loggedOut rest st'
         | None => True
         end
  end.

(** ** Predicates on reachable states *)

(** The three values the program ever assigns to a status. *)
Definition assigned_status (t : string) : Prop :=
  t = "connecting" \/ t = "connected" \/ t = "disconnected".

(** Sockets, records and registry fit together: socket [k] was made
    together with record [k], its handlers captured that record and the
    folder of its id, the record carries the socket and the id; a registry
    entry points to a record whose [id] is the key; the global [sock] is a
    socket of the default session, and it is the socket of the record
    registered under that id when there is one. *)
Definition wellformed (st : State) : Prop :=
  length (heap st) = length (sockets st)
  /\ (forall k c, sockets st !! k = Some c ->
        c_session c = k
        /\ c_authFolder c = authFolderOf (c_sessionId c)
        /\ exists r, heap st !! k = Some r /\ s_id r = c_sessionId c /\ s_sock r = Some k)
  /\ (forall sessionId l, sessions st !! sessionId = Some l ->
        exists r, heap st !! l = Some r /\ s_id r = sessionId)
  /\ (forall k, g_sock st = Some k ->
        exists c, sockets st !! k = Some c /\ c_sessionId c = "default")
  /\ (forall l r, sessions st !! "default" = Some l -> heap st !! l = Some r ->
        s_sock r = g_sock st).

(** Stored values: every status is one of the three assigned ones, and a
    stored QR code is never the empty string. *)
Definition stored_values_ok (st : State) : Prop :=
  Forall (fun r => assigned_status (s_status r) /\ s_qrCode r <> Some "") (heap st)
  /\ assigned_status (g_connectionStatus st)
  /\ g_qrCode st <> Some "".

(** What one execution of the handler assigns to a pair of QR code and
    status; the record and, for the default session, the globals go
    through the same assignments. *)
Definition assigned (q : option string) (state : option string)
    (g : option string * string) : option string * string :=
  let q1 := match q with
            | Some code => Some code
            | None => fst g
            end in
  match state with
  | Some s =>
      if String.eqb s "close" then (q1, "disconnected")
      else if String.eqb s "open" then (None, "connected")
      else if String.eqb s "connecting" then (q1, "connecting")
      else (q1, snd g)
  | None => (q1, snd g)
  end.

(** The update is a close that the controller treats as terminal. *)
Definition terminal_close (loggedOut : Z) (u : ConnectionUpdate) : bool :=
  match connection u with
  | Some s => String.eqb s "close" && negb (shouldReconnect loggedOut (lastDisconnect u))
  | None => false
  end.

(** The [event] and [sessionId] fields of the envelope a request carries. *)
Definition event_of (r : HttpRequest) : JSValue := opt_chain (rq_data r) "event".
Definition session_of (r : HttpRequest) : JSValue := opt_chain (rq_data r) "sessionId".

(** The webhook events one [connection.update] gives rise to. *)
Definition events_for (u : ConnectionUpdate) : list JSValue :=
  match qr_given u with
  | Some _ => [JStr "qr"]
  | None => []
  end
  ++ match connection u with
     | Some s =>
         if String.eqb s "close" then [JStr "disconnected"]
         else if String.eqb s "open" then [JStr "connected"]
         else []
     | None => []
     end.

(** The state the [messages.update] handler leaves behind. *)
Fixpoint after_update (c : Closure) (updates : list JSValue) (st : State) : State :=
  match updates with
  | [] => st
  | update :: rest => after_update c rest (dispatched "status" update (c_sessionId c) st)
  end.

(** ** The routes that use a socket, and the shutdown handler *)

(** Calls that leave the server other than through [Effect]: a message or
    a pairing request handed to a socket, the end of the process. *)
Inductive Call :=
| SendMessage (s : sockid) (jid content : JSValue)
| RequestPairingCode (s : sockid) (phoneNumber : JSValue)
| ProcessExit (status : Z).

(** The server together with the calls it has made. *)
Record World := mkWorld {
  server : State;
  calls : list Call
}.

Definition W (A : Type) : Type := World -> Completion A * World.

Definition wret {A} (a : A) : W A := fun w => (Normal a, w).
Definition wthrow {A} (e : JSValue) : W A := fun w => (Thrown e, w).
Definition wbind {A B} (m : W A) (k : A -> W B) : W B :=
  fun w =>
    match m w with
    | (Normal a, w') => k a w'
    | (Thrown e, w') => (Thrown e, w')
    end.
Definition wtry {A} (m : W A) (handler : JSValue -> W A) : W A :=
  fun w =>
    match m w with
    | (Normal a, w') => (Normal a, w')
    | (Thrown e, w') => handler e w'
    end.

(** A computation on the server alone, run inside the larger world. *)
Definition lift {A} (m : M A) : W A :=
  fun w =>
    match m (server w) with
    | (r, st') => (r, mkWorld st' (calls w))
    end.

Definition call (c : Call) : W unit :=
  fun w => (Normal tt, mkWorld (server w) (calls w ++ [c])).

Notation "'let+' x ':=' c 'in' k" := (wbind c (fun x => k))
  (at level 10, x name, c at level 100, k at level 200).
Notation "c ;;+ k" := (wbind c (fun _ => k))
  (at level 100, k at level 200, right associativity).

Definition wjson (status : Z) (props : list (string * JSValue)) : W Response :=
  wret (mkResponse status (JObj props)).

(** What a socket does with [sendMessage] and [requestPairingCode]. *)
Inductive SendOutcome :=
| Sent (result : JSValue)
| SendRejects (error : JSValue).

Inductive PairingOutcome :=
| CodeIssued (pairing : JSValue)
| PairingRejects (error : JSValue).

(** [await socket.sendMessage(jid, content)]. *)
Definition sendMessage (s : sockid) (jid content : JSValue) (outcome : SendOutcome) : W JSValue :=
  call (SendMessage s jid content) ;;+
  match outcome with
  | Sent result => wret result
  | SendRejects error => wthrow error
  end.

(** [result?.key.id]: [undefined] for a nullish result, a [TypeError] when
    the result has no [key]. *)
Definition message_id (result : JSValue) : W JSValue :=
  match result with
  | JUndefined | JNull => wret JUndefined
  | _ =>
      match opt_chain result "key" with
      | JUndefined | JNull => wthrow (JObj [("name", JStr "TypeError")])
      | key => wret (opt_chain key "id")
      end
  end.

(** [const { name = fallback } = req.body]: the fallback replaces
    [undefined] only. *)
Definition or_default (v fallback : JSValue) : JSValue :=
  match v with
  | JUndefined => fallback
  | _ => v
  end.

(** [v === 'text'] and the like. *)
Definition is_string (v : JSValue) (s : string) : bool :=
  match v with
  | JStr t => String.eqb t s
  | _ => false
  end.

(** [req.body] of [POST /api/messages/send]. *)
Record SendBody := mkSendBody {
  sb_sessionId : option string;
  sb_to : JSValue;
  sb_message : JSValue;
  sb_type : JSValue
}.

(** [sessions.get(sessionId) || (sessionId === 'default' ? { sock, status:
    connectionStatus } : null)], as the pair of [sock] and [status]. *)
Definition addressed (sessionId : string) (st : State) : option (option sockid * string) :=
  match get sessionId st with
  | Some s => Some (s_sock s, s_status s)
  | None =>
      if is_default sessionId then Some (g_sock st, g_connectionStatus st) else None
  end.

(** [POST /api/messages/send]. *)
Definition post_api_messages_send (b : SendBody) (outcome : SendOutcome) : W Response :=
  wtry
    (let sessionId := default "default" (sb_sessionId b) in
     let type := or_default (sb_type b) (JStr "text") in
     if negb (truthy (sb_to b)) || negb (truthy (sb_message b))
     then wjson 400 [("error", JStr "to and message required")]
     else
       let+ session := lift (gets (addressed sessionId)) in
       match session with
       | Some (Some socket, status) =>
           if String.eqb status "connected" then
             if is_string type "text" then
               let+ result :=
                 sendMessage socket (sb_to b) (JObj [("text", sb_message b)]) outcome in
               let+ id := message_id result in
               wjson 200 [("success", JBool true); ("messageId", id);
                          ("sessionId", JStr sessionId)]
             else wjson 400 [("error", JStr "Unsupported message type")]
           else wjson 503 [("error", JStr "Session not connected")]
       | _ => wjson 503 [("error", JStr "Session not connected")]
       end)
    (fun error =>
       lift (console_error [JStr "Error sending message:"; error]) ;;+
       wjson 500 [("error", JStr "Failed to send message")]).

(** [POST /api/media/upload]: the placeholder answer. *)
Definition post_api_media_upload : M Response :=
  try_catch
    (let* now := gets clock in
     json 200 [("success", JBool true);
               ("mediaId", JStr ("media_" +:+ pretty now));
               ("message", JStr "Media upload endpoint - implementation pending")])
    (fun error =>
       console_error [JStr "Error uploading media:"; error] ;;;
       json 500 [("error", JStr "Failed to upload media")]).

(** [!sock || connectionStatus !== 'connected']: the global socket when the
    legacy routes may use it. *)
Definition legacy_socket (st : State) : option sockid :=
  match g_sock st with
  | Some socket => if String.eqb (g_connectionStatus st) "connected" then Some socket else None
  | None => None
  end.

(** [POST /pairing-code]; [registered] is [sock.authState.creds.registered]. *)
Definition post_pairing_code (phoneNumber registered : JSValue) (outcome : PairingOutcome)
    : W Response :=
  wtry
    (if negb (truthy phoneNumber)
     then wjson 400 [("error", JStr "Phone number required")]
     else
       let+ socket := lift (gets g_sock) in
       match socket with
       | None => wjson 503 [("error", JStr "WhatsApp not initialized")]
       | Some s =>
           if truthy registered
           then wjson 400 [("error", JStr "Already registered")]
           else
             call (RequestPairingCode s phoneNumber) ;;+
             match outcome with
             | CodeIssued pairing => wjson 200 [("code", pairing)]
             | PairingRejects error => wthrow error
             end
       end)
    (fun error =>
       lift (console_error [JStr "Error requesting pairing code:"; error]) ;;+
       wjson 500 [("error", JStr "Failed to request pairing code")]).

(** [POST /send-message], the legacy route. *)
Definition post_send_message (jid message : JSValue) (outcome : SendOutcome) : W Response :=
  wtry
    (if negb (truthy jid) || negb (truthy message)
     then wjson 400 [("error", JStr "JID and message required")]
     else
       let+ socket := lift (gets legacy_socket) in
       match socket with
       | None => wjson 503 [("error", JStr "WhatsApp not connected")]
       | Some s =>
           let+ result := sendMessage s jid (JObj [("text", message)]) outcome in
           let+ id := message_id result in
           wjson 200 [("success", JBool true); ("messageId", id)]
       end)
    (fun error =>
       lift (console_error [JStr "Error sending message:"; error]) ;;+
       wjson 500 [("error", JStr "Failed to send message")]).

(** The [switch (mediaType)] of [POST /send-media]: the key under which
    the URL goes, if the type is one of the three. *)
Definition media_key (mediaType : JSValue) : option string :=
  if is_string mediaType "image" then Some "image"
  else if is_string mediaType "video" then Some "video"
  else if is_string mediaType "audio" then Some "audio"
  else None.

(** [POST /send-media]. *)
Definition post_send_media (jid mediaUrl caption mediaType : JSValue) (outcome : SendOutcome)
    : W Response :=
  wtry
    (let kind := or_default mediaType (JStr "image") in
     if negb (truthy jid) || negb (truthy mediaUrl)
     then wjson 400 [("error", JStr "JID and mediaUrl required")]
     else
       let+ socket := lift (gets legacy_socket) in
       match socket with
       | None => wjson 503 [("error", JStr "WhatsApp not connected")]
       | Some s =>
           match media_key kind with
           | None => wjson 400 [("error", JStr "Invalid media type")]
           | Some key =>
               let+ result :=
                 sendMessage s jid
                   (JObj [("caption", caption); (key, JObj [("url", mediaUrl)])]) outcome in
               let+ id := message_id result in
               wjson 200 [("success", JBool true); ("messageId", id)]
           end
       end)
    (fun error =>
       lift (console_error [JStr "Error sending media:"; error]) ;;+
       wjson 500 [("error", JStr "Failed to send media")]).

(** [process.on('SIGTERM', ...)]: the logout is requested and not awaited. *)
Definition on_SIGTERM : W unit :=
  lift (console_log [JStr "SIGTERM received, closing connections..."]) ;;+
  let+ socket := lift (gets g_sock) in
  match socket with
  | Some s => lift (modify (emit (SockLogout s)))
  | None => wret tt
  end ;;+
  call (ProcessExit 0).

(** The socket of the addressed session when its status is connected. *)
Definition connected_socket (sessionId : string) (st : State) : option sockid :=
  match addressed sessionId st with
  | Some (Some socket, status) =>
      if String.eqb status "connected" then Some socket else None
  | _ => None
  end.

(** The answer to a send request once the socket has taken the message. *)
Definition sent_answer (outcome : SendOutcome) (extra : list (string * JSValue))
    (failure : string * string) (w : World) : Completion Response * World :=
  let failed error :=
    (Normal (mkResponse 500 (JObj [("error", JStr (snd failure))])),
     mkWorld (emit (ConsoleError [JStr (fst failure); error]) (server w)) (calls w)) in
  match outcome with
  | SendRejects error => failed error
  | Sent result =>
      match message_id result w with
      | (Normal id, _) =>
          (Normal (mkResponse 200
                     (JObj ([("success", JBool true); ("messageId", id)] ++ extra))), w)
      | (Thrown error, _) => failed error
      end
  end.

(** The status code of the answer, when there is one. *)
Definition code_of (result : Completion Response * World) : option Z :=
  match fst result with
  | Normal r => Some (code r)
  | Thrown _ => None
  end.

(** ** The single-session server of [src/server.ts] *)

Module Legacy.

(** The three module-level variables, the number of sockets made so far,
    what was printed, and the answer of [fetchLatestBaileysVersion]. *)
Record State := mkState {
  sock : option sockid;
  qrCode : option string;
  connectionStatus : string;
  made : nat;
  log : list Effect;
  latest : list Z * bool
}.

Definition print (e : Effect) (st : State) : State :=
  mkState (sock st) (qrCode st) (connectionStatus st) (made st) (log st ++ [e]) (latest st).

(** [initializeWhatsApp()] up to the registration of the handlers: the
    global [sock] becomes a fresh socket on the one credential folder. *)
Definition initializeWhatsApp (st : State) : State :=
  mkState (Some (made st)) (qrCode st) (connectionStatus st) (S (made st))
    (log st
     ++ [LoadAuthState "baileys_auth_info";
         ConsoleLog [JStr ("using WA v" +:+ JSON.join "." (map pretty (fst (latest st)))
                           +:+ ", isLatest: " +:+ js_bool (snd (latest st)))];
         MakeSocket (made st) "baileys_auth_info"])
    (latest st).

Definition on_qr (q : string) (st : State) : State :=
  print (ConsoleLog [JStr "QR Code updated"])
    (mkState (sock st) (Some q) (connectionStatus st) (made st) (log st) (latest st)).

Definition on_close (loggedOut : Z) (lastDisconnect : JSValue) (st : State) : State :=
  let reconnect := shouldReconnect loggedOut lastDisconnect in
  let st1 :=
    print (ConsoleLog [JStr "connection closed due to "; opt_chain lastDisconnect "error";
                       JStr ", reconnecting "; JBool reconnect])
      (mkState (sock st) (qrCode st) "disconnected" (made st) (log st) (latest st)) in
  if reconnect then initializeWhatsApp st1 else st1.

Definition on_open (st : State) : State :=
  print (ConsoleLog [JStr "WhatsApp connection opened"])
    (mkState (sock st) None "connected" (made st) (log st) (latest st)).

Definition on_connecting (st : State) : State :=
  mkState (sock st) (qrCode st) "connecting" (made st) (log st) (latest st).

(** The callback of [sock.ev.on('connection.update', ...)]. *)
Definition onConnectionUpdate (loggedOut : Z) (u : ConnectionUpdate) (st : State) : State :=
  let st1 := match qr_given u with
             | Some q => on_qr q st
             | None => st
             end in
  match connection u with
  | Some state =>
      if String.eqb state "close" then on_close loggedOut (lastDisconnect u) st1
      else if String.eqb state "open" then on_open st1
      else if String.eqb state "connecting" then on_connecting st1
      else st1
  | None => st1
  end.

(** The callback of [sock.ev.on('messages.upsert', ...)]: it only prints. *)
Definition onMessagesUpsert (messages : list WAMessage) (st : State) : State :=
  fold_left
    (fun s m =>
       if republished m then print (ConsoleLog [JStr "Received message:"; message m]) s
       else s)
    messages st.

(** [GET /health], [GET /status], [GET /qr]. *)
Definition get_health (now : Z) (st : State) : Response :=
  mkResponse 200
    (JObj [("status", JStr "ok"); ("whatsapp", JStr (connectionStatus st));
           ("timestamp", JStr (JSDate.toISOString now))]).

Definition get_status (st : State) : Response :=
  mkResponse 200
    (JObj [("connected", JBool (String.eqb (connectionStatus st) "connected"));
           ("status", JStr (connectionStatus st));
           ("hasQR", JBool (bool_decide (is_Some (qrCode st))))]).

Definition get_qr (st : State) : Response :=
  if no_qr (qrCode st) then mkResponse 404 (JObj [("error", JStr "No QR code available")])
  else mkResponse 200 (JObj [("qr", qr_json (qrCode st))]).

(** The module-level initial values, then the callback of [app.listen]. *)
Definition boot (port : string) (version : list Z * bool) : State :=
  initializeWhatsApp
    (mkState None None "disconnected" 0
       [ConsoleLog [JStr ("Server running on port " +:+ port)]] version).

(** The state after a sequence of [connection.update] events. *)
Definition run (loggedOut : Z) (updates : list ConnectionUpdate) (st : State) : State :=
  fold_left (fun s u => onConnectionUpdate loggedOut u s) updates st.

End Legacy.

(** The updates that the sockets of the default session emit along a run
    of the multi-session server. *)
Fixpoint default_updates (loggedOut : Z) (ls : list Label) (st : State)
    : list ConnectionUpdate :=
  match ls with
  | [] => []
  | l :: rest =>
      match l with
      | ConnectionUpdateEv s u =>
          match sockets st !! s with
          | Some c => if is_default (c_sessionId c) then [u] else []
          | None => []
          end
      | _ => []
      end
      ++ match step loggedOut l st with
         | Some st' => default_updates loggedOut rest st'
         | None => []
         end
  end.

(** An update that closes for a reason other than logged-out. *)
Definition ordinary_close (loggedOut : Z) (u : ConnectionUpdate) : bool :=
  match connection u with
  | Some s => String.eqb s "close" && shouldReconnect loggedOut (lastDisconnect u)
  | None => false
  end.

(** What a step other than a [connection.update] event can do to the
    state: log effects, move the clock, change the timers or the webhook
    configuration, run [initializeWhatsApp], delete a registry entry. *)
Inductive routine : State -> State -> Prop :=
| routine_done st : routine st st
| routine_logged st st1 es : routine st st1 -> routine st (logged es st1)
| routine_clock st st1 v : routine st st1 -> routine st (set_clock v st1)
| routine_timers st st1 f : routine st st1 -> routine st (set_timers f st1)
| routine_config st st1 cfg : routine st st1 -> routine st (set_config cfg st1)
| routine_initialized st st1 sessionId :
    routine st st1 -> routine st (initialized sessionId st1)
| routine_delete st st1 sessionId :
    routine st st1 -> routine st (set_sessions (delete sessionId) st1).

(** The legacy globals as a pair, as [assigned] takes them. *)
Definition globals_of (st : State) : option string * string :=
  (g_qrCode st, g_connectionStatus st).

(** A socket closes for an ordinary reason, three seconds pass, the timer
    fires; then the same for the socket the reconnect made, and so on. *)
Fixpoint retries (socket : sockid) (updates : list ConnectionUpdate) : list Label :=
  match updates with
  | [] => []
  | u :: rest =>
      [ConnectionUpdateEv socket u; Tick 3000; TimerFires 0] ++ retries (S socket) rest
  end.

(** * Properties *)

Ltac exec :=
  cbv beta iota delta
    [bind ret throw gets modify when console_log console_error logger_info
     logger_error update_object register_handlers setTimeout_initializeWhatsApp
     makeWASocket new_object finish respond json try_catch logout reconnect].

Lemma stringify_envelope sessionId event data now :
  JSON.stringify (envelope sessionId event data now)
  = Some (envelope_text sessionId event data now).
Proof. reflexivity. Qed.

Lemma posts_app (a b : list Effect) : posts (a ++ b) = posts a ++ posts b.
Proof. unfold posts. apply flat_map_app. Qed.

Lemma armed_app (a b : list Effect) : armed (a ++ b) = armed a ++ armed b.
Proof. unfold armed. apply flat_map_app. Qed.

(** One dispatch, whatever the endpoint does: a normal completion in the
    state [dispatched]. *)
Lemma sendWebhook_run event data sessionId st :
  sendWebhook event data sessionId st = (Normal tt, dispatched event data sessionId st).
Proof.
  unfold sendWebhook. exec. unfold serialized. rewrite stringify_envelope.
  exec. unfold axios_post, dispatched, webhook_log.
  destruct (accepted (net st (length (effects st)))); reflexivity.
Qed.

Lemma posts_dispatched event data sessionId st :
  posts (effects (dispatched event data sessionId st))
  = posts (effects st)
    ++ [webhook_request (WEBHOOK_CONFIG st) (clock st) event data sessionId].
Proof.
  unfold dispatched, webhook_log. cbn [effects emit]. rewrite !posts_app.
  destruct (accepted _); cbn; now rewrite app_nil_r.
Qed.

Lemma armed_dispatched event data sessionId st :
  armed (effects (dispatched event data sessionId st)) = armed (effects st).
Proof.
  unfold dispatched, webhook_log. cbn [effects emit]. rewrite !armed_app.
  destruct (accepted _); cbn; now rewrite !app_nil_r.
Qed.

(** *** Closed forms of the controller's branches *)

Lemma on_qr_run c q st : on_qr c q st = (Normal tt, after_qr c q st).
Proof.
  unfold on_qr, after_qr, if_default.
  destruct (is_default (c_sessionId c)); exec; apply sendWebhook_run.
Qed.

Lemma on_close_run loggedOut c ld st :
  on_close loggedOut c ld st = (Normal tt, after_close loggedOut c ld st).
Proof.
  unfold on_close, after_close, closing, if_default.
  destruct (is_default (c_sessionId c)); exec; rewrite sendWebhook_run;
    destruct (shouldReconnect loggedOut ld); reflexivity.
Qed.

Lemma on_open_run c st : on_open c st = (Normal tt, after_open c st).
Proof.
  unfold on_open, after_open, if_default.
  destruct (is_default (c_sessionId c)); exec; apply sendWebhook_run.
Qed.

Lemma on_connecting_run c st : on_connecting c st = (Normal tt, after_connecting c st).
Proof.
  unfold on_connecting, after_connecting, if_default.
  destruct (is_default (c_sessionId c)); reflexivity.
Qed.

(** The handler never rejects; it is the QR branch followed by the branch
    of the connection state. *)
Lemma onConnectionUpdate_run loggedOut c u st :
  onConnectionUpdate loggedOut c u st
  = (Normal tt, state_part loggedOut c u (qr_part c u st)).
Proof.
  unfold onConnectionUpdate, qr_part, state_part, bind.
  assert (Hq : (match qr_given u with Some q => on_qr c q | None => ret tt end) st
               = (Normal tt, match qr_given u with
                             | Some q => after_qr c q st
                             | None => st
                             end)).
  { destruct (qr_given u); [apply on_qr_run | reflexivity]. }
  rewrite Hq. destruct (connection u) as [state|]; [|reflexivity].
  destruct (String.eqb state "close"); [apply on_close_run|].
  destruct (String.eqb state "open"); [apply on_open_run|].
  destruct (String.eqb state "connecting"); [apply on_connecting_run|reflexivity].
Qed.

Lemma finish_onConnectionUpdate loggedOut c u st :
  finish (onConnectionUpdate loggedOut c u) st = state_part loggedOut c u (qr_part c u st).
Proof. unfold finish. now rewrite onConnectionUpdate_run. Qed.

Lemma initializeWhatsApp_run sessionId st :
  initializeWhatsApp sessionId st = (Normal (length (sockets st)), initialized sessionId st).
Proof.
  unfold initializeWhatsApp, initialized, if_default.
  destruct (is_default sessionId); reflexivity.
Qed.

Lemma finish_reconnect sessionId st :
  finish (reconnect sessionId) st = initialized sessionId st.
Proof. unfold finish, reconnect, bind. now rewrite initializeWhatsApp_run. Qed.

Lemma finish_listen port st :
  finish (listen port) st
  = initialized "default" (emit (ConsoleLog [JStr ("Server running on port " +:+ port)]) st).
Proof.
  unfold finish, listen, try_catch, reconnect, bind, console_log, modify.
  now rewrite initializeWhatsApp_run.
Qed.

Lemma onMessagesUpsert_run c messages st :
  onMessagesUpsert c messages st = (Normal tt, after_upsert c messages st).
Proof.
  revert st. induction messages as [|m rest IH]; intros st; [reflexivity|].
  unfold onMessagesUpsert in *. cbn [for_of after_upsert]. unfold bind at 1.
  destruct (republished m).
  - unfold when. exec. rewrite sendWebhook_run. apply IH.
  - apply IH.
Qed.

Lemma after_upsert_frame c messages st :
  WEBHOOK_CONFIG (after_upsert c messages st) = WEBHOOK_CONFIG st
  /\ clock (after_upsert c messages st) = clock st
  /\ sessions (after_upsert c messages st) = sessions st
  /\ heap (after_upsert c messages st) = heap st
  /\ timers (after_upsert c messages st) = timers st.
Proof.
  revert st. induction messages as [|m rest IH]; intros st; [easy|].
  cbn [after_upsert]. destruct (republished m); [|apply IH].
  destruct (IH (dispatched "message" (message_data m) (c_sessionId c)
                  (emit (ConsoleLog [JStr "Received message:"; message m]) st)))
    as (H1 & H2 & H3 & H4 & H5).
  rewrite H1, H2, H3, H4, H5. easy.
Qed.

Lemma after_upsert_posts c messages st :
  posts (effects (after_upsert c messages st))
  = posts (effects st)
    ++ map (fun m => webhook_request (WEBHOOK_CONFIG st) (clock st) "message"
                       (message_data m) (c_sessionId c))
         (List.filter republished messages).
Proof.
  revert st. induction messages as [|m rest IH]; intros st.
  - cbn. now rewrite app_nil_r.
  - cbn [after_upsert List.filter]. destruct (republished m); [|apply IH].
    rewrite IH, posts_dispatched. cbn [effects emit WEBHOOK_CONFIG clock dispatched map].
    rewrite !posts_app. cbn [posts flat_map app]. rewrite app_nil_r, <- app_assoc.
    reflexivity.
Qed.

(** *** The webhook dispatcher *)

(** C7. Every dispatch builds the envelope with the fields sessionId,
    event, data and timestamp, hands it to one POST to the configured URL
    with a timeout of 5000 ms, and puts in [x-webhook-signature] the hex
    HMAC-SHA256 of the serialized envelope under the configured secret.
    The digest agrees with reference digests computed outside this
    development: test case 2 of RFC 4231, and the digest of the envelope of
    a [qr] event for session s1 under the built-in secret. *)
Theorem sendWebhook_signed_post :
  (forall event data sessionId st,
     let payload :=
       JObj [("sessionId", JStr sessionId); ("event", JStr event); ("data", data);
             ("timestamp", JStr (JSDate.toISOString (clock st)))] in
     exists text,
       JSON.stringify payload = Some text
       /\ posts (effects (snd (sendWebhook event data sessionId st)))
          = posts (effects st)
            ++ [mkRequest (url (WEBHOOK_CONFIG st)) payload
                  [("Content-Type", "application/json");
                   ("x-webhook-signature",
                    Crypto.createHmac_sha256_hex (secret (WEBHOOK_CONFIG st)) text)]
                  5000])
  /\ Crypto.createHmac_sha256_hex "Jefe" "what do ya want for nothing?"
     = "5bdcc146bf60754e6a042426089575c75a003f089d2739839dec58b964ec3843"
  /\ map rq_headers
       (posts (effects (snd (sendWebhook "qr" (JObj [("qr", JStr "2@ABC")]) "s1"
                               (boot None None 1730000000000
                                  (fun _ => Replied 200) ([2; 3000; 1], true))))))
     = [[("Content-Type", "application/json");
         ("x-webhook-signature",
          "c9d534faf7ce8b8853cfb6dcaa043c7e8e66a2f4dadf525e8f1881eb5abcdce3")]].
Proof.
  split; [|split].
  - intros event data sessionId st payload.
    exists (envelope_text sessionId event data (clock st)). split.
    + apply stringify_envelope.
    + rewrite sendWebhook_run. cbn [snd]. apply posts_dispatched.
  - vm_compute. reflexivity.
  - vm_compute. reflexivity.
Qed.

(** C8. A dispatch never throws, for any event, payload, session id and
    behaviour of the endpoint: it completes normally, has issued exactly
    one request, has logged a failed delivery (no reply in time, connection
    refused, status outside 2xx) with [logger.error], and has changed
    nothing but the log of effects. *)
Theorem sendWebhook_never_throws :
  forall event data sessionId st,
    let reply := net st (length (effects st)) in
    exists request entry,
      sendWebhook event data sessionId st
      = (Normal tt, emit entry (emit (AxiosPost request) st))
      /\ posts [AxiosPost request; entry] = [request]
      /\ armed [AxiosPost request; entry] = []
      /\ (accepted reply = false ->
          entry = LoggerError (JObj [("error", axios_error reply); ("event", JStr event);
                                     ("sessionId", JStr sessionId)])
                    "Failed to send webhook")
      /\ (accepted reply = true ->
          entry = LoggerInfo (JObj [("event", JStr event); ("sessionId", JStr sessionId)])
                    "Webhook sent successfully").
Proof.
  intros event data sessionId st reply.
  exists (webhook_request (WEBHOOK_CONFIG st) (clock st) event data sessionId),
         (webhook_log reply event sessionId).
  split; [apply sendWebhook_run|].
  unfold webhook_log. destruct (accepted reply); repeat split; intros; congruence.
Qed.

Lemma sendWebhook_never_throws_witness :
  let st := boot None None 1730000000000 (fun _ => NoReplyInTime) ([2; 3000; 1], true) in
  exists request,
    sendWebhook "qr" (JObj [("qr", JStr "2@ABC")]) "s1" st
    = (Normal tt,
       emit (LoggerError (JObj [("error", axios_error NoReplyInTime); ("event", JStr "qr");
                                ("sessionId", JStr "s1")])
               "Failed to send webhook")
         (emit (AxiosPost request) st)).
Proof.
  intros st.
  destruct (sendWebhook_never_throws "qr" (JObj [("qr", JStr "2@ABC")]) "s1" st)
    as (request & entry & Hrun & _ & _ & Hfail & _).
  exists request. rewrite Hrun. now rewrite (Hfail eq_refl).
Defined.

(** *** Inbound messages *)

(** C9, as stated, fails: a message that the session did not author but
    that has no content ([m.message] undefined) causes no webhook. *)
Lemma upsert_skips_message_without_content :
  let m := mkMessage [("remoteJid", JStr "491700000000@s.whatsapp.net");
                      ("fromMe", JBool false); ("id", JStr "3EB0A1")]
             JUndefined (JNum 1730000000) (JStr "Ann") in
  authored_by_self m = false
  /\ posts (effects (finish (onMessagesUpsert (mkClosure "s1" 0 "baileys_auth_s1") [m]) booted))
     = posts (effects booted).
Proof. vm_compute. split; reflexivity. Qed.

(** C9, amended. The handler never rejects, and the [message] webhooks it
    sends are, in order, exactly one for each message of the event that is
    not authored by the session and has content; such a webhook carries the
    key, the content, the timestamp and the push name of its message.
    Messages authored by the session, and messages without content, cause
    none. *)
Theorem onMessagesUpsert_republishes :
  forall c messages st,
    exists st',
      onMessagesUpsert c messages st = (Normal tt, st')
      /\ posts (effects st')
         = posts (effects st)
           ++ map (fun m => webhook_request (WEBHOOK_CONFIG st) (clock st) "message"
                              (message_data m) (c_sessionId c))
                (List.filter (fun m => negb (authored_by_self m) && truthy (message m))
                   messages)
      /\ (forall m,
            rq_data (webhook_request (WEBHOOK_CONFIG st) (clock st) "message"
                       (message_data m) (c_sessionId c))
            = JObj [("sessionId", JStr (c_sessionId c)); ("event", JStr "message");
                    ("data", JObj [("key", JObj (key_props m)); ("message", message m);
                                   ("messageTimestamp", messageTimestamp m);
                                   ("pushName", pushName m)]);
                    ("timestamp", JStr (JSDate.toISOString (clock st)))])
      /\ sessions st' = sessions st /\ heap st' = heap st /\ timers st' = timers st.
Proof.
  intros c messages st. exists (after_upsert c messages st).
  destruct (after_upsert_frame c messages st) as (_ & _ & Hs & Hh & Ht).
  repeat split; try assumption.
  - apply onMessagesUpsert_run.
  - apply after_upsert_posts.
Qed.

(** *** Session registry *)

Lemma create_run requested st :
  post_api_sessions_create requested st
  = if has (requested_id requested st) st
    then (Normal (mkResponse 409 (JObj [("error", JStr "Session already exists")])), st)
    else (Normal (mkResponse 200
                    (JObj [("sessionId", JStr (requested_id requested st));
                           ("status", JStr "initializing");
                           ("createdAt", JStr (JSDate.toISOString (clock st)))])),
          initialized (requested_id requested st) st).
Proof.
  unfold post_api_sessions_create, requested_id. exec.
  destruct (has _ st); [reflexivity|].
  rewrite initializeWhatsApp_run. unfold initialized, if_default.
  destruct (is_default _); reflexivity.
Qed.

Lemma has_true sessionId st l : sessions st !! sessionId = Some l -> has sessionId st = true.
Proof. intros H. unfold has. rewrite H. apply bool_decide_eq_true. eauto. Qed.

Lemma has_false sessionId st : sessions st !! sessionId = None -> has sessionId st = false.
Proof.
  intros H. unfold has. rewrite H. apply bool_decide_eq_false. intros [x Hx]. discriminate.
Qed.

Lemma initialized_sessions sessionId st :
  sessions (initialized sessionId st) = <[sessionId := length (heap st)]> (sessions st).
Proof. unfold initialized, if_default. destruct (is_default _); reflexivity. Qed.

Lemma initialized_heap sessionId st :
  heap (initialized sessionId st)
  = heap st ++ [mkSession sessionId (Some (length (sockets st))) None "connecting" (clock st)].
Proof. unfold initialized, if_default. destruct (is_default _); reflexivity. Qed.

Lemma initialized_sockets sessionId st :
  sockets (initialized sessionId st)
  = sockets st ++ [mkClosure sessionId (length (heap st)) (authFolderOf sessionId)].
Proof. unfold initialized, if_default. destruct (is_default _); reflexivity. Qed.

Lemma initialized_effects sessionId st :
  effects (initialized sessionId st)
  = effects st
    ++ [LoadAuthState (authFolderOf sessionId);
        ConsoleLog [JStr ("using WA v" +:+ JSON.join "." (map pretty (fst (latest st)))
                          +:+ ", isLatest: " +:+ js_bool (snd (latest st)))];
        MakeSocket (length (sockets st)) (authFolderOf sessionId)].
Proof.
  unfold initialized, if_default. destruct (is_default _); cbn; now rewrite <- !app_assoc.
Qed.

Lemma initialized_timers sessionId st : timers (initialized sessionId st) = timers st.
Proof. unfold initialized, if_default. destruct (is_default _); reflexivity. Qed.

Lemma initialized_clock sessionId st : clock (initialized sessionId st) = clock st.
Proof. unfold initialized, if_default. destruct (is_default _); reflexivity. Qed.

(** C4, as stated, fails: the record that a successful create stores has
    status connecting, not initializing; initializing appears only in the
    response. *)
Lemma create_stores_connecting :
  match post_api_sessions_create (Some "s1") booted with
  | (Normal r, st') =>
      code r = 200
      /\ opt_chain (body r) "status" = JStr "initializing"
      /\ option_map s_status (get "s1" st') = Some "connecting"
  | _ => False
  end.
Proof. vm_compute. repeat split; reflexivity. Qed.

(** C4, amended. When the id is present, create answers 409 (session
    already exists) and changes nothing. Otherwise it allocates a new
    record with status connecting, no QR code, a fresh socket and the
    current time, stores it under the id, leaves every other entry and
    record alone, and answers 200 with the id, the status text
    initializing and the creation time. *)
Theorem create_rejects_duplicate_or_stores :
  forall requested st,
    let sessionId := requested_id requested st in
    (forall l, sessions st !! sessionId = Some l ->
       post_api_sessions_create requested st
       = (Normal (mkResponse 409 (JObj [("error", JStr "Session already exists")])), st))
    /\ (sessions st !! sessionId = None ->
        exists st',
          post_api_sessions_create requested st
          = (Normal (mkResponse 200
                       (JObj [("sessionId", JStr sessionId);
                              ("status", JStr "initializing");
                              ("createdAt", JStr (JSDate.toISOString (clock st)))])),
             st')
          /\ sessions st' = <[sessionId := length (heap st)]> (sessions st)
          /\ heap st'
             = heap st ++ [mkSession sessionId (Some (length (sockets st))) None
                             "connecting" (clock st)]
          /\ get sessionId st'
             = Some (mkSession sessionId (Some (length (sockets st))) None
                       "connecting" (clock st))).
Proof.
  intros requested st sessionId. split.
  - intros l Hl. rewrite create_run. fold sessionId. now rewrite (has_true _ _ _ Hl).
  - intros Hnone. exists (initialized sessionId st).
    rewrite create_run. fold sessionId. rewrite (has_false _ _ Hnone).
    repeat split.
    + apply initialized_sessions.
    + apply initialized_heap.
    + unfold get. rewrite initialized_sessions, lookup_insert_eq, initialized_heap.
      apply list_lookup_middle. reflexivity.
Qed.

Lemma create_rejects_duplicate_or_stores_witness :
  fst (post_api_sessions_create (Some "s1") (initialized "s1" booted))
  = Normal (mkResponse 409 (JObj [("error", JStr "Session already exists")]))
  /\ option_map s_status (get "s1" (snd (post_api_sessions_create (Some "s1") booted)))
     = Some "connecting".
Proof.
  split.
  - rewrite (proj1 (create_rejects_duplicate_or_stores (Some "s1") (initialized "s1" booted))
               0%nat); [reflexivity | vm_compute; reflexivity].
  - destruct (proj2 (create_rejects_duplicate_or_stores (Some "s1") booted))
      as (st' & Hrun & _ & _ & Hget); [vm_compute; reflexivity|].
    rewrite Hrun. cbn [snd]. exact (f_equal (option_map s_status) Hget).
Defined.

Lemma delete_run sessionId outcome st :
  delete_api_sessions sessionId outcome st
  = match get sessionId st with
    | None => (Normal (mkResponse 404 (JObj [("error", JStr "Session not found")])), st)
    | Some s =>
        match s_sock s, outcome with
        | Some k, LogoutRejects error =>
            (Normal (mkResponse 500 (JObj [("error", JStr "Failed to delete session")])),
             emit (ConsoleError [JStr "Error deleting session:"; error])
               (emit (SockLogout k) st))
        | Some k, LogoutResolves =>
            (Normal (mkResponse 200 (JObj [("success", JBool true)])),
             set_sessions (delete sessionId) (emit (SockLogout k) st))
        | None, _ =>
            (Normal (mkResponse 200 (JObj [("success", JBool true)])),
             set_sessions (delete sessionId) st)
        end
    end.
Proof.
  unfold delete_api_sessions. exec.
  destruct (get sessionId st) as [s|]; [|reflexivity].
  destruct (s_sock s) as [k|]; [|reflexivity].
  destruct outcome; reflexivity.
Qed.

Lemma get_absent sessionId st : sessions st !! sessionId = None -> get sessionId st = None.
Proof. intros H. unfold get. now rewrite H. Qed.

Lemma get_present sessionId st l s :
  sessions st !! sessionId = Some l -> heap st !! l = Some s -> get sessionId st = Some s.
Proof. intros H1 H2. unfold get. now rewrite H1. Qed.

(** C5, as stated, fails: when the transport rejects the logout, the
    caller gets the answer 500 (failed to delete session) and the record
    stays in the registry. *)
Lemma delete_surfaces_logout_failure :
  match delete_api_sessions "s1" (LogoutRejects (JObj [("message", JStr "Connection Closed")]))
          (initialized "s1" booted) with
  | (Normal r, st') =>
      code r = 500
      /\ body r = JObj [("error", JStr "Failed to delete session")]
      /\ sessions st' !! "s1" = Some 0%nat
  | _ => False
  end.
Proof. vm_compute. repeat split; reflexivity. Qed.

(** C5, amended. Delete of an absent id answers 404 (session not found)
    and leaves the whole state as it was. For a present id whose record has
    a socket it requests the transport logout: when the logout resolves
    (and when the record has no socket) the entry is removed, the other
    entries and all records stay, and the answer is success; when the
    logout rejects, the error is logged with [console.error], the answer
    is 500 (failed to delete session) and the registry is unchanged. *)
Theorem delete_not_found_or_logout :
  forall sessionId outcome st,
    (sessions st !! sessionId = None ->
       delete_api_sessions sessionId outcome st
       = (Normal (mkResponse 404 (JObj [("error", JStr "Session not found")])), st))
    /\ (forall l s,
          sessions st !! sessionId = Some l -> heap st !! l = Some s ->
          exists r st',
            delete_api_sessions sessionId outcome st = (Normal r, st')
            /\ heap st' = heap st /\ timers st' = timers st
            /\ match s_sock s, outcome with
               | Some k, LogoutRejects error =>
                   r = mkResponse 500 (JObj [("error", JStr "Failed to delete session")])
                   /\ sessions st' = sessions st
                   /\ effects st'
                      = effects st ++ [SockLogout k;
                                       ConsoleError [JStr "Error deleting session:"; error]]
               | Some k, LogoutResolves =>
                   r = mkResponse 200 (JObj [("success", JBool true)])
                   /\ sessions st' = delete sessionId (sessions st)
                   /\ effects st' = effects st ++ [SockLogout k]
               | None, _ =>
                   r = mkResponse 200 (JObj [("success", JBool true)])
                   /\ sessions st' = delete sessionId (sessions st)
                   /\ effects st' = effects st
               end).
Proof.
  intros sessionId outcome st. split.
  - intros H. now rewrite delete_run, (get_absent _ _ H).
  - intros l s Hl Hs. rewrite delete_run, (get_present _ _ _ _ Hl Hs).
    destruct (s_sock s) as [k|]; [destruct outcome|]; eexists; eexists;
      (split; [reflexivity|]); cbn [heap timers sessions effects emit set_sessions];
      repeat split; now rewrite <- ?app_assoc.
Qed.

Lemma delete_not_found_or_logout_witness :
  fst (delete_api_sessions "s2" LogoutResolves (initialized "s1" booted))
  = Normal (mkResponse 404 (JObj [("error", JStr "Session not found")]))
  /\ exists r st',
       delete_api_sessions "s1" LogoutResolves (initialized "s1" booted) = (Normal r, st')
       /\ sessions st' !! "s1" = None.
Proof.
  split.
  - rewrite (proj1 (delete_not_found_or_logout "s2" LogoutResolves (initialized "s1" booted)));
      [reflexivity | vm_compute; reflexivity].
  - destruct (proj2 (delete_not_found_or_logout "s1" LogoutResolves (initialized "s1" booted))
                0%nat (mkSession "s1" (Some 0%nat) None "connecting" 1730000000000))
      as (r & st' & Hrun & _ & _ & Hcase); [vm_compute; reflexivity | reflexivity |].
    exists r, st'. split; [exact Hrun|].
    cbn [s_sock] in Hcase. destruct Hcase as (_ & Hs & _). rewrite Hs.
    apply lookup_delete_eq.
Defined.

(** *** What each step does to the registry *)

Lemma logged_logged es1 es2 st : logged es2 (logged es1 st) = logged (es1 ++ es2) st.
Proof. unfold logged. cbn. now rewrite app_assoc. Qed.

Lemma logged_nil st : logged [] st = st.
Proof. destruct st. unfold logged. cbn. now rewrite app_nil_r. Qed.

Lemma sendWebhook_silent event data sessionId : silent (sendWebhook event data sessionId).
Proof.
  intros st. rewrite sendWebhook_run. unfold dispatched.
  eexists tt, [_; _]. unfold emit, logged. cbn. now rewrite <- app_assoc.
Qed.

Lemma for_of_silent {A} (xs : list A) (body : A -> M unit) :
  (forall x, silent (body x)) -> silent (for_of xs body).
Proof.
  intros Hbody. induction xs as [|x rest IH]; intros st.
  - exists tt, []. cbn. now rewrite logged_nil.
  - cbn [for_of]. unfold bind. destruct (Hbody x st) as ([] & es1 & ->).
    destruct (IH (logged es1 st)) as ([] & es2 & ->).
    exists tt, (es1 ++ es2). now rewrite logged_logged.
Qed.

Lemma onMessagesUpsert_silent c messages : silent (onMessagesUpsert c messages).
Proof.
  apply for_of_silent. intros m st. unfold when. destruct (republished m).
  - exec. destruct (sendWebhook_silent "message" (message_data m) (c_sessionId c)
                      (emit (ConsoleLog [JStr "Received message:"; message m]) st))
      as ([] & es & ->).
    exists tt, (ConsoleLog [JStr "Received message:"; message m] :: es).
    unfold logged, emit. cbn. now rewrite <- app_assoc.
  - exists tt, []. unfold ret. now rewrite logged_nil.
Qed.

Lemma onMessagesUpdate_silent c updates : silent (onMessagesUpdate c updates).
Proof. apply for_of_silent. intros update. apply sendWebhook_silent. Qed.

Lemma silent_finish (m : M unit) st : silent m -> exists es, finish m st = logged es st.
Proof. intros H. destruct (H st) as ([] & es & Hm). exists es. unfold finish. now rewrite Hm. Qed.

Lemma qr_route_silent sessionId : silent (get_api_sessions_qr sessionId).
Proof.
  intros st. unfold get_api_sessions_qr. exec.
  destruct (get sessionId st) as [s|]; [destruct (no_qr (s_qrCode s))|];
    eexists _, []; now rewrite logged_nil.
Qed.

Lemma status_route_silent sessionId : silent (get_api_sessions_status sessionId).
Proof.
  intros st. unfold get_api_sessions_status. exec.
  destruct (get sessionId st) as [s|]; eexists _, []; now rewrite logged_nil.
Qed.

Lemma legacy_routes_silent : silent get_health /\ silent get_status /\ silent get_qr.
Proof.
  repeat split; intros st.
  - eexists _, []. unfold get_health. exec. now rewrite logged_nil.
  - eexists _, []. unfold get_status. exec. now rewrite logged_nil.
  - unfold get_qr. exec. destruct (no_qr (g_qrCode st)); eexists _, []; now rewrite logged_nil.
Qed.

Lemma silent_respond (m : M Response) st : silent m -> exists es, respond m st = logged es st.
Proof.
  intros H. destruct (H st) as (r & es & Hm). exists (es ++ [Respond r]).
  unfold respond. rewrite Hm. unfold emit, logged. cbn. now rewrite app_assoc.
Qed.

Lemma respond_snd (m : M Response) st :
  exists e, respond m st = emit e (snd (m st)).
Proof. unfold respond. destruct (m st) as [[r|e] st']; eexists; reflexivity. Qed.

Lemma register_run new_url new_secret st :
  exists cfg, snd (post_api_webhook_register new_url new_secret st) = set_config cfg st.
Proof.
  unfold post_api_webhook_register. exec. destruct (given new_url).
  - eexists. reflexivity.
  - exists (WEBHOOK_CONFIG st). now destruct st.
Qed.

Lemma qr_part_frame c u st :
  sessions (qr_part c u st) = sessions st
  /\ timers (qr_part c u st) = timers st
  /\ sockets (qr_part c u st) = sockets st
  /\ clock (qr_part c u st) = clock st
  /\ WEBHOOK_CONFIG (qr_part c u st) = WEBHOOK_CONFIG st
  /\ armed (effects (qr_part c u st)) = armed (effects st)
  /\ g_connectionStatus (qr_part c u st) = g_connectionStatus st
  /\ length (heap (qr_part c u st)) = length (heap st).
Proof.
  unfold qr_part. destruct (qr_given u) as [q|]; [|easy].
  unfold after_qr. rewrite armed_dispatched. unfold if_default.
  destruct (is_default (c_sessionId c)); cbn; rewrite armed_app, length_alter;
    cbn; now rewrite app_nil_r.
Qed.

Lemma state_part_keeps_absent loggedOut c u st sessionId :
  sessions st !! sessionId = None ->
  sessions (state_part loggedOut c u st) !! sessionId = None.
Proof.
  intros H. unfold state_part. destruct (connection u) as [state|]; [|exact H].
  destruct (String.eqb state "close").
  { unfold after_close, closing, if_default.
    destruct (shouldReconnect loggedOut (lastDisconnect u)),
             (is_default (c_sessionId c)); cbn; try exact H;
      apply lookup_delete_None; now right. }
  destruct (String.eqb state "open").
  { unfold after_open, if_default. destruct (is_default (c_sessionId c)); exact H. }
  destruct (String.eqb state "connecting"); [|exact H].
  unfold after_connecting, if_default. destruct (is_default (c_sessionId c)); exact H.
Qed.

Lemma initialized_keeps_absent other sessionId st :
  String.eqb other sessionId = false ->
  sessions st !! sessionId = None ->
  sessions (initialized other st) !! sessionId = None.
Proof.
  intros Hne H. rewrite initialized_sessions, lookup_insert_ne; [exact H|].
  now apply String.eqb_neq.
Qed.

Lemma step_keeps_absent loggedOut sessionId l st st' :
  sessions st !! sessionId = None ->
  inserts sessionId l st = false ->
  step loggedOut l st = Some st' ->
  sessions st' !! sessionId = None.
Proof.
  intros Habs Hins Hstep. destruct l; cbn [step inserts] in *.
  - injection Hstep as <-. rewrite finish_listen.
    apply initialized_keeps_absent; [|exact Habs].
    unfold is_default in Hins. now rewrite String.eqb_sym.
  - destruct (0 <=? ms); [|discriminate]. now injection Hstep as <-.
  - destruct (timers st !! i) as [t|]; [|discriminate].
    destruct (t_due t <=? clock st); [|discriminate]. injection Hstep as <-.
    rewrite finish_reconnect. now apply initialized_keeps_absent.
  - unfold on_socket in Hstep. destruct (sockets st !! s) as [c|]; [|discriminate].
    injection Hstep as <-. rewrite finish_onConnectionUpdate.
    apply state_part_keeps_absent. now rewrite (proj1 (qr_part_frame c u st)).
  - unfold on_socket in Hstep. destruct (sockets st !! s) as [c|]; [|discriminate].
    now injection Hstep as <-.
  - unfold on_socket in Hstep. destruct (sockets st !! s) as [c|]; [|discriminate].
    injection Hstep as <-.
    destruct (silent_finish _ st (onMessagesUpsert_silent c messages)) as (es & ->).
    exact Habs.
  - unfold on_socket in Hstep. destruct (sockets st !! s) as [c|]; [|discriminate].
    injection Hstep as <-.
    destruct (silent_finish _ st (onMessagesUpdate_silent c updates)) as (es & ->).
    exact Habs.
  - injection Hstep as <-. destruct (respond_snd (post_api_sessions_create requested) st)
      as (e & ->). rewrite create_run. destruct (has _ st); cbn [snd sessions emit].
    + exact Habs.
    + now apply initialized_keeps_absent.
  - injection Hstep as <-.
    destruct (silent_respond _ st (qr_route_silent sessionId0)) as (es & ->). exact Habs.
  - injection Hstep as <-.
    destruct (silent_respond _ st (status_route_silent sessionId0)) as (es & ->). exact Habs.
  - injection Hstep as <-.
    destruct (respond_snd (delete_api_sessions sessionId0 outcome) st) as (e & ->).
    rewrite delete_run. destruct (get sessionId0 st) as [s0|]; [|exact Habs].
    destruct (s_sock s0) as [k|]; [destruct outcome|]; cbn; try exact Habs;
      apply lookup_delete_None; now right.
  - injection Hstep as <-.
    destruct (respond_snd (post_api_webhook_register new_url new_secret) st) as (e & ->).
    destruct (register_run new_url new_secret st) as (cfg & ->). exact Habs.
  - injection Hstep as <-.
    destruct (silent_respond _ st (proj1 legacy_routes_silent)) as (es & ->). exact Habs.
  - injection Hstep as <-.
    destruct (silent_respond _ st (proj1 (proj2 legacy_routes_silent))) as (es & ->).
    exact Habs.
  - injection Hstep as <-.
    destruct (silent_respond _ st (proj2 (proj2 legacy_routes_silent))) as (es & ->).
    exact Habs.
Qed.

Lemma run_keeps_absent loggedOut sessionId ls :
  forall st st',
    sessions st !! sessionId = None ->
    untouched loggedOut sessionId ls st ->
    run loggedOut ls st = Some st' ->
    sessions st' !! sessionId = None.
Proof.
  induction ls as [|l rest IH]; intros st st' Habs Hun Hrun; cbn in *.
  - now injection Hrun as <-.
  - destruct Hun as [Hins Hrest]. destruct (step loggedOut l st) as [st1|] eqn:Hstep;
      [|discriminate].
    eapply IH; [|exact Hrest|exact Hrun]. eapply step_keeps_absent; eassumption.
Qed.

(** *** Connection close *)

Lemma qr_part_effects c u st :
  exists es,
    effects (qr_part c u st) = effects st ++ es
    /\ armed es = []
    /\ posts (effects (qr_part c u st)) = posts (effects st) ++ posts es.
Proof.
  unfold qr_part. destruct (qr_given u) as [q|].
  - unfold after_qr, dispatched, if_default.
    destruct (is_default (c_sessionId c)); cbn [effects emit set_g_qrCode set_heap];
      eexists [_; _; _]; rewrite <- !app_assoc; cbn [app];
      (split; [reflexivity|]); (split; [|apply posts_app]);
      unfold webhook_log; destruct (accepted _); reflexivity.
  - exists []. rewrite app_nil_r. repeat split. cbn. now rewrite app_nil_r.
Qed.

Lemma closing_effects loggedOut c ld st :
  exists line entry,
    effects (closing loggedOut c ld st)
    = effects st ++ [line; AxiosPost (close_request c ld st); entry]
    /\ armed [line; AxiosPost (close_request c ld st); entry] = []
    /\ posts [line; AxiosPost (close_request c ld st); entry] = [close_request c ld st].
Proof.
  unfold closing, dispatched, close_request, if_default.
  destruct (is_default (c_sessionId c));
    cbn [effects emit set_g_connectionStatus set_heap WEBHOOK_CONFIG clock];
    eexists _, _; rewrite <- !app_assoc; cbn [app];
    (split; [reflexivity|]); unfold webhook_log; destruct (accepted _);
    split; reflexivity.
Qed.

Lemma closing_frame loggedOut c ld st :
  sessions (closing loggedOut c ld st) = sessions st
  /\ timers (closing loggedOut c ld st) = timers st
  /\ sockets (closing loggedOut c ld st) = sockets st
  /\ clock (closing loggedOut c ld st) = clock st
  /\ heap (closing loggedOut c ld st) = alter (with_status "disconnected") (c_session c) (heap st).
Proof.
  unfold closing, if_default. destruct (is_default (c_sessionId c)); easy.
Qed.

Lemma state_part_close loggedOut c u st :
  connection u = Some "close" ->
  state_part loggedOut c u st = after_close loggedOut c (lastDisconnect u) st.
Proof. intros H. unfold state_part. now rewrite H. Qed.

(** C1, as stated, fails: after a close with the logged-out reason has
    removed the id, a reconnect timer of the same id still re-inserts it
    with no create in between. First run: the close event of a deleted
    session's socket is handled after the id was created again, and removes
    the new entry while the new socket lives on; that socket's next
    ordinary close re-inserts the id. Second run: one socket reports an
    ordinary close and then a logged-out close; the timer armed by the
    former fires after the latter. *)
Lemma logged_out_id_reappears :
  let prefix1 := [Create (Some "s1"); Delete "s1" LogoutResolves; Create (Some "s1");
                  ConnectionUpdateEv 0 (close_with 401)] in
  let suffix1 := [ConnectionUpdateEv 1 (close_with 408); Tick 3000; TimerFires 0] in
  let prefix2 := [Create (Some "s1"); ConnectionUpdateEv 0 (close_with 408);
                  ConnectionUpdateEv 0 (close_with 401)] in
  let suffix2 := [Tick 3000; TimerFires 0] in
  (option_map (fun st => sessions st !! "s1") (run 401 prefix1 booted) = Some None
   /\ option_map (fun st => option_map s_status (get "s1" st))
        (run 401 (prefix1 ++ suffix1) booted) = Some (Some "connecting"))
  /\ (option_map (fun st => sessions st !! "s1") (run 401 prefix2 booted) = Some None
      /\ option_map (fun st => option_map s_status (get "s1" st))
           (run 401 (prefix2 ++ suffix2) booted) = Some (Some "connecting")).
Proof. vm_compute. repeat split; reflexivity. Qed.

(** C1, amended. A close event with the logged-out reason removes the
    session id from the registry, sends a [disconnected] webhook that
    carries the reason, and arms no reconnect: the pending timers are the
    same as before. The id then stays absent along every run in which no
    step calls [initializeWhatsApp] for it, that is, until a create request
    for it, the start of the server (for the default id), or the firing of
    a reconnect timer of that id armed by another close event. *)
Theorem logout_close_removes_session :
  forall loggedOut c u st,
    connection u = Some "close" ->
    shouldReconnect loggedOut (lastDisconnect u) = false ->
    let sessionId := c_sessionId c in
    let st' := finish (onConnectionUpdate loggedOut c u) st in
    sessions st' = delete sessionId (sessions st)
    /\ sessions st' !! sessionId = None
    /\ (exists before,
          posts (effects st')
          = posts (effects st) ++ before
            ++ [webhook_request (WEBHOOK_CONFIG st) (clock st) "disconnected"
                  (JObj [("reason", opt_chain (lastDisconnect u) "error")]) sessionId])
    /\ timers st' = timers st
    /\ armed (effects st') = armed (effects st)
    /\ (forall ls st'',
          untouched loggedOut sessionId ls st' ->
          run loggedOut ls st' = Some st'' ->
          sessions st'' !! sessionId = None).
Proof.
  intros loggedOut c u st Hclose Hterm sessionId st'.
  assert (Hst' : st' = set_sessions (delete sessionId)
                         (closing loggedOut c (lastDisconnect u) (qr_part c u st))).
  { unfold st'. rewrite finish_onConnectionUpdate, (state_part_close _ _ _ _ Hclose).
    unfold after_close. now rewrite Hterm. }
  destruct (qr_part_frame c u st) as (Hs & Ht & _ & Hc & Hw & Ha & _).
  destruct (closing_frame loggedOut c (lastDisconnect u) (qr_part c u st))
    as (Hs' & Ht' & _).
  destruct (closing_effects loggedOut c (lastDisconnect u) (qr_part c u st))
    as (line & entry & He & Harm & Hposts).
  destruct (qr_part_effects c u st) as (es & Hq & _ & Hqp).
  assert (Habs : sessions st' !! sessionId = None).
  { rewrite Hst'. cbn [sessions set_sessions]. apply lookup_delete_eq. }
  split; [|split; [exact Habs|split; [|split; [|split]]]].
  - rewrite Hst'. cbn [sessions set_sessions]. now rewrite Hs', Hs.
  - exists (posts es). rewrite Hst'. cbn [effects set_sessions]. rewrite He, posts_app.
    rewrite Hposts, Hqp. unfold close_request. now rewrite Hw, Hc, <- app_assoc.
  - rewrite Hst'. cbn [timers set_sessions]. now rewrite Ht', Ht.
  - rewrite Hst'. cbn [effects set_sessions]. rewrite He, armed_app, Harm, Ha.
    apply app_nil_r.
  - intros ls st'' Hun Hrun. eapply run_keeps_absent; eassumption.
Qed.

Lemma logout_close_removes_session_witness :
  let st' := finish (onConnectionUpdate 401 (mkClosure "s1" 0 "baileys_auth_s1")
                       (close_with 401))
               (initialized "s1" booted) in
  sessions st' !! "s1" = None
  /\ exists st'',
       run 401 [Tick 5000; Create (Some "s2"); MessagesUpdateEv 0 [JNull]] st' = Some st''
       /\ sessions st'' !! "s1" = None.
Proof.
  intros st'.
  destruct (logout_close_removes_session 401 (mkClosure "s1" 0 "baileys_auth_s1")
              (close_with 401) (initialized "s1" booted))
    as (_ & Habsent & _ & _ & _ & Hlater); [reflexivity | reflexivity |].
  split; [exact Habsent|].
  eexists. split; [vm_compute; reflexivity|].
  apply (Hlater [Tick 5000; Create (Some "s2"); MessagesUpdateEv 0 [JNull]]).
  - vm_compute. repeat split; reflexivity.
  - vm_compute. reflexivity.
Defined.

(** *** Reconnect timers *)

Lemma timer_fires loggedOut st i t wait :
  timers st !! i = Some t ->
  0 <= wait ->
  t_due t <= clock st + wait ->
  run loggedOut [Tick wait; TimerFires i] st
  = Some (initialized (t_sessionId t)
            (set_timers (delete i) (set_clock (clock st + wait) st))).
Proof.
  intros Ht Hw Hdue. cbn [run step].
  destruct (Z.leb_spec 0 wait) as [_|]; [|lia].
  cbn [timers set_clock clock]. rewrite Ht.
  destruct (Z.leb_spec (t_due t) (clock st + wait)) as [_|]; [|lia].
  now rewrite finish_reconnect.
Qed.

Lemma timer_not_due loggedOut st i t :
  timers st !! i = Some t ->
  clock st < t_due t ->
  step loggedOut (TimerFires i) st = None.
Proof.
  intros Ht Hdue. cbn [step]. rewrite Ht.
  destruct (Z.leb_spec (t_due t) (clock st)) as [|_]; [lia|reflexivity].
Qed.

Lemma get_initialized sessionId st :
  get sessionId (initialized sessionId st)
  = Some (mkSession sessionId (Some (length (sockets st))) None "connecting" (clock st)).
Proof.
  unfold get. rewrite initialized_sessions, lookup_insert_eq, initialized_heap.
  now apply list_lookup_middle.
Qed.

(** C3, as stated, fails: a session whose socket has closed for an
    ordinary reason is deleted while its reconnect is pending; the delete
    succeeds and the id is gone; three seconds later the timer fires and
    the id is back in the registry. *)
Lemma delete_then_timer_resurrects :
  let prefix := [Create (Some "s1"); ConnectionUpdateEv 0 (close_with 408);
                 Delete "s1" LogoutResolves] in
  option_map (fun st => (sessions st !! "s1", length (timers st)))
    (run 401 prefix booted) = Some (None, 1%nat)
  /\ option_map (fun st => option_map s_status (get "s1" st))
       (run 401 (prefix ++ [Tick 3000; TimerFires 0]) booted) = Some (Some "connecting").
Proof. vm_compute. split; reflexivity. Qed.

(** C3, amended. Delete removes the entry and nothing else: it sets no
    closing mark and leaves the pending timers as they are. When a
    reconnect of the id is pending at the time of a successful delete, the
    timer still fires once it is due, and its callback stores a new record
    for the id (status connecting, a fresh socket) in the registry. *)
Theorem delete_leaves_reconnect_armed :
  forall loggedOut sessionId st i t l s wait,
    timers st !! i = Some t ->
    t_sessionId t = sessionId ->
    sessions st !! sessionId = Some l ->
    heap st !! l = Some s ->
    0 <= wait ->
    t_due t <= clock st + wait ->
    exists st1 st2,
      step loggedOut (Delete sessionId LogoutResolves) st = Some st1
      /\ sessions st1 !! sessionId = None
      /\ timers st1 = timers st
      /\ heap st1 = heap st
      /\ run loggedOut [Tick wait; TimerFires i] st1 = Some st2
      /\ sessions st2 !! sessionId = Some (length (heap st))
      /\ get sessionId st2
         = Some (mkSession sessionId (Some (length (sockets st))) None "connecting"
                   (clock st + wait)).
Proof.
  intros loggedOut sessionId st i t l s wait Ht Hid Hl Hs Hw Hdue.
  assert (Hstep : exists es1 es2,
             step loggedOut (Delete sessionId LogoutResolves) st
             = Some (logged es2 (set_sessions (delete sessionId) (logged es1 st)))).
  { cbn [step]. unfold respond. rewrite delete_run, (get_present _ _ _ _ Hl Hs).
    destruct (s_sock s) as [k|].
    - exists [SockLogout k], [Respond (mkResponse 200 (JObj [("success", JBool true)]))].
      reflexivity.
    - exists [], [Respond (mkResponse 200 (JObj [("success", JBool true)]))].
      now rewrite logged_nil. }
  destruct Hstep as (es1 & es2 & Hstep).
  eexists _, _. split; [exact Hstep|].
  split; [apply lookup_delete_eq|]. split; [reflexivity|]. split; [reflexivity|].
  split; [apply (timer_fires loggedOut _ i t wait); assumption|].
  rewrite Hid. split.
  - rewrite initialized_sessions. apply lookup_insert_eq.
  - apply get_initialized.
Qed.

Lemma delete_leaves_reconnect_armed_witness :
  exists st1 st2,
    step 401 (Delete "s1" LogoutResolves)
      (finish (onConnectionUpdate 401 (mkClosure "s1" 0 "baileys_auth_s1") (close_with 408))
         (initialized "s1" booted)) = Some st1
    /\ run 401 [Tick 3000; TimerFires 0] st1 = Some st2
    /\ option_map s_status (get "s1" st2) = Some "connecting".
Proof.
  destruct (delete_leaves_reconnect_armed 401 "s1"
              (finish (onConnectionUpdate 401 (mkClosure "s1" 0 "baileys_auth_s1")
                         (close_with 408))
                 (initialized "s1" booted))
              0%nat (mkTimer 1730000003000 "s1") 0%nat
              (mkSession "s1" (Some 0%nat) None "disconnected" 1730000000000) 3000)
    as (st1 & st2 & H1 & _ & _ & _ & H2 & _ & H3);
    [vm_compute; reflexivity | reflexivity | vm_compute; reflexivity
    | vm_compute; reflexivity | lia | vm_compute; discriminate |].
  exists st1, st2. split; [exact H1|]. split; [exact H2|]. now rewrite H3.
Defined.

(** C2. A close event with any reason other than logged-out sets the
    status of the session record to disconnected, posts the
    [disconnected] webhook and only then arms the reconnect, with a delay
    of 3000 ms. The timer cannot fire before the delay has passed; once it
    has, firing it reads the credentials persisted in the folder of that
    id, makes a fresh socket on them and stores under the same id a record
    with status connecting. *)
Theorem ordinary_close_reconnects :
  forall loggedOut c u st r,
    connection u = Some "close" ->
    shouldReconnect loggedOut (lastDisconnect u) = true ->
    heap st !! c_session c = Some r ->
    let sessionId := c_sessionId c in
    let st' := finish (onConnectionUpdate loggedOut c u) st in
    let i := length (timers st) in
    (exists r', heap st' !! c_session c = Some r'
                /\ s_status r' = "disconnected" /\ s_id r' = s_id r)
    /\ (exists before entry,
          effects st'
          = effects st ++ before
            ++ [AxiosPost (webhook_request (WEBHOOK_CONFIG st) (clock st) "disconnected"
                             (JObj [("reason", opt_chain (lastDisconnect u) "error")])
                             sessionId);
                entry; SetTimeout sessionId 3000]
          /\ armed before = [] /\ armed [entry] = [])
    /\ timers st' = timers st ++ [mkTimer (clock st + 3000) sessionId]
    /\ sessions st' = sessions st
    /\ step loggedOut (TimerFires i) st' = None
    /\ (forall wait, 3000 <= wait ->
          exists st'',
            run loggedOut [Tick wait; TimerFires i] st' = Some st''
            /\ get sessionId st''
               = Some (mkSession sessionId (Some (length (sockets st))) None "connecting"
                         (clock st + wait))
            /\ sockets st''
               = sockets st ++ [mkClosure sessionId (length (heap st)) (authFolderOf sessionId)]
            /\ (exists line,
                  effects st''
                  = effects st' ++ [LoadAuthState (authFolderOf sessionId); line;
                                    MakeSocket (length (sockets st)) (authFolderOf sessionId)])
            /\ timers st'' = timers st).
Proof.
  intros loggedOut c u st r Hclose Hre Hr sessionId st' i.
  set (mid := closing loggedOut c (lastDisconnect u) (qr_part c u st)).
  assert (Hst' : st' = emit (SetTimeout sessionId 3000)
                         (set_timers (fun l => l ++ [mkTimer (clock mid + 3000) sessionId]) mid)).
  { unfold st'. rewrite finish_onConnectionUpdate, (state_part_close _ _ _ _ Hclose).
    unfold after_close. now rewrite Hre. }
  destruct (qr_part_frame c u st) as (Hs & Ht & Hk & Hc & Hw & _ & _ & Hlen).
  destruct (closing_frame loggedOut c (lastDisconnect u) (qr_part c u st))
    as (Hs' & Ht' & Hk' & Hc' & Hh').
  destruct (closing_effects loggedOut c (lastDisconnect u) (qr_part c u st))
    as (line & entry & He & Harm & _).
  destruct (qr_part_effects c u st) as (es & Hq & Hqa & _).
  fold mid in Hs', Ht', Hk', Hc', Hh', He.
  assert (Htimers : timers st' = timers st ++ [mkTimer (clock st + 3000) sessionId]).
  { rewrite Hst'. cbn [timers emit set_timers]. now rewrite Ht', Ht, Hc', Hc. }
  assert (Hclock : clock st' = clock st).
  { rewrite Hst'. cbn [clock emit set_timers]. now rewrite Hc', Hc. }
  assert (Hlookup : timers st' !! i = Some (mkTimer (clock st + 3000) sessionId)).
  { rewrite Htimers. now apply list_lookup_middle. }
  split; [|split; [|split; [exact Htimers|split; [|split]]]].
  - assert (Hq' : exists r0, heap (qr_part c u st) !! c_session c = Some r0
                             /\ s_id r0 = s_id r).
    { unfold qr_part. destruct (qr_given u) as [q|]; [|now exists r].
      exists (with_qrCode (Some q) r). split; [|reflexivity].
      unfold after_qr, if_default. destruct (is_default (c_sessionId c));
        cbn [heap dispatched emit set_g_qrCode set_heap];
        now rewrite list_lookup_alter_eq, Hr. }
    destruct Hq' as (r0 & Hr0 & Hid). exists (with_status "disconnected" r0).
    rewrite Hst'. cbn [heap emit set_timers]. rewrite Hh', list_lookup_alter_eq, Hr0.
    now repeat split.
  - exists (es ++ [line]), entry. rewrite Hst'. cbn [effects emit set_timers].
    rewrite He, Hq. unfold close_request. rewrite Hw, Hc, <- !app_assoc. cbn [app].
    split; [reflexivity|]. rewrite armed_app, Hqa.
    cbn in Harm |- *. split.
    + destruct line; try reflexivity. discriminate Harm.
    + destruct line, entry; try reflexivity; discriminate Harm.
  - rewrite Hst'. cbn [sessions emit set_timers]. now rewrite Hs', Hs.
  - apply (timer_not_due loggedOut st' i _ Hlookup). rewrite Hclock. cbn. lia.
  - intros wait Hwait.
    eexists. split.
    { apply (timer_fires loggedOut st' i _ wait Hlookup); [lia|]. rewrite Hclock. cbn. lia. }
    cbn [t_sessionId]. split; [|split; [|split]].
    + rewrite get_initialized. cbn [sockets clock set_timers set_clock].
      rewrite Hclock, Hst'. cbn [sockets emit set_timers]. now rewrite Hk', Hk.
    + rewrite initialized_sockets. cbn [sockets heap set_timers set_clock].
      rewrite Hst'. cbn [sockets heap emit set_timers].
      now rewrite Hk', Hk, Hh', length_alter, Hlen.
    + eexists. rewrite initialized_effects. cbn [effects sockets set_timers set_clock].
      rewrite <- (f_equal (@length Closure) Hk), <- (f_equal (@length Closure) Hk').
      rewrite Hst'. reflexivity.
    + rewrite initialized_timers. cbn [timers set_timers set_clock].
      rewrite Htimers. unfold i. now rewrite delete_middle, app_nil_r.
Qed.

Lemma ordinary_close_reconnects_witness :
  exists st'',
    run 401 [Tick 3000; TimerFires 0]
      (finish (onConnectionUpdate 401 (mkClosure "s1" 0 "baileys_auth_s1") (close_with 408))
         (initialized "s1" booted)) = Some st''
    /\ option_map s_status (get "s1" st'') = Some "connecting".
Proof.
  destruct (ordinary_close_reconnects 401 (mkClosure "s1" 0 "baileys_auth_s1")
              (close_with 408) (initialized "s1" booted)
              (mkSession "s1" (Some 0%nat) None "connecting" 1730000000000))
    as (_ & _ & _ & _ & _ & H); [reflexivity | reflexivity | reflexivity |].
  destruct (H 3000) as (st'' & Hrun & Hget & _); [lia|].
  exists st''. split; [exact Hrun|]. exact (f_equal (option_map s_status) Hget).
Defined.

(** *** The record behind a handler *)

Lemma handler_heap loggedOut c u st :
  heap (state_part loggedOut c u (qr_part c u st))
  = alter (record_after (qr_given u) (connection u)) (c_session c) (heap st).
Proof.
  unfold state_part, qr_part, record_after, after_close, closing, after_open,
    after_connecting, after_qr, if_default.
  destruct (qr_given u) as [q|], (connection u) as [s|];
    try destruct (String.eqb s "close");
    try destruct (String.eqb s "open");
    try destruct (String.eqb s "connecting");
    try destruct (shouldReconnect loggedOut (lastDisconnect u));
    destruct (is_default (c_sessionId c));
    cbn [heap dispatched emit set_heap set_timers set_sessions set_g_qrCode
         set_g_connectionStatus];
    rewrite ?list_alter_alter_eq; try reflexivity;
    symmetry; now apply list_alter_id.
Qed.

Lemma record_after_invariant q state r :
  qr_only_unconnected r ->
  (is_Some q -> acts_on state = true \/ s_status r <> "connected") ->
  qr_only_unconnected (record_after q state r).
Proof.
  unfold qr_only_unconnected, record_after, acts_on. intros Hinv Hq.
  destruct state as [s|].
  - destruct (String.eqb s "close"); [cbn; discriminate|].
    destruct (String.eqb s "open"); [reflexivity|].
    destruct (String.eqb s "connecting"); [cbn; discriminate|].
    destruct q as [code|]; [|exact Hinv]. cbn. intros Hc.
    destruct Hq as [Hq|Hq]; [eauto|discriminate|contradiction].
  - destruct q as [code|]; [|exact Hinv]. cbn. intros Hc.
    destruct Hq as [Hq|Hq]; [eauto|discriminate|contradiction].
Qed.

Lemma fresh_record_invariant sessionId socket now :
  qr_only_unconnected (mkSession sessionId socket None "connecting" now).
Proof. intros _. reflexivity. Qed.

Lemma initialized_keeps_invariant sessionId st :
  Forall qr_only_unconnected (heap st) ->
  Forall qr_only_unconnected (heap (initialized sessionId st)).
Proof.
  intros H. rewrite initialized_heap. apply Forall_app. split; [exact H|].
  constructor; [apply fresh_record_invariant|constructor].
Qed.

Lemma step_keeps_invariant loggedOut l st st' :
  Forall qr_only_unconnected (heap st) ->
  late_qr l st = false ->
  step loggedOut l st = Some st' ->
  Forall qr_only_unconnected (heap st').
Proof.
  intros Hinv Hlate Hstep. destruct l; cbn [step late_qr] in *.
  - injection Hstep as <-. rewrite finish_listen. now apply initialized_keeps_invariant.
  - destruct (0 <=? ms); [|discriminate]. now injection Hstep as <-.
  - destruct (timers st !! i) as [t|]; [|discriminate].
    destruct (t_due t <=? clock st); [|discriminate]. injection Hstep as <-.
    rewrite finish_reconnect. now apply initialized_keeps_invariant.
  - unfold on_socket in Hstep. destruct (sockets st !! s) as [c|]; [|discriminate].
    injection Hstep as <-. rewrite finish_onConnectionUpdate, handler_heap.
    apply Forall_alter; [exact Hinv|]. intros x Hx Px.
    apply record_after_invariant; [exact Px|]. intros Hq.
    unfold sets_state in Hlate. destruct (acts_on (connection u)); [now left|right].
    rewrite (bool_decide_eq_true_2 _ Hq) in Hlate. cbn in Hlate.
    unfold connected_record in Hlate. rewrite Hx in Hlate.
    now apply String.eqb_neq.
  - unfold on_socket in Hstep. destruct (sockets st !! s) as [c|]; [|discriminate].
    now injection Hstep as <-.
  - unfold on_socket in Hstep. destruct (sockets st !! s) as [c|]; [|discriminate].
    injection Hstep as <-.
    destruct (silent_finish _ st (onMessagesUpsert_silent c messages)) as (es & ->).
    exact Hinv.
  - unfold on_socket in Hstep. destruct (sockets st !! s) as [c|]; [|discriminate].
    injection Hstep as <-.
    destruct (silent_finish _ st (onMessagesUpdate_silent c updates)) as (es & ->).
    exact Hinv.
  - injection Hstep as <-. destruct (respond_snd (post_api_sessions_create requested) st)
      as (e & ->). rewrite create_run. destruct (has _ st); cbn [snd heap emit].
    + exact Hinv.
    + now apply initialized_keeps_invariant.
  - injection Hstep as <-.
    destruct (silent_respond _ st (qr_route_silent sessionId)) as (es & ->). exact Hinv.
  - injection Hstep as <-.
    destruct (silent_respond _ st (status_route_silent sessionId)) as (es & ->). exact Hinv.
  - injection Hstep as <-.
    destruct (respond_snd (delete_api_sessions sessionId outcome) st) as (e & ->).
    rewrite delete_run. destruct (get sessionId st) as [s0|]; [|exact Hinv].
    destruct (s_sock s0) as [k|]; [destruct outcome|]; exact Hinv.
  - injection Hstep as <-.
    destruct (respond_snd (post_api_webhook_register new_url new_secret) st) as (e & ->).
    destruct (register_run new_url new_secret st) as (cfg & ->). exact Hinv.
  - injection Hstep as <-.
    destruct (silent_respond _ st (proj1 legacy_routes_silent)) as (es & ->). exact Hinv.
  - injection Hstep as <-.
    destruct (silent_respond _ st (proj1 (proj2 legacy_routes_silent))) as (es & ->).
    exact Hinv.
  - injection Hstep as <-.
    destruct (silent_respond _ st (proj2 (proj2 legacy_routes_silent))) as (es & ->).
    exact Hinv.
Qed.

Lemma run_keeps_invariant loggedOut ls :
  forall st st',
    Forall qr_only_unconnected (heap st) ->
    timely loggedOut ls st ->
    run loggedOut ls st = Some st' ->
    Forall qr_only_unconnected (heap st').
Proof.
  induction ls as [|l rest IH]; intros st st' Hinv Hok Hrun; cbn in *.
  - now injection Hrun as <-.
  - destruct Hok as [Hlate Hrest].
    destruct (step loggedOut l st) as [st1|] eqn:Hstep; [|discriminate].
    eapply IH; [|exact Hrest|exact Hrun]. eapply step_keeps_invariant; eassumption.
Qed.

(** C6, as stated, fails: a QR code delivered to a session that is
    already connected is stored, and the record then has status connected
    and a QR code. *)
Lemma qr_after_open_is_stored :
  option_map (fun st => option_map (fun r => (s_status r, s_qrCode r)) (get "s1" st))
    (run 401 [Create (Some "s1");
              ConnectionUpdateEv 0 (mkUpdate (Some "open") JUndefined None);
              ConnectionUpdateEv 0 (mkUpdate None JUndefined (Some "2@ABC"))]
       booted)
  = Some (Some ("connected", Some "2@ABC")).
Proof. vm_compute. reflexivity. Qed.

(** C6, amended. Every transition to connected leaves the record with
    status connected and no QR code. A record created by
    [initializeWhatsApp] holds no QR code, and every step of the server
    keeps the invariant (a QR code only while the status is not connected)
    on every record, provided the step is not the delivery of a QR code,
    in an update that names no connection state, to a record that is
    already connected; so the invariant holds along every run from the
    start of the server without such a delivery. *)
Theorem connected_clears_qr :
  (forall loggedOut c u st r,
     connection u = Some "open" ->
     heap st !! c_session c = Some r ->
     exists r',
       heap (finish (onConnectionUpdate loggedOut c u) st) !! c_session c = Some r'
       /\ s_status r' = "connected" /\ s_qrCode r' = None)
  /\ (forall loggedOut l st st',
        Forall qr_only_unconnected (heap st) ->
        late_qr l st = false ->
        step loggedOut l st = Some st' ->
        Forall qr_only_unconnected (heap st'))
  /\ (forall loggedOut ls env_url env_secret now replies version st',
        timely loggedOut ls (boot env_url env_secret now replies version) ->
        run loggedOut ls (boot env_url env_secret now replies version) = Some st' ->
        Forall qr_only_unconnected (heap st')).
Proof.
  split; [|split].
  - intros loggedOut c u st r Hopen Hr.
    exists (record_after (qr_given u) (connection u) r). split.
    + now rewrite finish_onConnectionUpdate, handler_heap, list_lookup_alter_eq, Hr.
    + rewrite Hopen. unfold record_after. cbn. now split.
  - apply step_keeps_invariant.
  - intros loggedOut ls env_url env_secret now replies version st' Hok Hrun.
    eapply run_keeps_invariant; [|exact Hok|exact Hrun]. constructor.
Qed.

Lemma connected_clears_qr_witness :
  (exists r',
     heap (finish (onConnectionUpdate 401 (mkClosure "s1" 0 "baileys_auth_s1")
                     (mkUpdate (Some "open") JUndefined (Some "2@ABC")))
             (initialized "s1" booted)) !! 0%nat = Some r'
     /\ s_status r' = "connected" /\ s_qrCode r' = None)
  /\ (exists st',
        run 401 [Create (Some "s1");
                 ConnectionUpdateEv 0 (mkUpdate None JUndefined (Some "2@ABC"));
                 ConnectionUpdateEv 0 (mkUpdate (Some "open") JUndefined None)]
          booted = Some st'
        /\ Forall qr_only_unconnected (heap st')).
Proof.
  split.
  - apply (proj1 connected_clears_qr 401 (mkClosure "s1" 0 "baileys_auth_s1")
             (mkUpdate (Some "open") JUndefined (Some "2@ABC")) (initialized "s1" booted)
             (mkSession "s1" (Some 0%nat) None "connecting" 1730000000000));
      reflexivity.
  - eexists. split; [vm_compute; reflexivity|].
    apply (proj2 (proj2 connected_clears_qr) 401
             [Create (Some "s1");
              ConnectionUpdateEv 0 (mkUpdate None JUndefined (Some "2@ABC"));
              ConnectionUpdateEv 0 (mkUpdate (Some "open") JUndefined None)]
             None None 1730000000000 (fun _ => Replied 200) ([2; 3000; 1], true)).
    + vm_compute. repeat split; reflexivity.
    + vm_compute. reflexivity.
Defined.

(** *** The legacy globals *)

(** C10, as stated, fails. First run: the default session shows a QR
    code, its socket closes, the reconnect creates a fresh record, and the
    new socket reports connecting; after that execution of the handler the
    record holds no QR code while the global still holds the old one.
    Second run: the first update of the first socket carries only a QR
    code; the record has status connecting, the global says
    disconnected. *)
Lemma globals_lag_behind_fresh_record :
  (option_map (fun st => (option_map s_qrCode (get "default" st), g_qrCode st))
     (run 401 [Listen "3000";
               ConnectionUpdateEv 0 (mkUpdate (Some "connecting") JUndefined None);
               ConnectionUpdateEv 0 (mkUpdate None JUndefined (Some "2@ABC"));
               ConnectionUpdateEv 0 (close_with 408);
               Tick 3000; TimerFires 0;
               ConnectionUpdateEv 1 (mkUpdate (Some "connecting") JUndefined None)]
        booted)
   = Some (Some None, Some "2@ABC"))
  /\ (option_map (fun st => (option_map s_status (get "default" st), g_connectionStatus st))
        (run 401 [Listen "3000"; ConnectionUpdateEv 0 (mkUpdate None JUndefined (Some "2@ABC"))]
           booted)
      = Some (Some "connecting", "disconnected")).
Proof. vm_compute. split; reflexivity. Qed.

(** C10, amended. Every execution of the [connection.update] handler of
    the default session writes to the globals what it writes to its
    record: after an update that names close, open or connecting the
    global connectionStatus equals the record's status; after an update
    that carries a QR code, or that names open, the global qrCode equals
    the record's qrCode; and when the globals mirrored the record before
    the execution they mirror it after. A field that the execution does
    not assign keeps its old value on both sides, so the globals need not
    mirror a record that [initializeWhatsApp] has just created. *)
Theorem default_globals_follow_handler :
  forall loggedOut c u st r,
    c_sessionId c = "default" ->
    heap st !! c_session c = Some r ->
    let st' := finish (onConnectionUpdate loggedOut c u) st in
    exists r',
      heap st' !! c_session c = Some r'
      /\ (sets_state u = true -> g_connectionStatus st' = s_status r')
      /\ (is_Some (qr_given u) \/ connection u = Some "open" -> g_qrCode st' = s_qrCode r')
      /\ (mirrors st r -> mirrors st' r').
Proof.
  intros loggedOut c u st r Hdef Hr st'.
  assert (Hd : is_default (c_sessionId c) = true) by (now rewrite Hdef).
  exists (record_after (qr_given u) (connection u) r). split.
  { unfold st'. now rewrite finish_onConnectionUpdate, handler_heap, list_lookup_alter_eq, Hr. }
  unfold st'. rewrite finish_onConnectionUpdate.
  unfold state_part, qr_part, after_close, closing, after_open, after_connecting,
    after_qr, if_default, sets_state, acts_on, record_after, mirrors.
  rewrite Hd.
  destruct (qr_given u) as [q|]; destruct (connection u) as [s|];
    try (destruct (String.eqb s "close") eqn:E1;
         [destruct (shouldReconnect loggedOut (lastDisconnect u))
         |destruct (String.eqb s "open") eqn:E2;
          [|destruct (String.eqb s "connecting") eqn:E3]]);
    cbn; repeat split; intros;
    repeat match goal with
           | H : _ \/ _ |- _ => destruct H
           | H : _ /\ _ |- _ => destruct H
           | H : is_Some None |- _ => destruct H; discriminate
           | H : Some _ = Some _ |- _ => injection H as ->
           end;
    try discriminate; try congruence; auto.
Qed.

Lemma default_globals_follow_handler_witness :
  let st := finish (onConnectionUpdate 401 (mkClosure "default" 0 "baileys_auth_info")
                      (mkUpdate (Some "connecting") JUndefined None))
              (initialized "default" booted) in
  let st' := finish (onConnectionUpdate 401 (mkClosure "default" 0 "baileys_auth_info")
                       (mkUpdate (Some "open") JUndefined (Some "2@ABC")))
               st in
  exists r',
    heap st' !! 0%nat = Some r'
    /\ g_connectionStatus st' = s_status r'
    /\ g_qrCode st' = s_qrCode r'
    /\ mirrors st' r'.
Proof.
  intros st st'.
  destruct (default_globals_follow_handler 401 (mkClosure "default" 0 "baileys_auth_info")
              (mkUpdate (Some "open") JUndefined (Some "2@ABC")) st
              (mkSession "default" (Some 0%nat) None "connecting" 1730000000000))
    as (r' & Hr' & Hstatus & Hqr & Hmirror); [reflexivity | vm_compute; reflexivity |].
  exists r'. split; [exact Hr'|]. split; [|split].
  - apply Hstatus. reflexivity.
  - apply Hqr. right. reflexivity.
  - apply Hmirror. vm_compute. split; reflexivity.
Defined.

(** * Further properties of the server *)

Arguments JSDate.toISOString : simpl never.
Arguments Crypto.createHmac_sha256_hex : simpl never.

(** *** Invariants of reachable states *)

Lemma logged_snoc es e st : logged (es ++ [e]) st = emit e (logged es st).
Proof. unfold logged, emit. cbn. now rewrite app_assoc. Qed.

(** A property of states that the building blocks of a step keep is kept
    by every step. *)
Lemma step_preserves (I : State -> Prop) loggedOut :
  (forall st es, I st -> I (logged es st)) ->
  (forall st v, I st -> I (set_clock v st)) ->
  (forall st f, I st -> I (set_timers f st)) ->
  (forall st cfg, I st -> I (set_config cfg st)) ->
  (forall st sessionId, I st -> I (initialized sessionId st)) ->
  (forall st sessionId, I st -> I (set_sessions (delete sessionId) st)) ->
  (forall st s c u, I st -> sockets st !! s = Some c ->
     I (finish (onConnectionUpdate loggedOut c u) st)) ->
  forall l st st', I st -> step loggedOut l st = Some st' -> I st'.
Proof.
  intros Hlog Hclock Htimers Hcfg Hinit Hdel Hupd l st st' HI Hstep.
  assert (Hemit : forall s e, I s -> I (emit e s)) by (intros s e Hs; apply (Hlog s [e] Hs)).
  destruct l; cbn [step] in Hstep.
  - injection Hstep as <-. rewrite finish_listen. auto.
  - destruct (0 <=? ms); [|discriminate]. injection Hstep as <-. auto.
  - destruct (timers st !! i) as [t|]; [|discriminate].
    destruct (t_due t <=? clock st); [|discriminate]. injection Hstep as <-.
    rewrite finish_reconnect. auto.
  - unfold on_socket in Hstep. destruct (sockets st !! s) as [c|] eqn:Hc; [|discriminate].
    injection Hstep as <-. eauto.
  - unfold on_socket in Hstep. destruct (sockets st !! s) as [c|]; [|discriminate].
    injection Hstep as <-. apply Hemit, HI.
  - unfold on_socket in Hstep. destruct (sockets st !! s) as [c|]; [|discriminate].
    injection Hstep as <-.
    destruct (silent_finish _ st (onMessagesUpsert_silent c messages)) as (es & ->). auto.
  - unfold on_socket in Hstep. destruct (sockets st !! s) as [c|]; [|discriminate].
    injection Hstep as <-.
    destruct (silent_finish _ st (onMessagesUpdate_silent c updates)) as (es & ->). auto.
  - injection Hstep as <-. destruct (respond_snd (post_api_sessions_create requested) st)
      as (e & ->). rewrite create_run. destruct (has _ st); cbn [snd]; auto.
  - injection Hstep as <-.
    destruct (silent_respond _ st (qr_route_silent sessionId)) as (es & ->). auto.
  - injection Hstep as <-.
    destruct (silent_respond _ st (status_route_silent sessionId)) as (es & ->). auto.
  - injection Hstep as <-.
    destruct (respond_snd (delete_api_sessions sessionId outcome) st) as (e & ->).
    rewrite delete_run. destruct (get sessionId st) as [s0|]; [|auto].
    destruct (s_sock s0) as [k|]; [destruct outcome|]; cbn [snd]; auto.
  - injection Hstep as <-.
    destruct (respond_snd (post_api_webhook_register new_url new_secret) st) as (e & ->).
    destruct (register_run new_url new_secret st) as (cfg & ->). auto.
  - injection Hstep as <-.
    destruct (silent_respond _ st (proj1 legacy_routes_silent)) as (es & ->). auto.
  - injection Hstep as <-.
    destruct (silent_respond _ st (proj1 (proj2 legacy_routes_silent))) as (es & ->). auto.
  - injection Hstep as <-.
    destruct (silent_respond _ st (proj2 (proj2 legacy_routes_silent))) as (es & ->). auto.
Qed.

Lemma run_preserves (I : State -> Prop) loggedOut :
  (forall l st st', I st -> step loggedOut l st = Some st' -> I st') ->
  forall ls st st', I st -> run loggedOut ls st = Some st' -> I st'.
Proof.
  intros Hstep ls. induction ls as [|l rest IH]; intros st st' HI Hrun; cbn in Hrun.
  - now injection Hrun as <-.
  - destruct (step loggedOut l st) as [st1|] eqn:H1; [|discriminate]. eauto.
Qed.

(** What one execution of the [connection.update] handler leaves alone,
    and what it does to registry and globals. *)
Lemma handler_frame loggedOut c u st :
  let st' := state_part loggedOut c u (qr_part c u st) in
  sockets st' = sockets st
  /\ g_sock st' = g_sock st
  /\ WEBHOOK_CONFIG st' = WEBHOOK_CONFIG st
  /\ clock st' = clock st
  /\ sessions st'
     = (if match connection u with
           | Some s => String.eqb s "close" && negb (shouldReconnect loggedOut (lastDisconnect u))
           | None => false
           end
        then delete (c_sessionId c) (sessions st)
        else sessions st)
  /\ (g_qrCode st', g_connectionStatus st')
     = (if is_default (c_sessionId c)
        then assigned (qr_given u) (connection u) (g_qrCode st, g_connectionStatus st)
        else (g_qrCode st, g_connectionStatus st)).
Proof.
  unfold state_part, qr_part, assigned, after_close, closing, after_open,
    after_connecting, after_qr, if_default.
  destruct (qr_given u) as [q|], (connection u) as [s|];
    try destruct (String.eqb s "close");
    try destruct (String.eqb s "open");
    try destruct (String.eqb s "connecting");
    try destruct (shouldReconnect loggedOut (lastDisconnect u));
    destruct (is_default (c_sessionId c)); cbn; repeat split.
Qed.

Lemma record_after_fields q state r :
  s_id (record_after q state r) = s_id r
  /\ s_sock (record_after q state r) = s_sock r
  /\ s_createdAt (record_after q state r) = s_createdAt r
  /\ (s_qrCode (record_after q state r), s_status (record_after q state r))
     = assigned q state (s_qrCode r, s_status r).
Proof.
  unfold record_after, assigned. destruct q as [code|], state as [t|];
    try destruct (String.eqb t "close");
    try destruct (String.eqb t "open");
    try destruct (String.eqb t "connecting"); repeat split.
Qed.

Lemma wellformed_logged es st : wellformed st -> wellformed (logged es st).
Proof. exact (fun H => H). Qed.

Lemma wellformed_initialized sessionId st :
  wellformed st -> wellformed (initialized sessionId st).
Proof.
  intros (Hlen & Hclo & Hreg & Hg & Hdef). unfold wellformed.
  rewrite initialized_heap, initialized_sockets, initialized_sessions.
  assert (Hgs : g_sock (initialized sessionId st)
                = if is_default sessionId then Some (length (sockets st)) else g_sock st).
  { unfold initialized, if_default. destruct (is_default sessionId); reflexivity. }
  rewrite Hgs. split; [|split; [|split; [|split]]].
  - rewrite !length_app. cbn. lia.
  - intros k c Hk. apply lookup_snoc_Some in Hk as [[Hlt Hk]|[-> <-]].
    + destruct (Hclo k c Hk) as (H1 & H2 & r & Hr & H3 & H4).
      repeat split; try assumption. exists r. split; [|now split].
      now apply lookup_app_l_Some.
    + cbn. repeat split; [now symmetry|]. eexists.
      split; [apply list_lookup_middle; now symmetry|]. split; reflexivity.
  - intros id l Hl. apply lookup_insert_Some in Hl as [[<- <-]|[Hne Hl]].
    + eexists. split; [now apply list_lookup_middle|reflexivity].
    + destruct (Hreg id l Hl) as (r & Hr & Hid). exists r. split; [|exact Hid].
      now apply lookup_app_l_Some.
  - intros k Hk. unfold is_default in Hk.
    destruct (String.eqb sessionId "default") eqn:E.
    + injection Hk as <-. eexists. split; [now apply list_lookup_middle|].
      cbn. now apply String.eqb_eq.
    + destruct (Hg k Hk) as (c & Hc & Hcd). exists c. split; [|exact Hcd].
      now apply lookup_app_l_Some.
  - intros l r Hl Hr. unfold is_default.
    destruct (String.eqb sessionId "default") eqn:E.
    + apply String.eqb_eq in E. subst sessionId. rewrite lookup_insert_eq in Hl.
      injection Hl as <-. rewrite list_lookup_middle in Hr by reflexivity.
      now injection Hr as <-.
    + apply String.eqb_neq in E. rewrite lookup_insert_ne in Hl by exact E.
      destruct (Hreg _ _ Hl) as (r0 & Hr0 & _).
      rewrite (lookup_app_l_Some _ _ _ _ Hr0) in Hr. injection Hr as <-. eauto.
Qed.

Lemma wellformed_delete sessionId st :
  wellformed st -> wellformed (set_sessions (delete sessionId) st).
Proof.
  intros (Hlen & Hclo & Hreg & Hg & Hdef). unfold wellformed. cbn.
  repeat split; try assumption.
  - destruct (Hclo k c H) as (H1 & _). exact H1.
  - destruct (Hclo k c H) as (_ & H2 & _). exact H2.
  - destruct (Hclo k c H) as (_ & _ & H3). exact H3.
  - intros id l Hl. apply lookup_delete_Some in Hl as [_ Hl]. eauto.
  - intros l r Hl Hr. apply lookup_delete_Some in Hl as [_ Hl]. eauto.
Qed.

Lemma wellformed_handler loggedOut st c u :
  wellformed st -> wellformed (finish (onConnectionUpdate loggedOut c u) st).
Proof.
  intros (Hlen & Hclo & Hreg & Hg & Hdef).
  rewrite finish_onConnectionUpdate.
  destruct (handler_frame loggedOut c u st) as (Hk & Hgs & _ & _ & Hs & _).
  pose proof (handler_heap loggedOut c u st) as Hh.
  set (st' := state_part loggedOut c u (qr_part c u st)) in *.
  assert (Hlook : forall l r, heap st' !! l = Some r ->
                    exists r0, heap st !! l = Some r0 /\ s_id r = s_id r0 /\ s_sock r = s_sock r0).
  { intros l r Hr. rewrite Hh in Hr. destruct (decide (c_session c = l)) as [<-|Hne].
    - rewrite list_lookup_alter_eq in Hr. destruct (heap st !! c_session c) as [r0|]; [|discriminate].
      injection Hr as <-. exists r0.
      destruct (record_after_fields (qr_given u) (connection u) r0) as (H1 & H2 & _).
      now repeat split.
    - rewrite list_lookup_alter_ne in Hr by exact Hne. eauto. }
  assert (Hback : forall l r0, heap st !! l = Some r0 ->
                    exists r, heap st' !! l = Some r /\ s_id r = s_id r0 /\ s_sock r = s_sock r0).
  { intros l r0 Hr0. rewrite Hh. destruct (decide (c_session c = l)) as [<-|Hne].
    - rewrite list_lookup_alter_eq, Hr0. eexists. split; [reflexivity|].
      destruct (record_after_fields (qr_given u) (connection u) r0) as (H1 & H2 & _).
      now split.
    - rewrite list_lookup_alter_ne by exact Hne. eauto. }
  assert (Hsub : forall id l, sessions st' !! id = Some l -> sessions st !! id = Some l).
  { intros id l. rewrite Hs. destruct (match connection u with Some _ => _ | None => _ end).
    - intros Hl. now apply lookup_delete_Some in Hl as [_ Hl].
    - easy. }
  unfold wellformed. rewrite Hk, Hgs. split; [|split; [|split; [|split]]].
  - rewrite Hh, length_alter. exact Hlen.
  - intros k c0 Hc0. destruct (Hclo k c0 Hc0) as (H1 & H2 & r0 & Hr0 & H3 & H4).
    repeat split; try assumption. destruct (Hback k r0 Hr0) as (r & Hr & Hi & Hso).
    exists r. split; [exact Hr|]. split; congruence.
  - intros id l Hl. destruct (Hreg id l (Hsub id l Hl)) as (r0 & Hr0 & Hid).
    destruct (Hback l r0 Hr0) as (r & Hr & Hi & _). exists r. split; [exact Hr|congruence].
  - exact Hg.
  - intros l r Hl Hr. destruct (Hlook l r Hr) as (r0 & Hr0 & _ & Hso).
    rewrite Hso. eapply Hdef; [apply Hsub|]; eassumption.
Qed.

Lemma step_wellformed loggedOut l st st' :
  wellformed st -> step loggedOut l st = Some st' -> wellformed st'.
Proof.
  apply (step_preserves wellformed loggedOut); intros; auto using wellformed_initialized,
    wellformed_delete, wellformed_handler.
Qed.

Lemma boot_wellformed env_url env_secret now replies version :
  wellformed (boot env_url env_secret now replies version).
Proof.
  unfold wellformed, boot. cbn. repeat split; intros; try discriminate.
  all: try (rewrite lookup_empty in *; discriminate).
  all: match goal with H : [] !! _ = Some _ |- _ => now rewrite lookup_nil in H end.
Qed.

Lemma run_wellformed loggedOut ls env_url env_secret now replies version st :
  run loggedOut ls (boot env_url env_secret now replies version) = Some st ->
  wellformed st.
Proof.
  apply (run_preserves wellformed loggedOut (step_wellformed loggedOut)).
  apply boot_wellformed.
Qed.

Lemma qr_given_nonempty u q : qr_given u = Some q -> q <> "".
Proof.
  unfold qr_given. destruct (qr u) as [q0|]; [|discriminate].
  destruct (String.eqb q0 "") eqn:E; [discriminate|].
  intros [= <-]. now apply String.eqb_neq.
Qed.

Lemma assigned_ok u g :
  assigned_status (snd g) -> fst g <> Some "" ->
  assigned_status (snd (assigned (qr_given u) (connection u) g))
  /\ fst (assigned (qr_given u) (connection u) g) <> Some "".
Proof.
  intros Hs Hq. unfold assigned, assigned_status in *.
  assert (Hq1 : match qr_given u with Some code => Some code | None => fst g end <> Some "").
  { destruct (qr_given u) as [q|] eqn:E; [|exact Hq].
    intros [= ->]. now apply (qr_given_nonempty u "" E). }
  destruct (connection u) as [s|]; [|now split].
  destruct (String.eqb s "close"); [cbn; split; auto|].
  destruct (String.eqb s "open"); [cbn; split; [auto|discriminate]|].
  destruct (String.eqb s "connecting"); cbn; split; auto.
Qed.

Lemma stored_values_initialized sessionId st :
  stored_values_ok st -> stored_values_ok (initialized sessionId st).
Proof.
  intros (Hh & Hs & Hq). unfold stored_values_ok. rewrite initialized_heap.
  assert (Hg : g_connectionStatus (initialized sessionId st) = g_connectionStatus st
               /\ g_qrCode (initialized sessionId st) = g_qrCode st).
  { unfold initialized, if_default. destruct (is_default sessionId); now split. }
  destruct Hg as [-> ->]. repeat split; try assumption.
  apply Forall_app. split; [exact Hh|]. constructor; [|constructor].
  cbn. split; [left; reflexivity|discriminate].
Qed.

Lemma stored_values_handler loggedOut st c u :
  stored_values_ok st -> stored_values_ok (finish (onConnectionUpdate loggedOut c u) st).
Proof.
  intros (Hh & Hs & Hq). rewrite finish_onConnectionUpdate.
  destruct (handler_frame loggedOut c u st) as (_ & _ & _ & _ & _ & Hg).
  unfold stored_values_ok. rewrite handler_heap. split.
  - apply Forall_alter; [exact Hh|]. intros r _ [Hrs Hrq].
    destruct (record_after_fields (qr_given u) (connection u) r) as (_ & _ & _ & Hpair).
    destruct (assigned_ok u (s_qrCode r, s_status r) Hrs Hrq) as [H1 H2].
    rewrite <- Hpair in H1, H2. now split.
  - destruct (is_default (c_sessionId c)).
    + destruct (assigned_ok u (g_qrCode st, g_connectionStatus st) Hs Hq) as [H1 H2].
      rewrite <- Hg in H1, H2. now split.
    + injection Hg as -> ->. now split.
Qed.

Lemma step_stored_values loggedOut l st st' :
  stored_values_ok st -> step loggedOut l st = Some st' -> stored_values_ok st'.
Proof.
  apply (step_preserves stored_values_ok loggedOut); intros;
    auto using stored_values_initialized, stored_values_handler.
Qed.

Lemma boot_stored_values env_url env_secret now replies version :
  stored_values_ok (boot env_url env_secret now replies version).
Proof.
  unfold stored_values_ok, boot. cbn. repeat split; [constructor| |discriminate].
  right. right. reflexivity.
Qed.

(** X1. In every state the server reaches from its start, whatever the
    requests, transport events and timers: socket k and record k were made
    together, the handlers of socket k captured record k and the auth
    folder of its session id, record k carries that id and that socket; a
    registry key is the id of the record it points to; the global sock is
    a socket of the default session and is the socket of the record
    registered as default, when there is one. *)
Theorem reachable_wellformed :
  forall loggedOut ls env_url env_secret now replies version st,
    run loggedOut ls (boot env_url env_secret now replies version) = Some st ->
    wellformed st.
Proof.
  intros loggedOut ls env_url env_secret now replies version st.
  apply (run_preserves wellformed loggedOut (step_wellformed loggedOut)).
  apply boot_wellformed.
Qed.

Lemma reachable_wellformed_witness :
  exists st,
    run 401 [Listen "8080"; Create (Some "s1"); ConnectionUpdateEv 0 (close_with 408);
             Tick 3000; TimerFires 0; Delete "s1" LogoutResolves] booted = Some st
    /\ wellformed st.
Proof.
  eexists. split; [vm_compute; reflexivity|].
  apply (reachable_wellformed 401
           [Listen "8080"; Create (Some "s1"); ConnectionUpdateEv 0 (close_with 408);
            Tick 3000; TimerFires 0; Delete "s1" LogoutResolves]
           None None 1730000000000 (fun _ => Replied 200) ([2; 3000; 1], true)).
  vm_compute. reflexivity.
Defined.

(** X2. In every reachable state the status of every record, and the
    global connectionStatus, is one of connecting, connected and
    disconnected (no record ever has the status initializing), and no
    record and no global holds the empty string as QR code. *)
Theorem reachable_stored_values :
  forall loggedOut ls env_url env_secret now replies version st,
    run loggedOut ls (boot env_url env_secret now replies version) = Some st ->
    stored_values_ok st.
Proof.
  intros loggedOut ls env_url env_secret now replies version st.
  apply (run_preserves stored_values_ok loggedOut (step_stored_values loggedOut)).
  apply boot_stored_values.
Qed.

Lemma reachable_stored_values_witness :
  exists st,
    run 401 [Listen "8080";
             ConnectionUpdateEv 0 (mkUpdate (Some "connecting") JUndefined (Some ""));
             ConnectionUpdateEv 0 (mkUpdate None JUndefined (Some "2@ABC"));
             ConnectionUpdateEv 0 (mkUpdate (Some "open") JUndefined None)] booted = Some st
    /\ stored_values_ok st.
Proof.
  eexists. split; [vm_compute; reflexivity|].
  apply (reachable_stored_values 401
           [Listen "8080";
            ConnectionUpdateEv 0 (mkUpdate (Some "connecting") JUndefined (Some ""));
            ConnectionUpdateEv 0 (mkUpdate None JUndefined (Some "2@ABC"));
            ConnectionUpdateEv 0 (mkUpdate (Some "open") JUndefined None)]
           None None 1730000000000 (fun _ => Replied 200) ([2; 3000; 1], true)).
  vm_compute. reflexivity.
Defined.

(** *** Sessions do not disturb each other *)

(** X3. In a reachable state, an execution of the [connection.update]
    handler of one session's socket changes neither the registry entry nor
    the record of any session with another id, and when the socket does
    not belong to the default session it leaves the legacy globals as they
    were. *)
Theorem other_sessions_untouched :
  forall loggedOut ls env_url env_secret now replies version st s c u other,
    run loggedOut ls (boot env_url env_secret now replies version) = Some st ->
    sockets st !! s = Some c ->
    other <> c_sessionId c ->
    let st' := finish (onConnectionUpdate loggedOut c u) st in
    sessions st' !! other = sessions st !! other
    /\ get other st' = get other st
    /\ (c_sessionId c <> "default" ->
        g_sock st' = g_sock st /\ g_qrCode st' = g_qrCode st
        /\ g_connectionStatus st' = g_connectionStatus st).
Proof.
  intros loggedOut ls env_url env_secret now replies version st s c u other Hrun Hc Hne st'.
  pose proof (run_wellformed _ _ _ _ _ _ _ _ Hrun) as (_ & Hclo & Hreg & _).
  destruct (Hclo s c Hc) as (Hcs & _ & rc & Hrc & Hidc & _).
  unfold st'. rewrite finish_onConnectionUpdate.
  destruct (handler_frame loggedOut c u st) as (_ & Hgs & _ & _ & Hs & Hg).
  assert (Hsess : sessions (state_part loggedOut c u (qr_part c u st)) !! other
                  = sessions st !! other).
  { rewrite Hs. destruct (match connection u with Some _ => _ | None => _ end); [|reflexivity].
    apply lookup_delete_ne. congruence. }
  split; [exact Hsess|]. split.
  - unfold get. rewrite Hsess. destruct (sessions st !! other) as [l|] eqn:Hl; [|reflexivity].
    rewrite handler_heap. apply list_lookup_alter_ne. intros Heq.
    destruct (Hreg other l Hl) as (r & Hr & Hid). subst l. rewrite Hcs in Hr.
    congruence.
  - intros Hnd. split; [exact Hgs|].
    assert (E : is_default (c_sessionId c) = false) by now apply String.eqb_neq.
    rewrite E in Hg. now injection Hg.
Qed.

Lemma other_sessions_untouched_witness :
  exists st,
    run 401 [Create (Some "a"); Create (Some "b")] booted = Some st
    /\ get "b" (finish (onConnectionUpdate 401 (mkClosure "a" 0 "baileys_auth_a")
                          (close_with 401)) st)
       = get "b" st.
Proof.
  eexists. split; [vm_compute; reflexivity|].
  apply (other_sessions_untouched 401 [Create (Some "a"); Create (Some "b")]
           None None 1730000000000 (fun _ => Replied 200) ([2; 3000; 1], true)
           _ 0%nat (mkClosure "a" 0 "baileys_auth_a") (close_with 401) "b");
    [vm_compute; reflexivity | vm_compute; reflexivity | discriminate].
Defined.

(** *** The session routes after a transport event *)

Lemma qr_route_run sessionId st :
  get_api_sessions_qr sessionId st
  = (Normal match get sessionId st with
            | None => mkResponse 404 (JObj [("error", JStr "Session not found")])
            | Some s =>
                if no_qr (s_qrCode s)
                then mkResponse 404 (JObj [("error", JStr "No QR code available")])
                else mkResponse 200 (JObj [("qr", qr_json (s_qrCode s))])
            end, st).
Proof.
  unfold get_api_sessions_qr. exec. destruct (get sessionId st) as [s|]; [|reflexivity].
  now destruct (no_qr (s_qrCode s)).
Qed.

Lemma status_route_run sessionId st :
  get_api_sessions_status sessionId st
  = (Normal match get sessionId st with
            | None => mkResponse 404 (JObj [("error", JStr "Session not found")])
            | Some s =>
                mkResponse 200
                  (JObj [("sessionId", JStr sessionId);
                         ("connected", JBool (String.eqb (s_status s) "connected"));
                         ("status", JStr (s_status s));
                         ("hasQR", JBool (bool_decide (is_Some (s_qrCode s))));
                         ("createdAt", JStr (JSDate.toISOString (s_createdAt s)))])
            end, st).
Proof.
  unfold get_api_sessions_status. exec. now destruct (get sessionId st).
Qed.

Lemma get_after_handler loggedOut c u st r :
  sessions st !! c_sessionId c = Some (c_session c) ->
  heap st !! c_session c = Some r ->
  get (c_sessionId c) (finish (onConnectionUpdate loggedOut c u) st)
  = if terminal_close loggedOut u then None
    else Some (record_after (qr_given u) (connection u) r).
Proof.
  intros Hs Hr. rewrite finish_onConnectionUpdate. unfold get.
  destruct (handler_frame loggedOut c u st) as (_ & _ & _ & _ & -> & _).
  fold (terminal_close loggedOut u). destruct (terminal_close loggedOut u).
  - now rewrite lookup_delete_eq.
  - now rewrite Hs, handler_heap, list_lookup_alter_eq, Hr.
Qed.

(** X4. For a session whose registry entry is the record of the socket:
    after an update that brings a QR code and no connection state, the QR
    route of the session answers 200 with that code and the status route
    reports hasQR; after an update that opens the connection, the QR route
    answers 404 (no QR code available) and the status route reports status
    connected, connected true and hasQR false. *)
Theorem session_routes_after_qr_and_open :
  forall loggedOut c u st r,
    sessions st !! c_sessionId c = Some (c_session c) ->
    heap st !! c_session c = Some r ->
    let sessionId := c_sessionId c in
    let st' := finish (onConnectionUpdate loggedOut c u) st in
    (forall q, qr_given u = Some q -> connection u = None ->
       fst (get_api_sessions_qr sessionId st')
       = Normal (mkResponse 200 (JObj [("qr", JStr q)]))
       /\ fst (get_api_sessions_status sessionId st')
          = Normal (mkResponse 200
                      (JObj [("sessionId", JStr sessionId);
                             ("connected", JBool (String.eqb (s_status r) "connected"));
                             ("status", JStr (s_status r));
                             ("hasQR", JBool true);
                             ("createdAt", JStr (JSDate.toISOString (s_createdAt r)))])))
    /\ (connection u = Some "open" ->
        fst (get_api_sessions_qr sessionId st')
        = Normal (mkResponse 404 (JObj [("error", JStr "No QR code available")]))
        /\ fst (get_api_sessions_status sessionId st')
           = Normal (mkResponse 200
                       (JObj [("sessionId", JStr sessionId);
                              ("connected", JBool true);
                              ("status", JStr "connected");
                              ("hasQR", JBool false);
                              ("createdAt", JStr (JSDate.toISOString (s_createdAt r)))]))).
Proof.
  intros loggedOut c u st r Hs Hr sessionId st'.
  pose proof (get_after_handler loggedOut c u st r Hs Hr) as Hget.
  fold sessionId st' in Hget. split.
  - intros q Hq Hnone. rewrite qr_route_run, status_route_run, Hget.
    unfold terminal_close. rewrite Hnone, Hq. cbn.
    pose proof (qr_given_nonempty u q Hq) as Hne. apply String.eqb_neq in Hne.
    rewrite Hne. split; reflexivity.
  - intros Hopen. rewrite qr_route_run, status_route_run, Hget.
    unfold terminal_close. rewrite Hopen. cbn.
    destruct (qr_given u); split; reflexivity.
Qed.

Lemma session_routes_after_qr_and_open_witness :
  let c := mkClosure "s1" 0 "baileys_auth_s1" in
  fst (get_api_sessions_qr "s1"
         (finish (onConnectionUpdate 401 c (mkUpdate None JUndefined (Some "2@ABC")))
            (initialized "s1" booted)))
  = Normal (mkResponse 200 (JObj [("qr", JStr "2@ABC")]))
  /\ fst (get_api_sessions_qr "s1"
            (finish (onConnectionUpdate 401 c (mkUpdate (Some "open") JUndefined None))
               (initialized "s1" booted)))
     = Normal (mkResponse 404 (JObj [("error", JStr "No QR code available")])).
Proof.
  intros c.
  assert (Hs : sessions (initialized "s1" booted) !! c_sessionId c = Some (c_session c))
    by (vm_compute; reflexivity).
  assert (Hr : heap (initialized "s1" booted) !! c_session c
               = Some (mkSession "s1" (Some 0%nat) None "connecting" 1730000000000))
    by (vm_compute; reflexivity).
  split.
  - destruct (session_routes_after_qr_and_open 401 c
                (mkUpdate None JUndefined (Some "2@ABC")) _ _ Hs Hr) as [Hqr _].
    destruct (Hqr "2@ABC" eq_refl eq_refl) as [H _]. exact H.
  - destruct (session_routes_after_qr_and_open 401 c
                (mkUpdate (Some "open") JUndefined None) _ _ Hs Hr) as [_ Hopen].
    destruct (Hopen eq_refl) as [H _]. exact H.
Defined.

(** X5. For a session whose registry entry is the record of the socket:
    after a close with an ordinary reason the session is still served, its
    status route reporting status disconnected and connected false; after a
    close with the logged-out reason both session routes answer 404
    (session not found). *)
Theorem session_routes_after_close :
  forall loggedOut c u st r,
    sessions st !! c_sessionId c = Some (c_session c) ->
    heap st !! c_session c = Some r ->
    connection u = Some "close" ->
    let sessionId := c_sessionId c in
    let st' := finish (onConnectionUpdate loggedOut c u) st in
    (shouldReconnect loggedOut (lastDisconnect u) = true ->
       exists hasQR,
         fst (get_api_sessions_status sessionId st')
         = Normal (mkResponse 200
                     (JObj [("sessionId", JStr sessionId);
                            ("connected", JBool false);
                            ("status", JStr "disconnected");
                            ("hasQR", JBool hasQR);
                            ("createdAt", JStr (JSDate.toISOString (s_createdAt r)))])))
    /\ (shouldReconnect loggedOut (lastDisconnect u) = false ->
        fst (get_api_sessions_status sessionId st')
        = Normal (mkResponse 404 (JObj [("error", JStr "Session not found")]))
        /\ fst (get_api_sessions_qr sessionId st')
           = Normal (mkResponse 404 (JObj [("error", JStr "Session not found")]))).
Proof.
  intros loggedOut c u st r Hs Hr Hclose sessionId st'.
  pose proof (get_after_handler loggedOut c u st r Hs Hr) as Hget.
  fold sessionId st' in Hget. unfold terminal_close in Hget. rewrite Hclose in Hget.
  split; intros Hre; rewrite Hre in Hget; cbn in Hget.
  - rewrite status_route_run, Hget. unfold record_after. cbn.
    destruct (qr_given u); eexists; reflexivity.
  - now rewrite status_route_run, qr_route_run, Hget.
Qed.

Lemma session_routes_after_close_witness :
  let c := mkClosure "s1" 0 "baileys_auth_s1" in
  fst (get_api_sessions_status "s1"
         (finish (onConnectionUpdate 401 c (close_with 401)) (initialized "s1" booted)))
  = Normal (mkResponse 404 (JObj [("error", JStr "Session not found")]))
  /\ exists hasQR,
       fst (get_api_sessions_status "s1"
              (finish (onConnectionUpdate 401 c (close_with 408)) (initialized "s1" booted)))
       = Normal (mkResponse 200
                   (JObj [("sessionId", JStr "s1"); ("connected", JBool false);
                          ("status", JStr "disconnected"); ("hasQR", JBool hasQR);
                          ("createdAt", JStr (JSDate.toISOString 1730000000000))])).
Proof.
  intros c.
  assert (Hs : sessions (initialized "s1" booted) !! c_sessionId c = Some (c_session c))
    by (vm_compute; reflexivity).
  assert (Hr : heap (initialized "s1" booted) !! c_session c
               = Some (mkSession "s1" (Some 0%nat) None "connecting" 1730000000000))
    by (vm_compute; reflexivity).
  split.
  - destruct (session_routes_after_close 401 c (close_with 401) _ _ Hs Hr eq_refl)
      as [_ Hterminal].
    destruct (Hterminal eq_refl) as [H _]. exact H.
  - destruct (session_routes_after_close 401 c (close_with 408) _ _ Hs Hr eq_refl)
      as [Hordinary _].
    exact (Hordinary eq_refl).
Defined.

(** *** Webhook configuration *)




(** *** Webhooks of the transport events *)

Lemma onMessagesUpdate_run c updates st :
  onMessagesUpdate c updates st = (Normal tt, after_update c updates st).
Proof.
  revert st. induction updates as [|update rest IH]; intros st; [reflexivity|].
  unfold onMessagesUpdate in *. cbn [for_of after_update]. unfold bind at 1.
  rewrite sendWebhook_run. apply IH.
Qed.

Lemma after_update_posts c updates st :
  WEBHOOK_CONFIG (after_update c updates st) = WEBHOOK_CONFIG st
  /\ clock (after_update c updates st) = clock st
  /\ posts (effects (after_update c updates st))
     = posts (effects st)
       ++ map (fun update => webhook_request (WEBHOOK_CONFIG st) (clock st) "status" update
                               (c_sessionId c))
            updates.
Proof.
  revert st. induction updates as [|update rest IH]; intros st.
  - cbn. now rewrite app_nil_r.
  - cbn [after_update map].
    destruct (IH (dispatched "status" update (c_sessionId c) st)) as (-> & -> & ->).
    rewrite posts_dispatched. cbn [WEBHOOK_CONFIG clock dispatched emit].
    now rewrite <- app_assoc.
Qed.

(** X7. The [messages.update] handler never rejects and posts exactly one
    webhook per update of the event, in the order of the updates, each with
    event [status], the session id of the socket and the update itself,
    unchanged, as data; an empty event posts nothing. Registry, records and
    timers stay as they are. *)
Theorem onMessagesUpdate_forwards_each :
  forall c updates st,
    exists st',
      onMessagesUpdate c updates st = (Normal tt, st')
      /\ posts (effects st')
         = posts (effects st)
           ++ map (fun update => webhook_request (WEBHOOK_CONFIG st) (clock st) "status"
                                   update (c_sessionId c))
                updates
      /\ (forall update,
            rq_data (webhook_request (WEBHOOK_CONFIG st) (clock st) "status" update
                       (c_sessionId c))
            = JObj [("sessionId", JStr (c_sessionId c)); ("event", JStr "status");
                    ("data", update);
                    ("timestamp", JStr (JSDate.toISOString (clock st)))])
      /\ sessions st' = sessions st /\ heap st' = heap st /\ timers st' = timers st.
Proof.
  intros c updates st. exists (after_update c updates st).
  split; [apply onMessagesUpdate_run|].
  destruct (after_update_posts c updates st) as (_ & _ & ->).
  split; [reflexivity|]. split; [reflexivity|].
  destruct (onMessagesUpdate_silent c updates st) as ([] & es & Hs).
  rewrite onMessagesUpdate_run in Hs. injection Hs as ->. easy.
Qed.

Lemma posts_state_part loggedOut c u st :
  exists new,
    posts (effects (state_part loggedOut c u st)) = posts (effects st) ++ new
    /\ map event_of new
       = match connection u with
         | Some s =>
             if String.eqb s "close" then [JStr "disconnected"]
             else if String.eqb s "open" then [JStr "connected"]
             else []
         | None => []
         end
    /\ Forall (fun r => session_of r = JStr (c_sessionId c)
                        /\ rq_url r = url (WEBHOOK_CONFIG st)) new.
Proof.
  unfold state_part. destruct (connection u) as [s|]; [|exists []; now rewrite app_nil_r].
  destruct (String.eqb s "close").
  { destruct (closing_effects loggedOut c (lastDisconnect u) st) as (line & entry & He & _ & Hp).
    exists [close_request c (lastDisconnect u) st]. split; [|split].
    - unfold after_close. destruct (shouldReconnect loggedOut (lastDisconnect u));
        cbn [effects emit set_timers set_sessions]; rewrite He, ?posts_app, Hp;
        cbn; now rewrite ?app_nil_r.
    - reflexivity.
    - constructor; [now split|constructor]. }
  destruct (String.eqb s "open").
  { eexists [_]. unfold after_open. rewrite posts_dispatched. unfold if_default.
    destruct (is_default (c_sessionId c)); cbn [effects emit set_g_qrCode
      set_g_connectionStatus set_heap WEBHOOK_CONFIG clock];
      rewrite posts_app; cbn [posts flat_map app]; rewrite app_nil_r;
      (split; [reflexivity|]); (split; [reflexivity|]);
      (constructor; [now split|constructor]). }
  exists []. rewrite app_nil_r. split; [|now split].
  destruct (String.eqb s "connecting"); [|reflexivity].
  unfold after_connecting, if_default. now destruct (is_default (c_sessionId c)).
Qed.

Lemma posts_qr_part c u st :
  exists new,
    posts (effects (qr_part c u st)) = posts (effects st) ++ new
    /\ map event_of new = match qr_given u with Some _ => [JStr "qr"] | None => [] end
    /\ Forall (fun r => session_of r = JStr (c_sessionId c)
                        /\ rq_url r = url (WEBHOOK_CONFIG st)) new.
Proof.
  unfold qr_part. destruct (qr_given u) as [q|]; [|exists []; now rewrite app_nil_r].
  eexists [_]. unfold after_qr. rewrite posts_dispatched. unfold if_default.
  destruct (is_default (c_sessionId c)); cbn [effects emit set_g_qrCode
    set_heap WEBHOOK_CONFIG clock];
    rewrite posts_app; cbn [posts flat_map app]; rewrite app_nil_r;
    (split; [reflexivity|]); (split; [reflexivity|]);
    (constructor; [now split|constructor]).
Qed.

(** X8. One execution of the [connection.update] handler posts, in this
    order, a [qr] webhook when the update carries a QR code, then a
    [disconnected] webhook when it names close or a [connected] webhook
    when it names open; an update that names connecting, or no state,
    posts nothing for the state. Every such webhook carries the session id
    of the socket that emitted the event and goes to the configured URL. *)
Theorem connection_update_webhooks :
  forall loggedOut c u st,
    exists new,
      posts (effects (finish (onConnectionUpdate loggedOut c u) st))
      = posts (effects st) ++ new
      /\ map event_of new = events_for u
      /\ Forall (fun r => session_of r = JStr (c_sessionId c)
                          /\ rq_url r = url (WEBHOOK_CONFIG st)) new.
Proof.
  intros loggedOut c u st. rewrite finish_onConnectionUpdate.
  destruct (posts_qr_part c u st) as (new1 & H1 & E1 & F1).
  destruct (posts_state_part loggedOut c u (qr_part c u st)) as (new2 & H2 & E2 & F2).
  destruct (qr_part_frame c u st) as (_ & _ & _ & _ & Hw & _).
  exists (new1 ++ new2). rewrite H2, H1, <- app_assoc. split; [reflexivity|].
  split.
  - rewrite map_app, E1, E2. reflexivity.
  - apply Forall_app. split; [exact F1|]. now rewrite Hw in F2.
Qed.

(** *** Credential folders *)





(** *** The routes that send *)

Ltac wexec :=
  cbv beta iota delta
    [wbind wret wthrow wtry wjson lift call sendMessage gets modify bind ret
     console_error console_log].

Lemma message_id_world result w : snd (message_id result w) = w.
Proof.
  unfold message_id, wret, wthrow. destruct result; try reflexivity;
    destruct (opt_chain _ "key"); reflexivity.
Qed.

Lemma send_route_run b outcome w :
  post_api_messages_send b outcome w
  = let sessionId := default "default" (sb_sessionId b) in
    if negb (truthy (sb_to b)) || negb (truthy (sb_message b))
    then (Normal (mkResponse 400 (JObj [("error", JStr "to and message required")])), w)
    else match connected_socket sessionId (server w) with
         | None => (Normal (mkResponse 503 (JObj [("error", JStr "Session not connected")])), w)
         | Some socket =>
             if is_string (or_default (sb_type b) (JStr "text")) "text"
             then sent_answer outcome [("sessionId", JStr sessionId)]
                    ("Error sending message:", "Failed to send message")
                    (mkWorld (server w)
                       (calls w ++ [SendMessage socket (sb_to b)
                                      (JObj [("text", sb_message b)])]))
             else (Normal (mkResponse 400 (JObj [("error", JStr "Unsupported message type")])),
                   w)
         end.
Proof.
  unfold post_api_messages_send, connected_socket, sent_answer. cbv zeta.
  destruct (negb (truthy (sb_to b)) || negb (truthy (sb_message b))); [now destruct w|].
  wexec. cbn [server calls].
  destruct (addressed (default "default" (sb_sessionId b)) (server w)) as [[[socket|] status]|];
    try (now destruct w).
  destruct (String.eqb status "connected"); [|now destruct w].
  destruct (is_string (or_default (sb_type b) (JStr "text")) "text"); [|now destruct w].
  destruct outcome as [result|error]; [|reflexivity].
  pose proof (message_id_world result
                (mkWorld (server w)
                   (calls w ++ [SendMessage socket (sb_to b) (JObj [("text", sb_message b)])])))
    as Hw.
  destruct (message_id result _) as [[id|error] w1]; cbn [snd] in Hw; subst w1; reflexivity.
Qed.

Lemma sent_answer_cases outcome extra failure w :
  exists r es,
    sent_answer outcome extra failure w = (Normal r, mkWorld (logged es (server w)) (calls w))
    /\ (code r = 200 \/ code r = 500)
    /\ (forall error, outcome = SendRejects error ->
          r = mkResponse 500 (JObj [("error", JStr (snd failure))]))
    /\ (forall result props,
          outcome = Sent result -> opt_chain result "key" = JObj props ->
          r = mkResponse 200
                (JObj ([("success", JBool true); ("messageId", assoc "id" props)] ++ extra))).
Proof.
  unfold sent_answer. destruct outcome as [result|error].
  - destruct (message_id result w) as [[id|error] w1] eqn:E.
    + eexists _, []. rewrite logged_nil. split; [now destruct w|].
      split; [now left|]. split; [discriminate|].
      intros result0 props [= <-] Hkey. unfold message_id in E.
      destruct result; cbn in Hkey; try discriminate.
      cbn [opt_chain] in E. rewrite Hkey in E. now injection E as <- _.
    + eexists _, [_]. split; [reflexivity|]. split; [now right|].
      split; [discriminate|]. intros result0 props [= <-] Hkey. unfold message_id in E.
      destruct result; cbn in Hkey; try discriminate.
      cbn [opt_chain] in E. rewrite Hkey in E. discriminate.
  - eexists _, [_]. split; [reflexivity|]. split; [now right|]. split; [reflexivity|].
    discriminate.
Qed.

(** X10. The send route always answers and leaves registry, records,
    timers and globals alone. It answers 400 when to or message is missing
    or falsy, whatever the session; otherwise 503 when the addressed session
    (the default one when no id is sent) is unknown, has no socket or has a
    status other than connected; otherwise 400 when a type other than text
    is sent. Only past these checks is the message handed, exactly once, to
    the socket of the addressed session, as text content: the answer is 200
    with the id of the sent message when the socket returns a message with
    a key, and 500 when the socket rejects. *)
Theorem send_route_checks_then_sends :
  forall b outcome w,
    let sessionId := default "default" (sb_sessionId b) in
    let text := is_string (or_default (sb_type b) (JStr "text")) "text" in
    exists r w' es,
      post_api_messages_send b outcome w = (Normal r, w')
      /\ server w' = logged es (server w)
      /\ (truthy (sb_to b) && truthy (sb_message b) = false ->
          r = mkResponse 400 (JObj [("error", JStr "to and message required")])
          /\ calls w' = calls w)
      /\ (truthy (sb_to b) && truthy (sb_message b) = true ->
          connected_socket sessionId (server w) = None ->
          r = mkResponse 503 (JObj [("error", JStr "Session not connected")])
          /\ calls w' = calls w)
      /\ (forall socket,
            truthy (sb_to b) && truthy (sb_message b) = true ->
            connected_socket sessionId (server w) = Some socket ->
            if text
            then calls w' = calls w ++ [SendMessage socket (sb_to b)
                                          (JObj [("text", sb_message b)])]
                 /\ (code r = 200 \/ code r = 500)
                 /\ (forall error, outcome = SendRejects error ->
                       r = mkResponse 500 (JObj [("error", JStr "Failed to send message")]))
                 /\ (forall result props,
                       outcome = Sent result -> opt_chain result "key" = JObj props ->
                       r = mkResponse 200
                             (JObj [("success", JBool true);
                                    ("messageId", assoc "id" props);
                                    ("sessionId", JStr sessionId)]))
            else r = mkResponse 400 (JObj [("error", JStr "Unsupported message type")])
                 /\ calls w' = calls w).
Proof.
  intros b outcome w sessionId text. rewrite send_route_run. cbv zeta. fold sessionId.
  subst text.
  assert (Hm : negb (truthy (sb_to b)) || negb (truthy (sb_message b))
               = negb (truthy (sb_to b) && truthy (sb_message b)))
    by (now destruct (truthy (sb_to b)), (truthy (sb_message b))).
  rewrite Hm. destruct (truthy (sb_to b) && truthy (sb_message b)); cbn [negb].
  { destruct (connected_socket sessionId (server w)) as [socket|].
    - destruct (is_string (or_default (sb_type b) (JStr "text")) "text").
      + destruct (sent_answer_cases outcome [("sessionId", JStr sessionId)]
                    ("Error sending message:", "Failed to send message")
                    (mkWorld (server w)
                       (calls w ++ [SendMessage socket (sb_to b)
                                      (JObj [("text", sb_message b)])])))
          as (r & es & Hrun & Hcode & Hrej & Hok).
        exists r. eexists. exists es. split; [exact Hrun|]. split; [reflexivity|].
        split; [discriminate|]. split; [discriminate|].
        intros socket0 _ [= <-]. cbn [calls]. repeat split; assumption.
      + eexists _, w, []. split; [reflexivity|]. rewrite logged_nil.
        split; [reflexivity|]. split; [discriminate|]. split; [discriminate|].
        intros socket0 _ _. now split.
    - eexists _, w, []. split; [reflexivity|]. rewrite logged_nil.
      split; [reflexivity|]. split; [discriminate|]. split; [now split|]. discriminate. }
  eexists _, w, []. split; [reflexivity|]. rewrite logged_nil.
  split; [reflexivity|]. split; [now split|]. split; discriminate.
Qed.

Lemma send_route_checks_then_sends_witness :
  let st := finish (onConnectionUpdate 401 (mkClosure "s1" 0 "baileys_auth_s1")
                      (mkUpdate (Some "open") JUndefined None))
              (initialized "s1" booted) in
  let b := mkSendBody (Some "s1") (JStr "491700000000@s.whatsapp.net") (JStr "hello")
             JUndefined in
  exists r w',
    post_api_messages_send b (Sent (JObj [("key", JObj [("id", JStr "3EB0")])]))
      (mkWorld st []) = (Normal r, w')
    /\ calls w' = [SendMessage 0 (JStr "491700000000@s.whatsapp.net")
                     (JObj [("text", JStr "hello")])]
    /\ r = mkResponse 200 (JObj [("success", JBool true); ("messageId", JStr "3EB0");
                                 ("sessionId", JStr "s1")]).
Proof.
  intros st b.
  destruct (send_route_checks_then_sends b
              (Sent (JObj [("key", JObj [("id", JStr "3EB0")])])) (mkWorld st []))
    as (r & w' & es & Hrun & _ & _ & _ & Hsend).
  exists r, w'. split; [exact Hrun|].
  assert (Hk : connected_socket (default "default" (sb_sessionId b)) (server (mkWorld st []))
               = Some 0%nat) by (vm_compute; reflexivity).
  specialize (Hsend 0%nat eq_refl Hk). cbn in Hsend.
  destruct Hsend as (Hcalls & _ & _ & Hok). split; [exact Hcalls|].
  exact (Hok _ _ eq_refl eq_refl).
Defined.

Lemma record_owner st l r k :
  wellformed st ->
  heap st !! l = Some r ->
  s_sock r = Some k ->
  k = l /\ exists c, sockets st !! k = Some c /\ c_sessionId c = s_id r.
Proof.
  intros (Hlen & Hclo & _) Hr Hk.
  assert (Hlt : (l < length (sockets st))%nat).
  { rewrite <- Hlen. eapply lookup_lt_Some, Hr. }
  destruct (lookup_lt_is_Some_2 _ _ Hlt) as [c Hc].
  destruct (Hclo l c Hc) as (_ & _ & r' & Hr' & Hid & Hs).
  assert (r' = r) by congruence. subst r'.
  assert (k = l) by congruence. subst k. split; [reflexivity|].
  exists c. split; [exact Hc|]. now symmetry.
Qed.

(** X11. In every reachable state, the socket through which the send
    route would send for a session id is a socket that was made for that
    very id, and the socket that the legacy send routes would use is a
    socket of the default session: no route ever sends through the socket
    of another session. *)
Theorem routes_send_through_own_socket :
  forall loggedOut ls env_url env_secret now replies version st,
    run loggedOut ls (boot env_url env_secret now replies version) = Some st ->
    (forall sessionId socket,
       connected_socket sessionId st = Some socket ->
       exists c, sockets st !! socket = Some c /\ c_sessionId c = sessionId)
    /\ (forall socket,
          legacy_socket st = Some socket ->
          exists c, sockets st !! socket = Some c /\ c_sessionId c = "default").
Proof.
  intros loggedOut ls env_url env_secret now replies version st Hrun.
  pose proof (run_wellformed _ _ _ _ _ _ _ _ Hrun) as Hwf.
  assert (Hg : forall socket, g_sock st = Some socket ->
                 exists c, sockets st !! socket = Some c /\ c_sessionId c = "default").
  { destruct Hwf as (_ & _ & _ & Hg & _). exact Hg. }
  split.
  - intros sessionId socket. unfold connected_socket, addressed, get.
    destruct (sessions st !! sessionId) as [l|] eqn:Hl.
    + destruct Hwf as (Hlen & Hclo & Hreg & Hrest).
      destruct (Hreg sessionId l Hl) as (r & Hr & Hid). rewrite Hr.
      destruct (s_sock r) as [k|] eqn:Hk; [|discriminate].
      destruct (String.eqb (s_status r) "connected"); [|discriminate].
      intros [= <-].
      destruct (record_owner st l r k (conj Hlen (conj Hclo (conj Hreg Hrest))) Hr Hk)
        as (_ & c & Hc & Hcid).
      exists c. split; [exact Hc|]. congruence.
    + destruct (is_default sessionId) eqn:Hd; [|discriminate].
      destruct (g_sock st) as [k|] eqn:Hk; [|discriminate].
      destruct (String.eqb (g_connectionStatus st) "connected"); [|discriminate].
      intros [= <-]. destruct (Hg k eq_refl) as (c & Hc & Hcid).
      exists c. split; [exact Hc|]. apply String.eqb_eq in Hd. congruence.
  - intros socket. unfold legacy_socket. destruct (g_sock st) as [k|]; [|discriminate].
    destruct (String.eqb (g_connectionStatus st) "connected"); [|discriminate].
    intros [= <-]. now apply Hg.
Qed.

Lemma routes_send_through_own_socket_witness :
  exists st c,
    run 401 [Listen "8080"; Create (Some "s1");
             ConnectionUpdateEv 1 (mkUpdate (Some "open") JUndefined None)] booted = Some st
    /\ connected_socket "s1" st = Some 1%nat
    /\ sockets st !! 1%nat = Some c /\ c_sessionId c = "s1".
Proof.
  eexists.
  assert (Hrun : run 401 [Listen "8080"; Create (Some "s1");
                          ConnectionUpdateEv 1 (mkUpdate (Some "open") JUndefined None)]
                   booted = Some ?[st]) by (vm_compute; reflexivity).
  destruct (proj1 (routes_send_through_own_socket 401 _ None None 1730000000000
                     (fun _ => Replied 200) ([2; 3000; 1], true) _ Hrun) "s1" 1%nat)
    as (c & Hc & Hid); [vm_compute; reflexivity|].
  exists c. split; [exact Hrun|]. split; [vm_compute; reflexivity|]. now split.
Defined.

(** X12. The send route falls back to the legacy globals for the default
    id: when the default session is deleted while the globals still say
    connected, a send request without session id (or with id default) is
    still handed to the old global socket, although the registry no longer
    has the session. *)
Theorem deleted_default_still_sends :
  forall st l r socket b outcome made,
    sessions st !! "default" = Some l ->
    heap st !! l = Some r ->
    g_sock st = Some socket ->
    g_connectionStatus st = "connected" ->
    default "default" (sb_sessionId b) = "default" ->
    truthy (sb_to b) = true -> truthy (sb_message b) = true ->
    sb_type b = JUndefined ->
    let st1 := snd (delete_api_sessions "default" LogoutResolves st) in
    sessions st1 !! "default" = None
    /\ fst (get_api_sessions_status "default" st1)
       = Normal (mkResponse 404 (JObj [("error", JStr "Session not found")]))
    /\ calls (snd (post_api_messages_send b outcome (mkWorld st1 made)))
       = made ++ [SendMessage socket (sb_to b) (JObj [("text", sb_message b)])].
Proof.
  intros st l r socket b outcome made Hl Hr Hg Hc Hid Hto Hmsg Htype st1.
  assert (Hst1 : exists es, st1 = set_sessions (delete "default") (logged es st)).
  { unfold st1. rewrite delete_run, (get_present _ _ _ _ Hl Hr).
    destruct (s_sock r) as [k|]; [exists [SockLogout k]|exists []]; cbn [snd];
      [reflexivity|now rewrite logged_nil]. }
  destruct Hst1 as (es & Hst1).
  assert (Habs : sessions st1 !! "default" = None).
  { rewrite Hst1. apply lookup_delete_eq. }
  split; [exact Habs|]. split.
  - now rewrite status_route_run, (get_absent _ _ Habs).
  - rewrite send_route_run. cbv zeta. rewrite Hid, Hto, Hmsg, Htype. cbn [negb orb server].
    unfold connected_socket, addressed. rewrite (get_absent _ _ Habs). cbn [is_default].
    rewrite Hst1. cbn [g_sock g_connectionStatus set_sessions logged].
    rewrite Hg, Hc. cbn.
    destruct (sent_answer_cases outcome [("sessionId", JStr "default")]
                ("Error sending message:", "Failed to send message")
                (mkWorld (set_sessions (delete "default") (logged es st))
                   (made ++ [SendMessage socket (sb_to b) (JObj [("text", sb_message b)])])))
      as (r0 & es0 & Hrun & _).
    now rewrite Hrun.
Qed.

Lemma deleted_default_still_sends_witness :
  exists st,
    run 401 [Listen "8080";
             ConnectionUpdateEv 0 (mkUpdate (Some "open") JUndefined None)] booted = Some st
    /\ calls (snd (post_api_messages_send
                     (mkSendBody None (JStr "491700000000@s.whatsapp.net") (JStr "hello")
                        JUndefined)
                     (Sent JUndefined)
                     (mkWorld (snd (delete_api_sessions "default" LogoutResolves st)) [])))
       = [SendMessage 0 (JStr "491700000000@s.whatsapp.net") (JObj [("text", JStr "hello")])].
Proof.
  eexists. split; [vm_compute; reflexivity|].
  refine (proj2 (proj2 (deleted_default_still_sends _ 0%nat
                          (mkSession "default" (Some 0%nat) None "connected" 1730000000000)
                          0%nat
                          (mkSendBody None (JStr "491700000000@s.whatsapp.net")
                             (JStr "hello") JUndefined)
                          (Sent JUndefined) [] _ _ _ _ eq_refl eq_refl eq_refl eq_refl)));
    vm_compute; reflexivity.
Defined.

Lemma send_message_run jid message outcome w :
  post_send_message jid message outcome w
  = if negb (truthy jid) || negb (truthy message)
    then (Normal (mkResponse 400 (JObj [("error", JStr "JID and message required")])), w)
    else match legacy_socket (server w) with
         | None => (Normal (mkResponse 503 (JObj [("error", JStr "WhatsApp not connected")])), w)
         | Some socket =>
             sent_answer outcome [] ("Error sending message:", "Failed to send message")
               (mkWorld (server w)
                  (calls w ++ [SendMessage socket jid (JObj [("text", message)])]))
         end.
Proof.
  unfold post_send_message, sent_answer.
  destruct (negb (truthy jid) || negb (truthy message)); [now destruct w|].
  wexec. cbn [server calls].
  destruct (legacy_socket (server w)) as [socket|]; [|now destruct w].
  destruct outcome as [result|error]; [|reflexivity].
  pose proof (message_id_world result
                (mkWorld (server w)
                   (calls w ++ [SendMessage socket jid (JObj [("text", message)])]))) as Hw.
  destruct (message_id result _) as [[id|error] w1]; cbn [snd] in Hw; subst w1; reflexivity.
Qed.

Lemma send_media_run jid mediaUrl caption mediaType outcome w :
  post_send_media jid mediaUrl caption mediaType outcome w
  = if negb (truthy jid) || negb (truthy mediaUrl)
    then (Normal (mkResponse 400 (JObj [("error", JStr "JID and mediaUrl required")])), w)
    else match legacy_socket (server w) with
         | None => (Normal (mkResponse 503 (JObj [("error", JStr "WhatsApp not connected")])), w)
         | Some socket =>
             match media_key (or_default mediaType (JStr "image")) with
             | None => (Normal (mkResponse 400 (JObj [("error", JStr "Invalid media type")])), w)
             | Some key =>
                 sent_answer outcome [] ("Error sending media:", "Failed to send media")
                   (mkWorld (server w)
                      (calls w ++ [SendMessage socket jid
                                     (JObj [("caption", caption);
                                            (key, JObj [("url", mediaUrl)])])]))
             end
         end.
Proof.
  unfold post_send_media, sent_answer. cbv zeta.
  destruct (negb (truthy jid) || negb (truthy mediaUrl)); [now destruct w|].
  wexec. cbn [server calls].
  destruct (legacy_socket (server w)) as [socket|]; [|now destruct w].
  destruct (media_key (or_default mediaType (JStr "image"))) as [key|]; [|now destruct w].
  destruct outcome as [result|error]; [|reflexivity].
  pose proof (message_id_world result
                (mkWorld (server w)
                   (calls w ++ [SendMessage socket jid
                                  (JObj [("caption", caption);
                                         (key, JObj [("url", mediaUrl)])])]))) as Hw.
  destruct (message_id result _) as [[id|error] w1]; cbn [snd] in Hw; subst w1; reflexivity.
Qed.

Lemma media_key_cases kind key :
  media_key kind = Some key ->
  kind = JStr key /\ (key = "image" \/ key = "video" \/ key = "audio").
Proof.
  unfold media_key, is_string. destruct kind as [| | | |t| |]; try discriminate.
  destruct (String.eqb_spec t "image") as [->|_]; [intros [= <-]; auto|].
  destruct (String.eqb_spec t "video") as [->|_]; [intros [= <-]; auto|].
  destruct (String.eqb_spec t "audio") as [->|_]; [intros [= <-]; auto|discriminate].
Qed.

(** X13. The two legacy send routes always answer and change nothing in
    the server but its log. Each answers 400 when the JID or the message
    (the media URL) is missing, then 503 unless the global socket exists
    and the global status is connected; the media route then answers 400
    for a media type other than image, video and audio (image when none is
    sent). Only past these checks is one message handed to the global
    socket: text content for the message route, and for the media route the
    caption with the URL under the key named by the media type. *)
Theorem legacy_send_routes :
  (forall jid message outcome w,
     exists r w' es,
       post_send_message jid message outcome w = (Normal r, w')
       /\ server w' = logged es (server w)
       /\ (truthy jid && truthy message = false ->
           r = mkResponse 400 (JObj [("error", JStr "JID and message required")])
           /\ calls w' = calls w)
       /\ (truthy jid && truthy message = true -> legacy_socket (server w) = None ->
           r = mkResponse 503 (JObj [("error", JStr "WhatsApp not connected")])
           /\ calls w' = calls w)
       /\ (forall socket,
             truthy jid && truthy message = true ->
             legacy_socket (server w) = Some socket ->
             calls w' = calls w ++ [SendMessage socket jid (JObj [("text", message)])]
             /\ (code r = 200 \/ code r = 500)))
  /\ (forall jid mediaUrl caption mediaType outcome w,
        let kind := or_default mediaType (JStr "image") in
        exists r w' es,
          post_send_media jid mediaUrl caption mediaType outcome w = (Normal r, w')
          /\ server w' = logged es (server w)
          /\ (truthy jid && truthy mediaUrl = false ->
              r = mkResponse 400 (JObj [("error", JStr "JID and mediaUrl required")])
              /\ calls w' = calls w)
          /\ (truthy jid && truthy mediaUrl = true -> legacy_socket (server w) = None ->
              r = mkResponse 503 (JObj [("error", JStr "WhatsApp not connected")])
              /\ calls w' = calls w)
          /\ (forall socket,
                truthy jid && truthy mediaUrl = true ->
                legacy_socket (server w) = Some socket ->
                (kind <> JStr "image" -> kind <> JStr "video" -> kind <> JStr "audio" ->
                   r = mkResponse 400 (JObj [("error", JStr "Invalid media type")])
                   /\ calls w' = calls w)
                /\ (forall key,
                      kind = JStr key ->
                      key = "image" \/ key = "video" \/ key = "audio" ->
                      calls w'
                      = calls w ++ [SendMessage socket jid
                                      (JObj [("caption", caption);
                                             (key, JObj [("url", mediaUrl)])])]
                      /\ (code r = 200 \/ code r = 500)))).
Proof.
  split.
  - intros jid message outcome w. rewrite send_message_run.
    assert (Hm : negb (truthy jid) || negb (truthy message)
                 = negb (truthy jid && truthy message))
      by (now destruct (truthy jid), (truthy message)).
    rewrite Hm. destruct (truthy jid && truthy message); cbn [negb].
    + destruct (legacy_socket (server w)) as [socket|].
      * destruct (sent_answer_cases outcome []
                    ("Error sending message:", "Failed to send message")
                    (mkWorld (server w)
                       (calls w ++ [SendMessage socket jid (JObj [("text", message)])])))
          as (r & es & Hrun & Hcode & _).
        exists r. eexists. exists es. split; [exact Hrun|]. split; [reflexivity|].
        split; [discriminate|]. split; [discriminate|].
        intros socket0 _ [= <-]. now split.
      * eexists _, w, []. rewrite logged_nil. split; [reflexivity|].
        split; [reflexivity|]. split; [discriminate|]. split; [now split|discriminate].
    + eexists _, w, []. rewrite logged_nil. split; [reflexivity|].
      split; [reflexivity|]. split; [now split|]. split; discriminate.
  - intros jid mediaUrl caption mediaType outcome w kind. rewrite send_media_run.
    fold kind.
    assert (Hm : negb (truthy jid) || negb (truthy mediaUrl)
                 = negb (truthy jid && truthy mediaUrl))
      by (now destruct (truthy jid), (truthy mediaUrl)).
    rewrite Hm. destruct (truthy jid && truthy mediaUrl); cbn [negb].
    + destruct (legacy_socket (server w)) as [socket|].
      * destruct (media_key kind) as [key|] eqn:Hkey.
        -- destruct (media_key_cases _ _ Hkey) as [Hkind Hkeys].
           destruct (sent_answer_cases outcome []
                       ("Error sending media:", "Failed to send media")
                       (mkWorld (server w)
                          (calls w ++ [SendMessage socket jid
                                         (JObj [("caption", caption);
                                                (key, JObj [("url", mediaUrl)])])])))
             as (r & es & Hrun & Hcode & _).
           exists r. eexists. exists es. split; [exact Hrun|]. split; [reflexivity|].
           split; [discriminate|]. split; [discriminate|].
           intros socket0 _ [= <-]. split.
           ++ intros H1 H2 H3. exfalso. destruct Hkeys as [-> | [-> | ->]]; contradiction.
           ++ intros key0 Hk0 _. rewrite Hkind in Hk0. injection Hk0 as <-. now split.
        -- eexists _, w, []. rewrite logged_nil. split; [reflexivity|].
           split; [reflexivity|]. split; [discriminate|]. split; [discriminate|].
           intros socket0 _ _. split; [now split|].
           intros key Hk Hkeys. exfalso. rewrite Hk in Hkey.
           destruct Hkeys as [-> | [-> | ->]]; discriminate Hkey.
      * eexists _, w, []. rewrite logged_nil. split; [reflexivity|].
        split; [reflexivity|]. split; [discriminate|]. split; [now split|discriminate].
    + eexists _, w, []. rewrite logged_nil. split; [reflexivity|].
      split; [reflexivity|]. split; [now split|]. split; discriminate.
Qed.

Lemma legacy_send_routes_witness :
  let st := finish (onConnectionUpdate 401 (mkClosure "default" 0 "baileys_auth_info")
                      (mkUpdate (Some "open") JUndefined None))
              (initialized "default" booted) in
  code_of (post_send_media (JStr "491700000000@s.whatsapp.net")
             (JStr "https://example.org/a.png") JUndefined (JStr "document")
             (Sent JUndefined) (mkWorld st [])) = Some 400
  /\ code_of (post_send_message (JStr "491700000000@s.whatsapp.net") (JStr "hello")
                (Sent JUndefined) (mkWorld booted [])) = Some 503.
Proof.
  intros st. split.
  - destruct (proj2 legacy_send_routes (JStr "491700000000@s.whatsapp.net")
                (JStr "https://example.org/a.png") JUndefined (JStr "document")
                (Sent JUndefined) (mkWorld st []))
      as (r & w' & es & Hrun & _ & _ & _ & Hsock).
    assert (Hk : legacy_socket (server (mkWorld st [])) = Some 0%nat)
      by (vm_compute; reflexivity).
    destruct (Hsock 0%nat eq_refl Hk) as [Hinvalid _].
    destruct Hinvalid as [Hr _]; try discriminate.
    unfold code_of. now rewrite Hrun, Hr.
  - destruct (proj1 legacy_send_routes (JStr "491700000000@s.whatsapp.net") (JStr "hello")
                (Sent JUndefined) (mkWorld booted []))
      as (r & w' & es & Hrun & _ & _ & H503 & _).
    destruct (H503 eq_refl eq_refl) as [Hr _].
    unfold code_of. now rewrite Hrun, Hr.
Defined.

(** *** Pairing code and shutdown *)

(** X14. The pairing-code route always answers: 400 without a phone
    number; otherwise 503 while no global socket exists; otherwise 400 when
    the credentials are already registered. Past these checks it asks the
    global socket for a pairing code exactly once, whatever the global
    connection status is, and answers 200 with the code, or 500 when the
    socket rejects. *)
Theorem pairing_code_checks :
  forall phoneNumber registered outcome w,
    exists r w' es,
      post_pairing_code phoneNumber registered outcome w = (Normal r, w')
      /\ server w' = logged es (server w)
      /\ (truthy phoneNumber = false ->
          r = mkResponse 400 (JObj [("error", JStr "Phone number required")])
          /\ calls w' = calls w)
      /\ (truthy phoneNumber = true -> g_sock (server w) = None ->
          r = mkResponse 503 (JObj [("error", JStr "WhatsApp not initialized")])
          /\ calls w' = calls w)
      /\ (forall socket,
            truthy phoneNumber = true -> g_sock (server w) = Some socket ->
            if truthy registered
            then r = mkResponse 400 (JObj [("error", JStr "Already registered")])
                 /\ calls w' = calls w
            else calls w' = calls w ++ [RequestPairingCode socket phoneNumber]
                 /\ match outcome with
                    | CodeIssued pairing => r = mkResponse 200 (JObj [("code", pairing)])
                    | PairingRejects error =>
                        r = mkResponse 500
                              (JObj [("error", JStr "Failed to request pairing code")])
                        /\ es = [ConsoleError [JStr "Error requesting pairing code:"; error]]
                    end).
Proof.
  intros phoneNumber registered outcome w. unfold post_pairing_code.
  destruct (truthy phoneNumber); cbn [negb].
  - wexec. cbn [server calls]. destruct (g_sock (server w)) as [socket|].
    + destruct (truthy registered).
      * eexists _, _, []. split; [reflexivity|]. cbn [server]. rewrite logged_nil.
        split; [reflexivity|]. split; [discriminate|]. split; [discriminate|].
        intros socket0 _ _. now split.
      * destruct outcome as [pairing|error].
        -- eexists _, _, []. split; [reflexivity|]. cbn [server]. rewrite logged_nil.
           split; [reflexivity|]. split; [discriminate|]. split; [discriminate|].
           intros socket0 _ [= <-]. now split.
        -- eexists _, _, [_]. split; [reflexivity|]. cbn [server].
           split; [reflexivity|]. split; [discriminate|]. split; [discriminate|].
           intros socket0 _ [= <-]. now repeat split.
    + eexists _, _, []. split; [reflexivity|]. cbn [server]. rewrite logged_nil.
      split; [reflexivity|]. split; [discriminate|]. split; [now split|discriminate].
  - eexists _, w, []. split; [reflexivity|]. rewrite logged_nil.
    split; [reflexivity|]. split; [now split|]. split; discriminate.
Qed.

Lemma pairing_code_checks_witness :
  exists r w',
    post_pairing_code (JStr "491700000000") (JBool false) (CodeIssued (JStr "ABCD-1234"))
      (mkWorld (initialized "default" booted) []) = (Normal r, w')
    /\ r = mkResponse 200 (JObj [("code", JStr "ABCD-1234")])
    /\ calls w' = [RequestPairingCode 0 (JStr "491700000000")].
Proof.
  destruct (pairing_code_checks (JStr "491700000000") (JBool false)
              (CodeIssued (JStr "ABCD-1234")) (mkWorld (initialized "default" booted) []))
    as (r & w' & es & Hrun & _ & _ & _ & Hsock).
  exists r, w'. split; [exact Hrun|].
  destruct (Hsock 0%nat eq_refl eq_refl) as [Hcalls Hr]. now split.
Defined.

Lemma SIGTERM_run w :
  on_SIGTERM w
  = (Normal tt,
     mkWorld
       (logged (ConsoleLog [JStr "SIGTERM received, closing connections..."]
                :: match g_sock (server w) with
                   | Some s => [SockLogout s]
                   | None => []
                   end)
          (server w))
       (calls w ++ [ProcessExit 0])).
Proof.
  unfold on_SIGTERM. wexec. cbn [server calls g_sock emit].
  destruct (g_sock (server w)) as [s|]; wexec; cbn [server calls]; unfold logged, emit; cbn;
    now rewrite <- ?app_assoc.
Qed.

(** X15. On SIGTERM, in every reachable state, the server asks at most
    one socket to log out, the global one, which is a socket of the default
    session; the sockets of the sessions created through the API are not
    asked to log out or to close, the registry is left as it is, and the
    process exits with status 0 without waiting for the logout. *)
Theorem SIGTERM_logs_out_default_only :
  forall loggedOut ls env_url env_secret now replies version st made,
    run loggedOut ls (boot env_url env_secret now replies version) = Some st ->
    exists w' asked,
      on_SIGTERM (mkWorld st made) = (Normal tt, w')
      /\ calls w' = made ++ [ProcessExit 0]
      /\ sessions (server w') = sessions st
      /\ effects (server w')
         = effects st ++ ConsoleLog [JStr "SIGTERM received, closing connections..."]
                         :: map SockLogout asked
      /\ (length asked <= 1)%nat
      /\ forall s, In s asked ->
           g_sock st = Some s
           /\ exists c, sockets st !! s = Some c /\ c_sessionId c = "default".
Proof.
  intros loggedOut ls env_url env_secret now replies version st made Hrun.
  pose proof (run_wellformed _ _ _ _ _ _ _ _ Hrun) as (_ & _ & _ & Hg & _).
  rewrite SIGTERM_run. cbn [server calls].
  exists (mkWorld (logged (ConsoleLog [JStr "SIGTERM received, closing connections..."]
                           :: match g_sock st with Some s => [SockLogout s] | None => [] end)
                     st) (made ++ [ProcessExit 0])),
         (match g_sock st with Some s => [s] | None => [] end).
  split; [reflexivity|]. split; [reflexivity|]. split; [reflexivity|]. split.
  - cbn. now destruct (g_sock st).
  - destruct (g_sock st) as [s|] eqn:Hs; cbn.
    + split; [lia|]. intros s0 [<-|[]]. split; [reflexivity|]. now apply Hg.
    + split; [lia|]. intros s0 [].
Qed.

Lemma SIGTERM_logs_out_default_only_witness :
  exists st w',
    run 401 [Listen "8080"; Create (Some "s1"); Create (Some "s2")] booted = Some st
    /\ on_SIGTERM (mkWorld st []) = (Normal tt, w')
    /\ calls w' = [ProcessExit 0].
Proof.
  eexists.
  assert (Hrun : run 401 [Listen "8080"; Create (Some "s1"); Create (Some "s2")] booted
                 = Some ?[st]) by (vm_compute; reflexivity).
  destruct (SIGTERM_logs_out_default_only 401 _ None None 1730000000000
              (fun _ => Replied 200) ([2; 3000; 1], true) _ [] Hrun)
    as (w' & asked & Hterm & Hcalls & _).
  exists w'. split; [exact Hrun|]. now split.
Defined.

(** *** The shape of a step *)

Lemma step_shape loggedOut l st st' :
  step loggedOut l st = Some st' ->
  (exists s c u, l = ConnectionUpdateEv s u /\ sockets st !! s = Some c
                 /\ st' = finish (onConnectionUpdate loggedOut c u) st)
  \/ ((forall s u, l <> ConnectionUpdateEv s u) /\ routine st st').
Proof.
  intros Hstep.
  assert (Hemit : forall s s1 e, routine s s1 -> routine s (emit e s1))
    by (intros s s1 e Hs; apply (routine_logged s s1 [e] Hs)).
  destruct l; cbn [step] in Hstep;
    try (right; split; [discriminate|]).
  - injection Hstep as <-. rewrite finish_listen.
    apply routine_initialized, Hemit, routine_done.
  - destruct (0 <=? ms); [|discriminate]. injection Hstep as <-.
    apply routine_clock, routine_done.
  - destruct (timers st !! i) as [t|]; [|discriminate].
    destruct (t_due t <=? clock st); [|discriminate]. injection Hstep as <-.
    rewrite finish_reconnect. apply routine_initialized, routine_timers, routine_done.
  - left. unfold on_socket in Hstep. destruct (sockets st !! s) as [c|] eqn:Hc; [|discriminate].
    injection Hstep as <-. now exists s, c, u.
  - unfold on_socket in Hstep. destruct (sockets st !! s) as [c|]; [|discriminate].
    injection Hstep as <-. apply Hemit, routine_done.
  - unfold on_socket in Hstep. destruct (sockets st !! s) as [c|]; [|discriminate].
    injection Hstep as <-.
    destruct (silent_finish _ st (onMessagesUpsert_silent c messages)) as (es & ->).
    apply routine_logged, routine_done.
  - unfold on_socket in Hstep. destruct (sockets st !! s) as [c|]; [|discriminate].
    injection Hstep as <-.
    destruct (silent_finish _ st (onMessagesUpdate_silent c updates)) as (es & ->).
    apply routine_logged, routine_done.
  - injection Hstep as <-. destruct (respond_snd (post_api_sessions_create requested) st)
      as (e & ->). rewrite create_run. destruct (has _ st); cbn [snd]; apply Hemit.
    + apply routine_done.
    + apply routine_initialized, routine_done.
  - injection Hstep as <-.
    destruct (silent_respond _ st (qr_route_silent sessionId)) as (es & ->).
    apply routine_logged, routine_done.
  - injection Hstep as <-.
    destruct (silent_respond _ st (status_route_silent sessionId)) as (es & ->).
    apply routine_logged, routine_done.
  - injection Hstep as <-.
    destruct (respond_snd (delete_api_sessions sessionId outcome) st) as (e & ->).
    rewrite delete_run. destruct (get sessionId st) as [s0|]; [|apply Hemit, routine_done].
    destruct (s_sock s0) as [k|]; [destruct outcome|]; cbn [snd]; apply Hemit;
      repeat first [apply routine_delete | apply Hemit | apply routine_done].
  - injection Hstep as <-.
    destruct (respond_snd (post_api_webhook_register new_url new_secret) st) as (e & ->).
    destruct (register_run new_url new_secret st) as (cfg & ->).
    apply Hemit, routine_config, routine_done.
  - injection Hstep as <-.
    destruct (silent_respond _ st (proj1 legacy_routes_silent)) as (es & ->).
    apply routine_logged, routine_done.
  - injection Hstep as <-.
    destruct (silent_respond _ st (proj1 (proj2 legacy_routes_silent))) as (es & ->).
    apply routine_logged, routine_done.
  - injection Hstep as <-.
    destruct (silent_respond _ st (proj2 (proj2 legacy_routes_silent))) as (es & ->).
    apply routine_logged, routine_done.
Qed.

Lemma initialized_globals sessionId st : globals_of (initialized sessionId st) = globals_of st.
Proof. unfold initialized, if_default, globals_of. now destruct (is_default sessionId). Qed.

Lemma routine_globals st st' : routine st st' -> globals_of st' = globals_of st.
Proof.
  induction 1 as [st| | | | | st st1 sessionId _ IH |]; try assumption; [reflexivity|].
  now rewrite initialized_globals.
Qed.

(** Records are only appended by routine steps. *)
Lemma routine_heap st st' : routine st st' -> exists more, heap st' = heap st ++ more.
Proof.
  induction 1 as [st| | | | | st st1 sessionId _ [more IH] |].
  1: exists []; now rewrite app_nil_r.
  1-4, 6: assumption.
  rewrite initialized_heap, IH, <- app_assoc. eauto.
Qed.

(** *** The legacy globals and the single-session server *)

Lemma legacy_handler_globals loggedOut u ls :
  (Legacy.qrCode (Legacy.onConnectionUpdate loggedOut u ls),
   Legacy.connectionStatus (Legacy.onConnectionUpdate loggedOut u ls))
  = assigned (qr_given u) (connection u) (Legacy.qrCode ls, Legacy.connectionStatus ls).
Proof.
  unfold Legacy.onConnectionUpdate, assigned, Legacy.on_close, Legacy.on_open,
    Legacy.on_connecting, Legacy.on_qr, Legacy.initializeWhatsApp, Legacy.print.
  destruct (qr_given u) as [q|], (connection u) as [s|];
    try destruct (String.eqb s "close");
    try destruct (String.eqb s "open");
    try destruct (String.eqb s "connecting");
    try destruct (shouldReconnect loggedOut (lastDisconnect u)); reflexivity.
Qed.

Lemma run_tracks_legacy loggedOut ls :
  forall st st' legacy,
    globals_of st = (Legacy.qrCode legacy, Legacy.connectionStatus legacy) ->
    run loggedOut ls st = Some st' ->
    globals_of st'
    = (Legacy.qrCode (Legacy.run loggedOut (default_updates loggedOut ls st) legacy),
       Legacy.connectionStatus
         (Legacy.run loggedOut (default_updates loggedOut ls st) legacy)).
Proof.
  induction ls as [|l rest IH]; intros st st' legacy Hg Hrun; cbn [run] in Hrun.
  - injection Hrun as <-. exact Hg.
  - destruct (step loggedOut l st) as [st1|] eqn:Hstep; [|discriminate].
    cbn [default_updates]. rewrite Hstep. unfold Legacy.run. rewrite fold_left_app.
    apply (IH st1 st' _); [|exact Hrun].
    destruct (step_shape _ _ _ _ Hstep) as [(s & c & u & -> & Hc & ->)|[Hl Hr]].
    + rewrite Hc. rewrite finish_onConnectionUpdate.
      destruct (handler_frame loggedOut c u st) as (_ & _ & _ & _ & _ & Hglob).
      unfold globals_of. rewrite Hglob. destruct (is_default (c_sessionId c)); cbn [fold_left].
      * rewrite legacy_handler_globals. unfold globals_of in Hg. now rewrite Hg.
      * exact Hg.
    + rewrite (routine_globals _ _ Hr).
      destruct l; try exact Hg. exfalso. now apply (Hl s u).
Qed.

(** X16. The legacy globals of the multi-session server are the state of
    the single-session server: along every run from the start, the global
    qrCode and connectionStatus equal the variables of the single-session
    server of [server.ts] after it has handled the [connection.update]
    events of the default session's sockets, in the same order, so the
    legacy [/status] and [/qr] routes of both servers give the same
    answers. Events of other sessions, requests and timers leave them
    alone. *)
Theorem globals_track_single_session_server :
  forall loggedOut ls port env_url env_secret now replies version st,
    run loggedOut ls (boot env_url env_secret now replies version) = Some st ->
    let legacy :=
      Legacy.run loggedOut
        (default_updates loggedOut ls (boot env_url env_secret now replies version))
        (Legacy.boot port version) in
    g_qrCode st = Legacy.qrCode legacy
    /\ g_connectionStatus st = Legacy.connectionStatus legacy
    /\ fst (get_status st) = Normal (Legacy.get_status legacy)
    /\ fst (get_qr st) = Normal (Legacy.get_qr legacy)
    /\ fst (get_health st) = Normal (Legacy.get_health (clock st) legacy).
Proof.
  intros loggedOut ls port env_url env_secret now replies version st Hrun legacy.
  assert (H0 : globals_of (boot env_url env_secret now replies version)
               = (Legacy.qrCode (Legacy.boot port version),
                  Legacy.connectionStatus (Legacy.boot port version))) by reflexivity.
  pose proof (run_tracks_legacy loggedOut ls _ st (Legacy.boot port version) H0 Hrun) as Hg.
  fold legacy in Hg. unfold globals_of in Hg. injection Hg as Hq Hs.
  split; [exact Hq|]. split; [exact Hs|].
  unfold get_status, get_qr, get_health, Legacy.get_status, Legacy.get_qr, Legacy.get_health.
  exec. rewrite <- Hq, <- Hs. repeat split. now destruct (no_qr (g_qrCode st)).
Qed.

Lemma globals_track_single_session_server_witness :
  exists st,
    run 401 [Listen "8080"; Create (Some "s1");
             ConnectionUpdateEv 0 (mkUpdate None JUndefined (Some "2@ABC"));
             ConnectionUpdateEv 1 (mkUpdate (Some "open") JUndefined None)] booted = Some st
    /\ g_qrCode st
       = Legacy.qrCode
           (Legacy.run 401 [mkUpdate None JUndefined (Some "2@ABC")]
              (Legacy.boot "8080" ([2; 3000; 1], true))).
Proof.
  eexists.
  assert (Hrun : run 401 [Listen "8080"; Create (Some "s1");
                          ConnectionUpdateEv 0 (mkUpdate None JUndefined (Some "2@ABC"));
                          ConnectionUpdateEv 1 (mkUpdate (Some "open") JUndefined None)]
                   booted = Some ?[st]) by (vm_compute; reflexivity).
  split; [exact Hrun|].
  destruct (globals_track_single_session_server 401 _ "8080" None None 1730000000000
              (fun _ => Replied 200) ([2; 3000; 1], true) _ Hrun) as (Hq & _).
  rewrite Hq. vm_compute. reflexivity.
Defined.

Lemma legacy_made loggedOut updates :
  forall ls,
    Legacy.sock ls = Some (pred (Legacy.made ls)) ->
    (0 < Legacy.made ls)%nat ->
    let ls' := Legacy.run loggedOut updates ls in
    Legacy.made ls' = (Legacy.made ls + length (List.filter (ordinary_close loggedOut) updates))%nat
    /\ Legacy.sock ls' = Some (pred (Legacy.made ls')).
Proof.
  induction updates as [|u rest IH]; intros ls Hs Hm; cbn [Legacy.run fold_left List.filter].
  - cbn. split; [lia|exact Hs].
  - assert (Hone : let l1 := Legacy.onConnectionUpdate loggedOut u ls in
                   Legacy.made l1
                   = (Legacy.made ls + if ordinary_close loggedOut u then 1 else 0)%nat
                   /\ Legacy.sock l1 = Some (pred (Legacy.made l1))).
    { unfold Legacy.onConnectionUpdate, ordinary_close, Legacy.on_close, Legacy.on_open,
        Legacy.on_connecting, Legacy.on_qr, Legacy.initializeWhatsApp, Legacy.print.
      destruct (qr_given u) as [q|], (connection u) as [s|];
        try destruct (String.eqb s "close");
        try destruct (String.eqb s "open");
        try destruct (String.eqb s "connecting");
        try destruct (shouldReconnect loggedOut (lastDisconnect u));
        cbn; (split; [lia|]); try exact Hs; reflexivity. }
    destruct Hone as [Hmade Hsock].
    destruct (IH (Legacy.onConnectionUpdate loggedOut u ls) Hsock) as [H1 H2]; [lia|].
    unfold Legacy.run in H1, H2. split; [|exact H2]. rewrite H1, Hmade.
    destruct (ordinary_close loggedOut u); cbn; lia.
Qed.

(** X17. The single-session server reconnects at once and without limit:
    after any sequence of [connection.update] events it has made one
    socket at the start and one more for every close with a reason other
    than logged-out, no other event makes a socket, and the global sock is
    always the socket made last. *)
Theorem legacy_reconnects_on_every_ordinary_close :
  forall loggedOut port version updates,
    let ls := Legacy.run loggedOut updates (Legacy.boot port version) in
    Legacy.made ls = S (length (List.filter (ordinary_close loggedOut) updates))
    /\ Legacy.sock ls = Some (length (List.filter (ordinary_close loggedOut) updates)).
Proof.
  intros loggedOut port version updates ls.
  destruct (legacy_made loggedOut updates (Legacy.boot port version) eq_refl) as [H1 H2];
    [cbn; lia|].
  fold ls in H1, H2. cbn in H1. split; [exact H1|]. now rewrite H2, H1.
Qed.

(** *** Who writes a record *)

(** X18. In every reachable state a record has a single writer: a step
    changes a record only when it is a [connection.update] event of the
    socket that was made together with that record. Requests, timers,
    other events and the events of all other sockets leave every existing
    record exactly as it is (they can only add records). *)
Theorem record_has_single_writer :
  forall loggedOut ls env_url env_secret now replies version st l st' k r,
    run loggedOut ls (boot env_url env_secret now replies version) = Some st ->
    step loggedOut l st = Some st' ->
    heap st !! k = Some r ->
    (forall u, l <> ConnectionUpdateEv k u) ->
    heap st' !! k = Some r.
Proof.
  intros loggedOut ls env_url env_secret now replies version st l st' k r Hrun Hstep Hr Hl.
  pose proof (run_wellformed _ _ _ _ _ _ _ _ Hrun) as (_ & Hclo & _).
  destruct (step_shape _ _ _ _ Hstep) as [(s & c & u & -> & Hc & ->)|[_ Hroutine]].
  - destruct (Hclo s c Hc) as (Hcs & _).
    rewrite finish_onConnectionUpdate, handler_heap, list_lookup_alter_ne; [exact Hr|].
    rewrite Hcs. intros ->. now apply (Hl u).
  - destruct (routine_heap _ _ Hroutine) as (more & ->). now apply lookup_app_l_Some.
Qed.

Lemma record_has_single_writer_witness :
  exists st st',
    run 401 [Create (Some "a"); Create (Some "b")] booted = Some st
    /\ step 401 (ConnectionUpdateEv 1 (mkUpdate (Some "open") JUndefined None)) st = Some st'
    /\ heap st' !! 0%nat = Some (mkSession "a" (Some 0%nat) None "connecting" 1730000000000).
Proof.
  destruct (run 401 [Create (Some "a"); Create (Some "b")] booted) as [st|] eqn:Hrun;
    [|vm_compute in Hrun; discriminate].
  destruct (step 401 (ConnectionUpdateEv 1 (mkUpdate (Some "open") JUndefined None)) st)
    as [st'|] eqn:Hstep.
  2: { vm_compute in Hrun. injection Hrun as <-. vm_compute in Hstep. discriminate. }
  exists st, st'. split; [reflexivity|]. split; [exact Hstep|].
  apply (record_has_single_writer 401 _ None None 1730000000000 (fun _ => Replied 200)
           ([2; 3000; 1], true) _ _ _ 0%nat _ Hrun Hstep); [|discriminate].
  clear Hstep. vm_compute in Hrun. injection Hrun as <-. reflexivity.
Defined.

(** *** Retrying without limit *)

Lemma run_app loggedOut ls1 ls2 st :
  run loggedOut (ls1 ++ ls2) st
  = match run loggedOut ls1 st with
    | Some st1 => run loggedOut ls2 st1
    | None => None
    end.
Proof.
  revert st. induction ls1 as [|l rest IH]; intros st; [reflexivity|].
  cbn [run app]. destruct (step loggedOut l st); [apply IH|reflexivity].
Qed.

Lemma run_cons loggedOut l ls st :
  run loggedOut (l :: ls) st
  = match step loggedOut l st with
    | Some st1 => run loggedOut ls st1
    | None => None
    end.
Proof. reflexivity. Qed.

Lemma ordinary_close_spec loggedOut u :
  ordinary_close loggedOut u = true ->
  connection u = Some "close" /\ shouldReconnect loggedOut (lastDisconnect u) = true.
Proof.
  unfold ordinary_close. destruct (connection u) as [s|]; [|discriminate].
  intros H. apply andb_prop in H as [Hs Hr]. apply String.eqb_eq in Hs. now subst.
Qed.

Lemma retry_cycle loggedOut st k c u :
  timers st = [] ->
  sockets st !! k = Some c ->
  ordinary_close loggedOut u = true ->
  exists st3,
    run loggedOut [ConnectionUpdateEv k u; Tick 3000; TimerFires 0] st = Some st3
    /\ timers st3 = []
    /\ sockets st3
       = sockets st ++ [mkClosure (c_sessionId c) (length (heap st))
                          (authFolderOf (c_sessionId c))]
    /\ get (c_sessionId c) st3
       = Some (mkSession (c_sessionId c) (Some (length (sockets st))) None "connecting"
                 (clock st + 3000))
    /\ clock st3 = clock st + 3000.
Proof.
  intros Ht Hc Hu. destruct (ordinary_close_spec _ _ Hu) as [Hclose Hre].
  rewrite run_cons. cbn [step]. unfold on_socket. rewrite Hc.
  rewrite finish_onConnectionUpdate, (state_part_close _ _ _ _ Hclose).
  unfold after_close. rewrite Hre.
  destruct (qr_part_frame c u st) as (_ & Hqt & Hqk & Hqc & _ & _ & _ & Hlen).
  destruct (closing_frame loggedOut c (lastDisconnect u) (qr_part c u st))
    as (_ & Hct & Hck & Hcc & Hch).
  set (mid := closing loggedOut c (lastDisconnect u) (qr_part c u st)) in *.
  set (st1 := emit (SetTimeout (c_sessionId c) 3000)
                (set_timers (fun l => l ++ [mkTimer (clock mid + 3000) (c_sessionId c)]) mid)).
  assert (Htimers : timers st1 = [mkTimer (clock st + 3000) (c_sessionId c)]).
  { unfold st1. cbn [timers emit set_timers]. now rewrite Hct, Hqt, Ht, Hcc, Hqc. }
  assert (Hclock : clock st1 = clock st).
  { unfold st1. cbn [clock emit set_timers]. now rewrite Hcc, Hqc. }
  assert (Hlook : timers st1 !! 0%nat = Some (mkTimer (clock st + 3000) (c_sessionId c)))
    by now rewrite Htimers.
  rewrite (timer_fires loggedOut st1 0 _ 3000 Hlook); [|lia|rewrite Hclock; cbn; lia].
  eexists. split; [reflexivity|]. cbn [t_sessionId].
  split; [|split; [|split]].
  - rewrite initialized_timers. cbn [timers set_timers set_clock]. now rewrite Htimers.
  - rewrite initialized_sockets. cbn [sockets heap set_timers set_clock]. unfold st1.
    cbn [sockets heap emit set_timers]. now rewrite Hck, Hqk, Hch, length_alter, Hlen.
  - rewrite get_initialized. cbn [sockets clock set_timers set_clock].
    rewrite Hclock. unfold st1. cbn [sockets emit set_timers]. now rewrite Hck, Hqk.
  - rewrite initialized_clock. cbn [clock set_timers set_clock]. now rewrite Hclock.
Qed.

Lemma retries_run loggedOut updates :
  forall st k c,
    timers st = [] ->
    length (sockets st) = S k ->
    sockets st !! k = Some c ->
    Forall (fun u => ordinary_close loggedOut u = true) updates ->
    exists st' c',
      run loggedOut (retries k updates) st = Some st'
      /\ timers st' = []
      /\ length (sockets st') = (S k + length updates)%nat
      /\ sockets st' !! (k + length updates)%nat = Some c'
      /\ c_sessionId c' = c_sessionId c
      /\ clock st' = clock st + 3000 * Z.of_nat (length updates)
      /\ (updates <> [] ->
          get (c_sessionId c) st'
          = Some (mkSession (c_sessionId c) (Some (k + length updates)%nat) None
                    "connecting" (clock st'))).
Proof.
  induction updates as [|u rest IH]; intros st k c Ht Hlen Hc Hall.
  - exists st, c. cbn. rewrite Nat.add_0_r. repeat split; try assumption; try lia.
    congruence.
  - apply Forall_cons in Hall as [Hu Hrest].
    destruct (retry_cycle loggedOut st k c u Ht Hc Hu) as (st3 & Hrun & Ht3 & Hk3 & Hg3 & Hc3).
    cbn [retries]. rewrite run_app, Hrun.
    assert (Hlen3 : length (sockets st3) = S (S k)).
    { rewrite Hk3, length_app. cbn. lia. }
    assert (Hnew : sockets st3 !! S k
                   = Some (mkClosure (c_sessionId c) (length (heap st))
                             (authFolderOf (c_sessionId c)))).
    { rewrite Hk3. apply list_lookup_middle. now symmetry. }
    destruct (IH st3 (S k) _ Ht3 Hlen3 Hnew Hrest)
      as (st' & c' & Hrun' & Ht' & Hlen' & Hc' & Hid' & Hclock' & Hget').
    exists st', c'. cbn [length c_sessionId] in *.
    replace (k + S (length rest))%nat with (S k + length rest)%nat by lia.
    split; [exact Hrun'|]. split; [exact Ht'|]. split; [rewrite Hlen'; lia|].
    split; [exact Hc'|]. split; [exact Hid'|]. split; [rewrite Hclock', Hc3; lia|].
    intros _. destruct rest as [|u2 rest2].
    + cbn in Hrun'. injection Hrun' as <-. rewrite Hg3, Hlen, Hc3.
      cbn [length]. now rewrite Nat.add_0_r.
    + apply Hget'. discriminate.
Qed.

(** X19. The multi-session server retries without limit: starting with no
    pending timer and the session's socket being the last one made, after
    any number of rounds in which the current socket closes for a reason
    other than logged-out and three seconds pass, every round has made one
    more socket for the same session id, no timer is left pending, and the
    registry holds for the id a record with status connecting on the socket
    made last. *)
Theorem reconnects_without_limit :
  forall loggedOut updates st k c,
    timers st = [] ->
    length (sockets st) = S k ->
    sockets st !! k = Some c ->
    Forall (fun u => ordinary_close loggedOut u = true) updates ->
    exists st' c',
      run loggedOut (retries k updates) st = Some st'
      /\ timers st' = []
      /\ length (sockets st') = (length (sockets st) + length updates)%nat
      /\ sockets st' !! (k + length updates)%nat = Some c'
      /\ c_sessionId c' = c_sessionId c
      /\ clock st' = clock st + 3000 * Z.of_nat (length updates)
      /\ (updates <> [] ->
          get (c_sessionId c) st'
          = Some (mkSession (c_sessionId c) (Some (k + length updates)%nat) None
                    "connecting" (clock st'))).
Proof.
  intros loggedOut updates st k c Ht Hlen Hc Hall.
  destruct (retries_run loggedOut updates st k c Ht Hlen Hc Hall)
    as (st' & c' & H1 & H2 & H3 & H4).
  exists st', c'. rewrite Hlen. now repeat split.
Qed.

Lemma reconnects_without_limit_witness :
  exists st',
    run 401 (retries 0 [close_with 408; close_with 428; close_with 515])
      (initialized "s1" booted) = Some st'
    /\ length (sockets st') = 4%nat
    /\ option_map s_sock (get "s1" st') = Some (Some 3%nat).
Proof.
  destruct (reconnects_without_limit 401 [close_with 408; close_with 428; close_with 515]
              (initialized "s1" booted) 0%nat (mkClosure "s1" 0 "baileys_auth_s1"))
    as (st' & c' & Hrun & _ & Hlen & _ & _ & _ & Hget);
    [reflexivity | reflexivity | reflexivity | repeat constructor |].
  exists st'. split; [exact Hrun|]. split; [exact Hlen|].
  cbn [c_sessionId] in Hget. rewrite Hget by discriminate. reflexivity.
Defined.

(** *** Session ids made from the clock *)





(** *** A session that was just created *)

(** X21. Right after a create request has made a session, the status
    route of the new id reports status connecting, connected false, no QR
    code and the creation time; the QR route of the id answers 404 (no QR
    code available); and a further create request for the id is answered
    409 and changes nothing. *)
Theorem routes_after_create :
  forall requested st,
    sessions st !! requested_id requested st = None ->
    let sessionId := requested_id requested st in
    let st' := snd (post_api_sessions_create requested st) in
    fst (get_api_sessions_status sessionId st')
    = Normal (mkResponse 200
                (JObj [("sessionId", JStr sessionId);
                       ("connected", JBool false);
                       ("status", JStr "connecting");
                       ("hasQR", JBool false);
                       ("createdAt", JStr (JSDate.toISOString (clock st)))]))
    /\ fst (get_api_sessions_qr sessionId st')
       = Normal (mkResponse 404 (JObj [("error", JStr "No QR code available")]))
    /\ post_api_sessions_create (Some sessionId) st'
       = (Normal (mkResponse 409 (JObj [("error", JStr "Session already exists")])), st').
Proof.
  intros requested st Hfree sessionId st'.
  assert (Hst' : st' = initialized sessionId st).
  { unfold st'. rewrite create_run, (has_false _ _ Hfree). reflexivity. }
  rewrite Hst', status_route_run, qr_route_run, get_initialized, create_run.
  change (requested_id (Some sessionId) (initialized sessionId st)) with sessionId.
  rewrite (has_true sessionId (initialized sessionId st) (length (heap st)))
    by (rewrite initialized_sessions; apply lookup_insert_eq).
  repeat split.
Qed.

Lemma routes_after_create_witness :
  fst (get_api_sessions_qr "s1" (snd (post_api_sessions_create (Some "s1") booted)))
  = Normal (mkResponse 404 (JObj [("error", JStr "No QR code available")])).
Proof.
  now destruct (routes_after_create (Some "s1") booted eq_refl) as (_ & Hqr & _).
Defined.
